(** * go-papi-lite: session and pagination layer of [papi_lite.go]

    A shallow embedding of [PapiSession] and of the operations
    [NewSession], [Connect], [Disconnect], [Reconnect], [SendRaw], [Send]
    and [setHeaders], followed by the properties of the session and
    transport layer that are checked against it.

    The HTTP peer, [encoding/json] and [net/url] are not part of the
    package; they enter as the variables of [Section Transport]. *)

From Stdlib Require Import ZArith Ascii String PrimFloat.
From stdpp Require Import base option list strings gmap fin_maps.

Set Warnings "-register-all,-abstract-large-number".

Local Open Scope Z_scope.
Local Open Scope string_scope.

(** ** Constants of the package *)

Definition defaultConnTimeout : Z := 120.
Definition defaultMaxReauthCount : Z := 1.
Definition sessionPath : string := "session/1/session".
Definition maxCount : nat := 10000.

(** ** Values decoded by [encoding/json] into [interface{}]

    [json.Unmarshal] into a [map[string]interface{}] yields [nil], [bool],
    [float64], [string], [[]interface{}] and nested
    [map[string]interface{}] values.  Nested objects are never inspected
    by the package, so they are kept as association lists. *)

Inductive JSON : Type :=
| JNull
| JBool (b : bool)
| JNumber (x : float)
| JString (s : string)
| JArray (l : list JSON)
| JObject (fields : list (string * JSON)).

(** ** Cookie patterns of [Connect]

    [rexSession] is [.*isisessid=(?P<session>[^;]+).*] and [rexCsrf] is
    [.*isicsrf=(?P<csrf>[^;]+).*].  With the leading greedy [.*] the
    submatch is taken after the last occurrence of the cookie name that is
    followed by at least one character other than [;], and it extends to
    the next [;] or to the end of the value.  (A header value holds no
    line break, so [.] matches every character of it.) *)

Fixpoint strip_prefix (p s : string) : option string :=
  match p, s with
  | EmptyString, _ => Some s
  | String a p', String b s' =>
      if Ascii.eqb a b then strip_prefix p' s' else None
  | String _ _, EmptyString => None
  end.

Fixpoint until_semicolon (s : string) : string :=
  match s with
  | EmptyString => EmptyString
  | String c s' =>
      if Ascii.eqb c ";" then EmptyString else String c (until_semicolon s')
  end.

Definition capture_here (name s : string) : option string :=
  match strip_prefix name s with
  | Some rest =>
      match until_semicolon rest with
      | EmptyString => None
      | tok => Some tok
      end
  | None => None
  end.

Fixpoint capture_last (name s : string) : option string :=
  match s with
  | EmptyString => capture_here name s
  | String _ s' =>
      match capture_last name s' with
      | Some tok => Some tok
      | None => capture_here name s
      end
  end.

(** [rexSession.FindStringSubmatch(v)]: [None] is the [nil] match,
    [Some tok] is [match[1]]. *)
Definition rexSession (v : string) : option string := capture_last "isisessid=" v.
Definition rexCsrf (v : string) : option string := capture_last "isicsrf=" v.

(** ** Header names: [textproto.CanonicalMIMEHeaderKey]

    [http.Header.Add] stores a value under the canonical form of the name:
    when every byte is a token character, the first letter and every
    letter after a [-] are upper case and the others lower case; a name
    with any other byte is left as it is. *)

Definition byte_in (lo hi : string) (c : ascii) : bool :=
  match lo, hi with
  | String l _, String h _ =>
      (N_of_ascii l <=? N_of_ascii c)%N && (N_of_ascii c <=? N_of_ascii h)%N
  | _, _ => false
  end.

Definition validHeaderFieldByte (c : ascii) : bool :=
  byte_in "a" "z" c || byte_in "A" "Z" c || byte_in "0" "9" c
  || existsb (Ascii.eqb c) (list_ascii_of_string "!#$%&'*+-.^_`|~").

Definition toLower : N := 32.

Definition canon_byte (upper : bool) (c : ascii) : ascii :=
  if upper && byte_in "a" "z" c then ascii_of_N (N_of_ascii c - toLower)
  else if negb upper && byte_in "A" "Z" c then ascii_of_N (N_of_ascii c + toLower)
  else c.

Fixpoint canon_from (upper : bool) (s : string) : string :=
  match s with
  | EmptyString => EmptyString
  | String c s' =>
      let c' := canon_byte upper c in
      String c' (canon_from (Ascii.eqb c' "-") s')
  end.

Definition CanonicalMIMEHeaderKey (s : string) : string :=
  if forallb validHeaderFieldByte (list_ascii_of_string s)
  then canon_from true s
  else s.

(** [http.Header] is [map[string][]string]. *)
Definition Header_Add (k v : string) (h : gmap string (list string))
  : gmap string (list string) :=
  let key := CanonicalMIMEHeaderKey k in
  <[key := (default [] (h !! key) ++ [v])%list]> h.

(** ** The session *)

(** [time.Duration] is an [int64] count of nanoseconds, and its
    multiplication wraps around. *)
Definition int64_wrap (z : Z) : Z := (z + 2 ^ 63) mod 2 ^ 64 - 2 ^ 63.

Definition Second : Z := 1000000000.

(** [time.Duration(t) * time.Second] *)
Definition Duration_seconds (t : Z) : Z := int64_wrap (t * Second).

(** What [init] puts into the [http.Client]: [Timeout] is a
    [time.Duration]. *)
Record HttpClient : Type := mkClient {
  Timeout : Z;
  InsecureSkipVerify : bool
}.

Record PapiSession : Type := mkSession {
  User : string;
  Password : string;
  Endpoint : string;
  IgnoreCert : bool;
  SessionToken : string;
  CsrfToken : string;
  Client : option HttpClient;
  ConnTimeout : Z;
  reauthCount : Z
}.

Definition NewSession (endpoint : string) : PapiSession :=
  {| User := ""; Password := ""; Endpoint := endpoint; IgnoreCert := false;
     SessionToken := ""; CsrfToken := ""; Client := None;
     ConnTimeout := defaultConnTimeout; reauthCount := 0 |}.

Definition set_Client (c : option HttpClient) (ctx : PapiSession) : PapiSession :=
  {| User := User ctx; Password := Password ctx; Endpoint := Endpoint ctx;
     IgnoreCert := IgnoreCert ctx; SessionToken := SessionToken ctx;
     CsrfToken := CsrfToken ctx; Client := c;
     ConnTimeout := ConnTimeout ctx; reauthCount := reauthCount ctx |}.

Definition set_SessionToken (t : string) (ctx : PapiSession) : PapiSession :=
  {| User := User ctx; Password := Password ctx; Endpoint := Endpoint ctx;
     IgnoreCert := IgnoreCert ctx; SessionToken := t;
     CsrfToken := CsrfToken ctx; Client := Client ctx;
     ConnTimeout := ConnTimeout ctx; reauthCount := reauthCount ctx |}.

Definition set_CsrfToken (t : string) (ctx : PapiSession) : PapiSession :=
  {| User := User ctx; Password := Password ctx; Endpoint := Endpoint ctx;
     IgnoreCert := IgnoreCert ctx; SessionToken := SessionToken ctx;
     CsrfToken := t; Client := Client ctx;
     ConnTimeout := ConnTimeout ctx; reauthCount := reauthCount ctx |}.

Definition set_reauthCount (n : Z) (ctx : PapiSession) : PapiSession :=
  {| User := User ctx; Password := Password ctx; Endpoint := Endpoint ctx;
     IgnoreCert := IgnoreCert ctx; SessionToken := SessionToken ctx;
     CsrfToken := CsrfToken ctx; Client := Client ctx;
     ConnTimeout := ConnTimeout ctx; reauthCount := n |}.

Definition SetEndpoint (s : string) (ctx : PapiSession) : PapiSession * string :=
  ({| User := User ctx; Password := Password ctx; Endpoint := s;
      IgnoreCert := IgnoreCert ctx; SessionToken := SessionToken ctx;
      CsrfToken := CsrfToken ctx; Client := Client ctx;
      ConnTimeout := ConnTimeout ctx; reauthCount := reauthCount ctx |},
   Endpoint ctx).

(** [init]: builds the client from [IgnoreCert] and [ConnTimeout]. *)
Definition init (ctx : PapiSession) : PapiSession :=
  set_Client (Some {| Timeout := Duration_seconds (ConnTimeout ctx);
                      InsecureSkipVerify := IgnoreCert ctx |}) ctx.

(** ** [setHeaders] *)

Definition defaultHeaders (ctx : PapiSession) : list (string * string) :=
  [ ("Accept", "application/json");
    ("Cookie", "isisessid=" +:+ SessionToken ctx);
    ("Content-Type", "application/json");
    ("Referer", Endpoint ctx);
    ("X-CSRF-Token", CsrfToken ctx) ].

(** First loop: [req.Header[k] = []string{v}] for every supplied header. *)
Definition set_supplied (headers : gmap string string)
    (h : gmap string (list string)) : gmap string (list string) :=
  ((λ v, [v]) <$> headers) ∪ h.

(** Body of the second loop. *)
Definition add_default (h : gmap string (list string)) (kv : string * string)
  : gmap string (list string) :=
  match h !! kv.1 with
  | Some _ => h
  | None => Header_Add kv.1 kv.2 h
  end.

Definition add_defaults (defaults : list (string * string))
    (h : gmap string (list string)) : gmap string (list string) :=
  foldl add_default h defaults.

(** [setHeaders(req, ctx, headers)], as a function of [req.Header]. *)
Definition setHeaders (reqHeader : gmap string (list string))
    (ctx : PapiSession) (headers : gmap string string)
  : gmap string (list string) :=
  add_defaults (defaultHeaders ctx) (set_supplied headers reqHeader).

(** ** Page merge of [Send]

    [jsonBody] and the decoded page [jsonTemp] are [map[string]interface{}].
    A slice stored in [jsonBody] may share its backing array with the one
    still held by [jsonTemp]; [append] writes only past the length of the
    slice it extends, so the elements either map can read never change and
    the maps are modelled by value. *)

(** The inner loop: [jsonBody[key] = append(jsonBody[key].([]interface{}), v)]
    for each [v] of the page's slice. *)
Definition append_each (sval dval : list JSON) : list JSON :=
  foldl (λ acc v, (acc ++ [v])%list) sval dval.

(** Body of the loop over the keys of the page.  [None] is the run-time
    panic of the unchecked assertion [dval.([]interface{})]. *)
Definition mergeKey (jsonBody : gmap string JSON) (kv : string * JSON)
  : option (gmap string JSON) :=
  let '(key, dval) := kv in
  match jsonBody !! key with
  | Some (JArray sval) =>
      match dval with
      | JArray dl => Some (<[key := JArray (append_each sval dl)]> jsonBody)
      | _ => None
      end
  | Some _ => Some (<[key := dval]> jsonBody)
  | None => Some (<[key := dval]> jsonBody)
  end.

Definition mergeList (jsonBody : gmap string JSON) (page : list (string * JSON))
  : option (gmap string JSON) :=
  foldl (λ acc kv, acc ≫= λ jb, mergeKey jb kv) (Some jsonBody) page.

(** [for key, dval := range jsonTemp { ... }] *)
Definition mergePage (jsonBody jsonTemp : gmap string JSON)
  : option (gmap string JSON) :=
  mergeList jsonBody (map_to_list jsonTemp).

(** The three [delete] calls before the merge. *)
Definition strip_meta (jsonTemp : gmap string JSON) : gmap string JSON :=
  delete "total" (delete "resume" (delete "errors" jsonTemp)).

(** ** Requests, responses and errors *)

(** The [path interface{}] argument: a string, a slice of strings, or a
    value of another type (on which the type assertion panics). *)
Inductive PathArg : Type :=
| PathString (p : string)
| PathSegments (l : list string)
| PathOther.

(** The [body interface{}] argument. *)
Inductive BodyArg : Type :=
| BodyNil
| BodyBytes (b : string)
| BodyString (b : string)
| BodyOther.

(** What the request carries as its body. *)
Inductive Payload : Type :=
| NoPayload
| RawPayload (b : string)
| SessionRequest (username password : string) (services : list string).

(** The result of [GetURL]: the endpoint, the path appended to it and the
    query values that are encoded into it. *)
Record URL : Type := mkURL {
  url_endpoint : string;
  url_path : string;
  url_query : gmap string string
}.

Record Request : Type := mkRequest {
  Method : string;
  Target : URL;
  ReqBody : Payload;
  Header : gmap string (list string)
}.

(** [BodyError] is the error of [ioutil.ReadAll(resp.Body)]. *)
Record Response : Type := mkResponse {
  StatusCode : Z;
  SetCookie : list string;
  Body : string;
  BodyError : bool
}.

(** The pair returned by [Client.Do]. *)
Inductive Reply : Type :=
| Reply_ok (resp : Response)
| Reply_err (msg : string).

(** The result of [json.Unmarshal(rawBody, &jsonTemp)] on the raw text:
    an error (invalid text, or a value that is not an object), the
    literal [null], or an object. *)
Inductive Decoded : Type :=
| DecError
| DecNull
| DecObject (m : gmap string JSON).

Inductive Error : Type :=
| TransportError (msg : string)
| ConnectNewRequest
| ConnectDo (msg : string)
| ConnectStatus (body : string)
| ConnectNoSessionToken
| ConnectNoCsrfToken
| DisconnectNewRequest
| DisconnectDo (msg : string)
| SendRawRequest
| SendSendRaw (e : Error)
| SendReadBody
| SendNon2xx (code : Z) (body : string)
| SendUnmarshal
| SendErrorsInJSON (ekey : JSON).

(** The pair returned by [SendRaw]. *)
Inductive RawResult : Type :=
| RawResp (resp : Response)
| RawErr (e : Error).

(** The pair returned by [Send]: [SendOk None] is [(nil, nil)]. *)
Inductive SendResult : Type :=
| SendOk (payload : option (gmap string JSON))
| SendErr (e : Error).

Definition outside2xx (code : Z) : bool := (code <? 200)%Z || (299 <? code)%Z.

(** [Unmarshal] reuses a map that is not [nil] and keeps its entries; the
    keys of the text overwrite, [null] sets the map to [nil].  A [nil]
    map reads as the empty map everywhere in [Send]. *)
Definition unmarshal_into (d : Decoded) (jsonTemp : gmap string JSON)
  : option (gmap string JSON) :=
  match d with
  | DecError => None
  | DecNull => Some ∅
  | DecObject m => Some (m ∪ jsonTemp)
  end.

(** The cookie loop of [Connect], one header value at a time. *)
Definition scan_cookie (ctx : PapiSession) (v : string) : PapiSession :=
  match rexSession v with
  | Some tok => set_SessionToken tok ctx
  | None =>
      match rexCsrf v with
      | Some tok => set_CsrfToken tok ctx
      | None => ctx
      end
  end.

Definition scan_cookies (ctx : PapiSession) (sessionID : list string) : PapiSession :=
  foldl scan_cookie ctx sessionID.

(** ** The operations on a session *)

(** The method of the request that [http.NewRequest] builds: the empty
    method stands for GET. *)
Definition NewRequest_method (method : string) : string :=
  if decide (method = "") then "GET" else method.

Section Transport.

(** The peer: its state, and what [Client.Do] returns for a request
    sent through a client. *)
Variable World : Type.
Variable Client_Do : World → HttpClient → Request → World * Reply.

(** [encoding/json] on the raw text of a body. *)
Variable json_Unmarshal : string → Decoded.

(** [net/url] and [net/http]: whether [url.Parse] accepts the endpoint,
    and whether [http.NewRequest] accepts the method and the URL built
    from the endpoint and the path (the encoded query is always
    accepted). *)
Variable url_Parse_ok : string → bool.
Variable NewRequest_ok : string → string → string → bool.

(** The state threaded through the calls: the peer, the exchanges made
    through [Client.Do] so far (oldest first), and the session [*ctx]. *)
Record State : Type := mkState {
  world : World;
  trace : list (Request * Reply);
  sess : PapiSession
}.

Definition with_sess (ctx : PapiSession) (s : State) : State :=
  {| world := world s; trace := trace s; sess := ctx |}.

(** How a call ends: it returns, it panics, or the recursion budget of
    the model is used up before it returns. *)
Inductive Outcome (A : Type) : Type :=
| Done (s : State) (a : A)
| Panicked (s : State)
| Starved (s : State).
Arguments Done {A} s a.
Arguments Panicked {A} s.
Arguments Starved {A} s.

Definition bind {A B : Type} (m : Outcome A) (k : State → A → Outcome B)
  : Outcome B :=
  match m with
  | Done s a => k s a
  | Panicked s => Panicked s
  | Starved s => Starved s
  end.

Definition final {A : Type} (o : Outcome A) : State :=
  match o with
  | Done s _ => s
  | Panicked s => s
  | Starved s => s
  end.

(** [GetURL]: [None] is the panic on the [nil] URL of a rejected
    endpoint, or on a path that is neither a string nor a slice.  The
    URL is kept as its parts: for an endpoint of the form that
    [SetEndpoint] documents, [scheme://host:port], the string that
    [x.String()] returns is the endpoint followed by the path and the
    encoded query. *)
Definition GetURL (ctx : PapiSession) (path : PathArg)
    (query : gmap string string) : option URL :=
  if url_Parse_ok (Endpoint ctx) then
    match path with
    | PathSegments l => Some (mkURL (Endpoint ctx) (String.concat "/" l) query)
    | PathString p => Some (mkURL (Endpoint ctx) p query)
    | PathOther => None
    end
  else None.

(** [ctx.Client.Do(req)], recording the exchange. *)
Definition Do (c : HttpClient) (req : Request) (s : State) : State * Reply :=
  let '(w, r) := Client_Do (world s) c req in
  ({| world := w; trace := trace s ++ [(req, r)]; sess := sess s |}, r).

(** The request of [Disconnect]. *)
Definition logout_request (ctx : PapiSession) (u : URL) : Request :=
  mkRequest "DELETE" u NoPayload (setHeaders ∅ ctx ∅).

Definition Disconnect (s : State) : Outcome (option Error) :=
  let ctx := sess s in
  match Client ctx with
  | None => Done s None
  | Some c =>
      match GetURL ctx (PathString sessionPath) ∅ with
      | None => Panicked s
      | Some u =>
          if negb (NewRequest_ok "DELETE" (url_endpoint u) (url_path u))
          then Done s (Some DisconnectNewRequest)
          else
            let '(s1, r) := Do c (logout_request ctx u) s in
            let err := match r with
                       | Reply_ok _ => None
                       | Reply_err msg => Some (DisconnectDo msg)
                       end in
            Done (with_sess (set_CsrfToken "" (set_SessionToken ""
                               (set_Client None (sess s1)))) s1) err
      end
  end.

(** The request of [Connect]. *)
Definition login_request (ctx : PapiSession) (u : URL) : Request :=
  mkRequest "POST" u
    (SessionRequest (User ctx) (Password ctx) ["platform"; "namespace"])
    (Header_Add "Accept" "application/json"
       (Header_Add "Content-Type" "application/json" ∅)).

(** [Connect] up to the check of the status: the error it returns
    there, or the 2xx response. *)
Definition Connect_login (s : State) : Outcome (Error + Response) :=
  bind (Disconnect s) (λ s _,
  let s := match Client (sess s) with
           | None => with_sess (init (sess s)) s
           | Some _ => s
           end in
  let ctx := sess s in
  match GetURL ctx (PathString sessionPath) ∅ with
  | None => Panicked s
  | Some u =>
      if negb (NewRequest_ok "POST" (url_endpoint u) (url_path u))
      then Done s (inl ConnectNewRequest)
      else
        match Client ctx with
        | None => Panicked s
        | Some c =>
            let '(s, r) := Do c (login_request ctx u) s in
            match r with
            | Reply_err msg => Done s (inl (ConnectDo msg))
            | Reply_ok resp =>
                if outside2xx (StatusCode resp)
                then Done s (inl (ConnectStatus (Body resp)))
                else Done s (inr resp)
            end
        end
  end).

(** [Connect] from the cookie loop on. *)
Definition Connect_tokens (resp : Response) (s : State) : Outcome (option Error) :=
  let s := with_sess (scan_cookies (sess s) (SetCookie resp)) s in
  if decide (SessionToken (sess s) = "")
  then Done s (Some ConnectNoSessionToken)
  else if decide (CsrfToken (sess s) = "")
  then Done s (Some ConnectNoCsrfToken)
  else Done (with_sess (set_reauthCount 0 (sess s)) s) None.

Definition Connect (s : State) : Outcome (option Error) :=
  bind (Connect_login s) (λ s r,
  match r with
  | inl e => Done s (Some e)
  | inr resp => Connect_tokens resp s
  end).

Definition Reconnect (s : State) : Outcome (option Error) :=
  bind (Disconnect s) (λ s _, Connect s).

(** [SendRaw].  The request handed to [Client.Do] is the one that
    [http.NewRequest] has built: its method is GET when [method] is
    empty. *)
Definition SendRaw (method : string) (path : PathArg)
    (query : gmap string string) (body : BodyArg)
    (headers : gmap string string) (s : State) : Outcome RawResult :=
  let ctx := sess s in
  match match body with
        | BodyNil => Some NoPayload
        | BodyBytes b => Some (RawPayload b)
        | BodyString b => Some (RawPayload b)
        | BodyOther => None
        end with
  | None => Panicked s
  | Some reqBody =>
      match GetURL ctx path query with
      | None => Panicked s
      | Some u =>
          if negb (NewRequest_ok method (url_endpoint u) (url_path u))
          then Done s (RawErr SendRawRequest)
          else
            let req := mkRequest (NewRequest_method method) u reqBody
                         (setHeaders ∅ ctx headers) in
            match Client ctx with
            | None => Panicked s
            | Some c =>
                let '(s, r) := Do c req s in
                match r with
                | Reply_ok resp => Done s (RawResp resp)
                | Reply_err msg => Done s (RawErr (TransportError msg))
                end
            end
      end
  end.

(** The query of an iteration: replaced once a resume key is held. *)
Definition page_query (resumeKey : string) (query : gmap string string)
  : gmap string string :=
  if decide (resumeKey = "") then query else {[ "resume" := resumeKey ]}.

(** [rkey, resume = jsonTemp["resume"]] and the update of [resumeKey];
    [None] is the panic of [rkey.(string)]. *)
Definition next_resume (jsonTemp : gmap string JSON) (resumeKey : string)
  : option (bool * string) :=
  match jsonTemp !! "resume" with
  | None => Some (false, resumeKey)
  | Some JNull => Some (false, resumeKey)
  | Some (JString k) => Some (true, k)
  | Some _ => None
  end.

Section Loop.

Variables (method : string) (path : PathArg) (body : BodyArg)
          (headers : gmap string string).

(** The recursive call [ctx.Send(method, path, query, body, headers)]. *)
Variable retry : gmap string string → State → Outcome SendResult.

(** The [for] loop of [Send]; [n] is [maxCount - count]. *)
Fixpoint Send_loop (n : nat) (resumeKey : string)
    (query : gmap string string) (jsonBody jsonTemp : gmap string JSON)
    (s : State) : Outcome SendResult :=
  match n with
  | O => Done s (SendOk (Some jsonBody))
  | S n' =>
      let query := page_query resumeKey query in
      bind (SendRaw method path query body headers s) (λ s r,
      match r with
      | RawErr e => Done s (SendErr (SendSendRaw e))
      | RawResp resp =>
          if BodyError resp then Done s (SendErr SendReadBody)
          else if outside2xx (StatusCode resp) then
            if (StatusCode resp =? 401)%Z
               && negb (defaultMaxReauthCount <=? reauthCount (sess s))%Z
            then
              let s := with_sess (set_reauthCount (reauthCount (sess s) + 1)
                                    (sess s)) s in
              bind (Reconnect s) (λ s _, retry query s)
            else Done s (SendErr (SendNon2xx (StatusCode resp) (Body resp)))
          else if decide (Body resp = "") then Done s (SendOk None)
          else
            match unmarshal_into (json_Unmarshal (Body resp)) jsonTemp with
            | None => Done s (SendErr SendUnmarshal)
            | Some jsonTemp =>
                match next_resume jsonTemp resumeKey with
                | None => Panicked s
                | Some (resume, resumeKey) =>
                    match jsonBody !! "errors" with
                    | Some ekey => Done s (SendErr (SendErrorsInJSON ekey))
                    | None =>
                        let jsonTemp := strip_meta jsonTemp in
                        match mergePage jsonBody jsonTemp with
                        | None => Panicked s
                        | Some jsonBody =>
                            if resume
                            then Send_loop n' resumeKey query jsonBody jsonTemp s
                            else Done s (SendOk (Some jsonBody))
                        end
                    end
                end
            end
      end)
  end.

End Loop.

(** [Send]; [fuel] bounds the depth of the recursion on a 401. *)
Fixpoint Send (fuel : nat) (method : string) (path : PathArg)
    (query : gmap string string) (body : BodyArg)
    (headers : gmap string string) (s : State) : Outcome SendResult :=
  match fuel with
  | O => Starved s
  | S fuel' =>
      Send_loop method path body headers
        (λ query s, Send fuel' method path query body headers s)
        maxCount "" query ∅ ∅ s
  end.

End Transport.

Arguments Done {World A} s a.
Arguments Panicked {World A} s.
Arguments Starved {World A} s.
Arguments mkState {World} world trace sess.
Arguments world {World} s.
Arguments trace {World} s.
Arguments sess {World} s.
Arguments final {World A} o.
Arguments with_sess {World} ctx s.
Arguments bind {World A B} m k.
Arguments Connect_tokens {World} resp s.

(** The logins of a trace, and the replies with a given status. *)
Definition is_login (x : Request * Reply) : bool :=
  String.eqb (Method x.1) "POST" && String.eqb (url_path (Target x.1)) sessionPath.

Definition logins (t : list (Request * Reply)) : nat :=
  length (filter (λ x, is_login x = true) t).

Definition status_is (code : Z) (x : Request * Reply) : Prop :=
  match x.2 with
  | Reply_ok resp => StatusCode resp = code
  | Reply_err _ => False
  end.

(** The invariant of the data model: both tokens empty or both set. *)
Definition paired (ctx : PapiSession) : Prop :=
  (SessionToken ctx = "" ∧ CsrfToken ctx = "")
  ∨ (SessionToken ctx ≠ "" ∧ CsrfToken ctx ≠ "").

(** What the merge is to leave under a key of the page: the elements of
    the page after the accumulated ones when both values are arrays, the
    value of the page otherwise. *)
Definition merged (sval : option JSON) (dval : JSON) : JSON :=
  match sval, dval with
  | Some (JArray a), JArray b => JArray (a ++ b)
  | _, _ => dval
  end.

(** The accumulated value is an array and the value of the page is not. *)
Definition clash (sval : option JSON) (dval : JSON) : Prop :=
  ∃ a, sval = Some (JArray a) ∧ ∀ b, dval ≠ JArray b.

(** The method and the query of every request of a trace. *)
Definition queries (t : list (Request * Reply))
  : list (string * gmap string string) :=
  map (λ x, (Method x.1, url_query (Target x.1))) t.

(** The session resource can be addressed: [url.Parse] accepts the
    endpoint and [http.NewRequest] accepts the request on it. *)
Definition session_url_ok (url_Parse_ok : string → bool)
    (NewRequest_ok : string → string → string → bool)
    (method : string) (ctx : PapiSession) : Prop :=
  url_Parse_ok (Endpoint ctx) = true
  ∧ NewRequest_ok method (Endpoint ctx) sessionPath = true.

(** The submatch of the first value that a pattern matches. *)
Definition first_match (rex : string → option string) (l : list string)
  : option string :=
  head (omap rex l).

(** ** The other setters of the session

    Each one stores the new value and returns the old one, like
    [SetEndpoint] above. *)

Definition SetUser (s : string) (ctx : PapiSession) : PapiSession * string :=
  ({| User := s; Password := Password ctx; Endpoint := Endpoint ctx;
      IgnoreCert := IgnoreCert ctx; SessionToken := SessionToken ctx;
      CsrfToken := CsrfToken ctx; Client := Client ctx;
      ConnTimeout := ConnTimeout ctx; reauthCount := reauthCount ctx |},
   User ctx).

Definition SetPassword (s : string) (ctx : PapiSession) : PapiSession * string :=
  ({| User := User ctx; Password := s; Endpoint := Endpoint ctx;
      IgnoreCert := IgnoreCert ctx; SessionToken := SessionToken ctx;
      CsrfToken := CsrfToken ctx; Client := Client ctx;
      ConnTimeout := ConnTimeout ctx; reauthCount := reauthCount ctx |},
   Password ctx).

Definition SetIgnoreCert (b : bool) (ctx : PapiSession) : PapiSession * bool :=
  ({| User := User ctx; Password := Password ctx; Endpoint := Endpoint ctx;
      IgnoreCert := b; SessionToken := SessionToken ctx;
      CsrfToken := CsrfToken ctx; Client := Client ctx;
      ConnTimeout := ConnTimeout ctx; reauthCount := reauthCount ctx |},
   IgnoreCert ctx).

Definition SetConnTimeout (t : Z) (ctx : PapiSession) : PapiSession * Z :=
  ({| User := User ctx; Password := Password ctx; Endpoint := Endpoint ctx;
      IgnoreCert := IgnoreCert ctx; SessionToken := SessionToken ctx;
      CsrfToken := CsrfToken ctx; Client := Client ctx;
      ConnTimeout := t; reauthCount := reauthCount ctx |},
   ConnTimeout ctx).

(** ** The wrapper connection of [papi_wrapper.go] *)

Definition defaultPapiWrapperLatestPath : string := "platform/latest".
Definition defaultPapiWrapperPlatformPath : string := "platform/10".
Definition defaultPapiWrapperRanPath : string := "".
Definition defaultPapiWrapperServicePath : string := "".

(** [OnefsCfg]; the fields [User], [Password] and [Endpoint] carry a
    prefix here, the session has fields of those names. *)
Record OnefsCfg : Type := mkCfg {
  CfgUser : string;
  CfgPassword : string;
  CfgEndpoint : string;
  BypassCert : bool
}.

(** [OnefsConn] without its [Papi] pointer: the session it points to is
    the one of the state. *)
Record OnefsConn : Type := mkConn {
  PlatformPath : string;
  RanPath : string;
  ServicePath : string
}.

(** [NewPapiConn]: the paths of the new connection; its session is
    [NewSession ""]. *)
Definition NewPapiConn : OnefsConn :=
  {| PlatformPath := defaultPapiWrapperPlatformPath;
     RanPath := defaultPapiWrapperRanPath;
     ServicePath := defaultPapiWrapperServicePath |}.

Section Wrapper.

Variable World : Type.
Variable Client_Do : World → HttpClient → Request → World * Reply.
Variable json_Unmarshal : string → Decoded.
Variable url_Parse_ok : string → bool.
Variable NewRequest_ok : string → string → string → bool.

(** [GetPlatformLatest]: [inl] is [("", err)], [inr v] is [(v, nil)]; the
    assertion [jsonObj["latest"].(string)] panics on a [nil] map, on a
    missing key and on a value that is not a string. *)
Definition GetPlatformLatest (fuel : nat) (s : State World)
  : Outcome World (Error + string) :=
  bind (Send World Client_Do json_Unmarshal url_Parse_ok NewRequest_ok fuel
          "GET" (PathString defaultPapiWrapperLatestPath) ∅ BodyNil ∅ s)
       (λ s r,
          match r with
          | SendErr e => Done s (inl e)
          | SendOk jsonObj =>
              match jsonObj ≫= (.!! "latest") with
              | Some (JString v) => Done s (inr v)
              | _ => Panicked s
              end
          end).

(** [Connect] of [OnefsConn]. *)
Definition Onefs_Connect (fuel : nat) (cfg : OnefsCfg) (conn : OnefsConn)
    (s : State World) : Outcome World (OnefsConn * option Error) :=
  bind (Disconnect World Client_Do url_Parse_ok NewRequest_ok s) (λ s _,
  let s := with_sess (SetEndpoint (CfgEndpoint cfg) (sess s)).1 s in
  let s := with_sess (SetUser (CfgUser cfg) (sess s)).1 s in
  let s := with_sess (SetPassword (CfgPassword cfg) (sess s)).1 s in
  let s := with_sess (SetIgnoreCert (BypassCert cfg) (sess s)).1 s in
  bind (Connect World Client_Do url_Parse_ok NewRequest_ok s) (λ s err,
  match err with
  | Some e => Done s (conn, Some e)
  | None =>
      bind (GetPlatformLatest fuel s) (λ s r,
      match r with
      | inl _ => Done s (conn, None)
      | inr apiVer =>
          Done s ({| PlatformPath := "platform/" +:+ apiVer;
                     RanPath := RanPath conn;
                     ServicePath := ServicePath conn |}, None)
      end)
  end)).

End Wrapper.

(** ** Notions used in the statements *)

(** The configuration of a session: what the setters write. *)
Definition settings (ctx : PapiSession)
  : string * string * string * bool * Z :=
  (User ctx, Password ctx, Endpoint ctx, IgnoreCert ctx, ConnTimeout ctx).

(** [tok] stands in [v] right after [name] and ends at a [;] or at the
    end of [v]. *)
Definition captured_from (name tok v : string) : Prop :=
  ∃ pre post,
    v = pre +:+ name +:+ tok +:+ post
    ∧ (post = "" ∨ ∃ post', post = String ";" post').

(** What the anti-forgery branch of the cookie loop sees in a value. *)
Definition csrf_of (v : string) : option string :=
  match rexSession v with
  | Some _ => None
  | None => rexCsrf v
  end.

(** A login whose 2xx reply sets one of the two tokens and not the
    other. *)
Definition lone_cookie (x : Request * Reply) : Prop :=
  is_login x = true
  ∧ ∃ resp, x.2 = Reply_ok resp
      ∧ outside2xx (StatusCode resp) = false
      ∧ ¬ (is_Some (last (omap rexSession (SetCookie resp)))
           ↔ is_Some (last (omap csrf_of (SetCookie resp)))).

(** An operation that extends the trace and, on a session whose tokens
    are paired, leaves them paired unless one of its exchanges is such
    a login. *)
Definition pair_kept {World A : Type} (s : State World)
    (o : Outcome World A) : Prop :=
  ∃ new, trace (final o) = (trace s ++ new)%list
    ∧ (paired (sess s) → Forall (λ x, ¬ lone_cookie x) new →
       paired (sess (final o))).

(** A request for a page of a call: the method of the call (GET for the
    empty method) and its path, and the caller's query or a query that
    is a resume key alone. *)
Definition page_request (method path : string) (query : gmap string string)
    (x : Request * Reply) : Prop :=
  Method x.1 = NewRequest_method method
  ∧ url_path (Target x.1) = path
  ∧ (url_query (Target x.1) = query
     ∨ ∃ tok, url_query (Target x.1) = {[ "resume" := tok ]}).

(** A request on the session resource: the logout or the login. *)
Definition session_request (x : Request * Reply) : Prop :=
  url_path (Target x.1) = sessionPath
  ∧ (Method x.1 = "DELETE" ∨ Method x.1 = "POST").

(** A reply that does not start a re-authentication in a session whose
    counter is [count]: its status is not 401, or the counter is used up. *)
Definition no_reauth (count : Z) (x : Request * Reply) : Prop :=
  status_is 401 x → (defaultMaxReauthCount ≤ count)%Z.

(** A mapping without the three fields that [Send] removes from a page. *)
Definition payload_only (m : gmap string JSON) : Prop :=
  m !! "errors" = None ∧ m !! "resume" = None ∧ m !! "total" = None.

(** A request of a call to the endpoint [endpoint]: a page of the call,
    or a logout or login. *)
Definition call_request (endpoint method path : string)
    (query : gmap string string) (x : Request * Reply) : Prop :=
  url_endpoint (Target x.1) = endpoint
  ∧ (page_request method path query x ∨ session_request x).

(** An operation that leaves the configuration of the session alone and
    makes only exchanges that satisfy [P]. *)
Definition confined {World A : Type} (P : Request * Reply → Prop)
    (s : State World) (o : Outcome World A) : Prop :=
  settings (sess (final o)) = settings (sess s)
  ∧ ∃ new, trace (final o) = (trace s ++ new)%list ∧ Forall P new.

(** The call has used up the recursion budget of the model. *)
Definition starved {World A : Type} (o : Outcome World A) : Prop :=
  match o with
  | Starved _ => True
  | _ => False
  end.

(** The path that [GetURL] appends for a path argument. *)
Definition path_text (path : PathArg) : string :=
  match path with
  | PathString p => p
  | PathSegments l => String.concat "/" l
  | PathOther => ""
  end.

(** ** Concrete peers for the scenarios *)

(** A peer that answers the requests it receives with a fixed list of
    replies, in order, and fails the transport once the list is used up. *)
Definition scripted (w : list Reply) (c : HttpClient) (req : Request)
  : list Reply * Reply :=
  match w with
  | r :: w' => (w', r)
  | [] => ([], Reply_err "EOF")
  end.

(** JSON text is written with ['] where the text has the double quote. *)
Definition json_text (s : string) : string :=
  string_of_list_ascii
    (map (λ c, if Ascii.eqb c "'" then ascii_of_N 34 else c)
         (list_ascii_of_string s)).

Definition num (x : float) : JSON := JNumber x.

(** What [json.Unmarshal] yields on the texts used in the scenarios. *)
Definition decode_table : list (string * Decoded) :=
  [ (json_text "{'items':[1,2],'resume':'abc'}",
     DecObject {[ "items" := JArray [num 1; num 2]; "resume" := JString "abc" ]});
    (json_text "{'items':[3],'total':3}",
     DecObject {[ "items" := JArray [num 3]; "total" := num 3 ]});
    (json_text "{'items':[3]}",
     DecObject {[ "items" := JArray [num 3] ]});
    (json_text "{'more':[3]}",
     DecObject {[ "more" := JArray [num 3] ]});
    (json_text "{'items':'none'}",
     DecObject {[ "items" := JString "none" ]});
    (json_text "{'items':[1],'resume':''}",
     DecObject {[ "items" := JArray [num 1]; "resume" := JString "" ]});
    (json_text "{'errors':[{'code':'AEC_FORBIDDEN','message':'denied'}]}",
     DecObject {[ "errors" :=
       JArray [JObject [("code", JString "AEC_FORBIDDEN");
                        ("message", JString "denied")]] ]}) ].

Fixpoint table_Unmarshal (t : list (string * Decoded)) (text : string) : Decoded :=
  match t with
  | [] => DecError
  | (k, d) :: t' => if String.eqb k text then d else table_Unmarshal t' text
  end.

Definition demo_Unmarshal : string → Decoded := table_Unmarshal decode_table.

(** [url.Parse] and [http.NewRequest] accepting what they are given. *)
Definition any_endpoint (endpoint : string) : bool := true.
Definition any_request (method endpoint path : string) : bool := true.

Definition ok_json (text : string) : Reply :=
  Reply_ok (mkResponse 200 [] (json_text text) false).
Definition status_only (code : Z) (text : string) : Reply :=
  Reply_ok (mkResponse code [] text false).
Definition login_ok (cookies : list string) : Reply :=
  Reply_ok (mkResponse 201 cookies (json_text "{'services':['platform','namespace']}") false).

Definition both_cookies : list string :=
  [ "isisessid=5f2a-91; path=/; HttpOnly; Secure"; "isicsrf=c7d0-44; path=/; Secure" ].

(** A session as [Connect] leaves it on success. *)
Definition connected (endpoint : string) : PapiSession :=
  {| User := "admin"; Password := "secret"; Endpoint := endpoint;
     IgnoreCert := false; SessionToken := "old-sess"; CsrfToken := "old-csrf";
     Client := Some (mkClient (Duration_seconds defaultConnTimeout) false);
     ConnTimeout := defaultConnTimeout; reauthCount := 0 |}.

Definition cluster : string := "https://cluster.example.com:8080".

(** A peer whose login always succeeds and whose every other resource
    answers 401. *)
Definition expired (w : unit) (c : HttpClient) (req : Request) : unit * Reply :=
  if String.eqb (url_path (Target req)) sessionPath then
    if String.eqb (Method req) "POST" then (w, login_ok both_cookies)
    else (w, status_only 204 "")
  else (w, status_only 401 "Authorization required").

(** The operations against the scripted peer, on a connected session. *)
Definition scripted_Send :=
  Send (list Reply) scripted demo_Unmarshal any_endpoint any_request.
Definition scripted_loop :=
  Send_loop (list Reply) scripted demo_Unmarshal any_endpoint any_request.
Definition scripted_SendRaw :=
  SendRaw (list Reply) scripted any_endpoint any_request.
Definition scripted_Connect :=
  Connect (list Reply) scripted any_endpoint any_request.
Definition against (w : list Reply) (ctx : PapiSession) : State (list Reply) :=
  mkState w [] ctx.

Definition expired_Send :=
  Send unit expired demo_Unmarshal any_endpoint any_request.

Definition unauthorized : Reply := status_only 401 "Authorization required".
Definition logged_out : Reply := status_only 204 "".

(** A reply to the login with two values for each cookie. *)
Definition doubled_cookies : list string :=
  [ "isisessid=first; path=/"; "isicsrf=one; path=/";
    "isisessid=second; path=/"; "isicsrf=two; path=/" ].

(** [url.Parse] as far as the scenarios need it: it rejects [":"], an
    endpoint with nothing before its colon. *)
Definition colon_rejected (endpoint : string) : bool :=
  negb (String.eqb endpoint ":").

(** [http.NewRequest] refusing every DELETE. *)
Definition no_delete (method endpoint path : string) : bool :=
  negb (String.eqb method "DELETE").

(** The replies to a call for two pages of [items]. *)
Definition two_pages : list Reply :=
  [ ok_json "{'items':[1,2],'resume':'abc'}"; ok_json "{'items':[3],'total':3}" ].

(** The request for [items] that a connected session sends. *)
Definition items_request (query : gmap string string) : Request :=
  mkRequest "GET" (mkURL cluster "items" query) NoPayload
            (setHeaders ∅ (connected cluster) ∅).

(** What [json.Unmarshal] yields on the reply to the version lookup. *)
Definition latest_Unmarshal : string → Decoded :=
  table_Unmarshal
    [ (json_text "{'latest':'17'}", DecObject {[ "latest" := JString "17" ]}) ].

Definition scripted_Reconnect :=
  Reconnect (list Reply) scripted any_endpoint any_request.
Definition scripted_Connect_login :=
  Connect_login (list Reply) scripted any_endpoint any_request.
Definition scripted_GetPlatformLatest :=
  GetPlatformLatest (list Reply) scripted latest_Unmarshal any_endpoint any_request.
Definition scripted_Onefs_Connect :=
  Onefs_Connect (list Reply) scripted latest_Unmarshal any_endpoint any_request.

(** The endpoint a session is moved away from, and the configuration
    that moves it to [cluster]. *)
Definition old_cluster : string := "https://old.example.com:8080".
Definition cluster_cfg : OnefsCfg :=
  {| CfgUser := "root"; CfgPassword := "hunter2"; CfgEndpoint := cluster;
     BypassCert := true |}.

(** ** Tactics *)

Ltac canon_side :=
  repeat first [ apply Forall_nil_2 | apply Forall_cons_2 ];
  simpl; first [ by right | left; vm_compute; discriminate
               | vm_compute; discriminate ].

Ltac split_defaults ctx n :=
  exists (take n (defaultHeaders ctx)), (drop (S n) (defaultHeaders ctx));
  split; [reflexivity |]; repeat split; canon_side.

Ltac sess_simpl :=
  cbn [Endpoint User Password IgnoreCert ConnTimeout Client SessionToken
       CsrfToken reauthCount init set_Client set_CsrfToken set_SessionToken
       set_reauthCount with_sess sess world trace fst snd bind
       url_endpoint url_path url_query negb].

Ltac finish_bounded :=
  repeat split; simpl; try done; try lia; try tauto;
  try apply Forall_nil_2;
  try (apply Forall_cons_2; [assumption | apply Forall_nil_2]).

Ltac stop_after req resp :=
  exists [(req, Reply_ok resp)]; (split; [done |]); intros _; finish_bounded.

(** * Properties *)

Example canon_csrf : CanonicalMIMEHeaderKey "X-CSRF-Token" = "X-Csrf-Token".
Proof. reflexivity. Qed.

Example Duration_seconds_ex :
  Duration_seconds defaultConnTimeout = 120 * Second
  ∧ Duration_seconds (2 ^ 55 + 7) = 7 * Second.
Proof. split; reflexivity. Qed.

Example NewRequest_method_ex :
  NewRequest_method "" = "GET" ∧ NewRequest_method "DELETE" = "DELETE".
Proof. split; reflexivity. Qed.

Example rexSession_ex :
  rexSession "isisessid=abc-1; path=/; HttpOnly" = Some "abc-1".
Proof. reflexivity. Qed.

Example setHeaders_ex :
  setHeaders ∅ (set_CsrfToken "c" (set_SessionToken "s" (NewSession "https://h:8080")))
             {[ "Accept" := "text/plain" ]} !! "X-Csrf-Token" = Some ["c"].
Proof. vm_compute. reflexivity. Qed.

(** ** Header assembly *)

Lemma canon_defaults :
  CanonicalMIMEHeaderKey "Accept" = "Accept"
  ∧ CanonicalMIMEHeaderKey "Cookie" = "Cookie"
  ∧ CanonicalMIMEHeaderKey "Content-Type" = "Content-Type"
  ∧ CanonicalMIMEHeaderKey "Referer" = "Referer"
  ∧ CanonicalMIMEHeaderKey "X-CSRF-Token" = "X-Csrf-Token".
Proof. repeat split; reflexivity. Qed.

Lemma lookup_set_supplied (headers : gmap string string) (k : string) :
  set_supplied headers ∅ !! k = (λ v, [v]) <$> headers !! k.
Proof.
  unfold set_supplied. rewrite lookup_union, lookup_fmap, lookup_empty.
  by destruct (headers !! k).
Qed.

Lemma lookup_add_default (h : gmap string (list string)) (k v j : string) :
  add_default h (k, v) !! j =
    match h !! k with
    | Some _ => h !! j
    | None =>
        if decide (CanonicalMIMEHeaderKey k = j)
        then Some (default [] (h !! j) ++ [v])%list
        else h !! j
    end.
Proof.
  unfold add_default, Header_Add; simpl.
  destruct (h !! k); [done |].
  rewrite lookup_insert. case_decide; by subst.
Qed.

Lemma lookup_add_defaults_other (l : list (string * string))
    (h : gmap string (list string)) (j : string) :
  Forall (λ kv, CanonicalMIMEHeaderKey kv.1 ≠ j) l →
  add_defaults l h !! j = h !! j.
Proof.
  unfold add_defaults. revert h.
  induction l as [| [k v] l IH]; intros h Hl; [done |].
  inversion_clear Hl as [| ? ? Hk Hl']. simpl in *.
  rewrite IH by done. rewrite lookup_add_default.
  destruct (h !! k); [done |]. by case_decide.
Qed.

Lemma lookup_add_defaults_at (l1 l2 : list (string * string)) (k v : string)
    (h : gmap string (list string)) :
  Forall (λ kv, CanonicalMIMEHeaderKey kv.1 ≠ k) l1 →
  Forall (λ kv, CanonicalMIMEHeaderKey kv.1 ≠ CanonicalMIMEHeaderKey k) l1 →
  Forall (λ kv, CanonicalMIMEHeaderKey kv.1 ≠ CanonicalMIMEHeaderKey k) l2 →
  add_defaults (l1 ++ (k, v) :: l2) h !! CanonicalMIMEHeaderKey k =
    match h !! k with
    | Some _ => h !! CanonicalMIMEHeaderKey k
    | None => Some (default [] (h !! CanonicalMIMEHeaderKey k) ++ [v])%list
    end.
Proof.
  intros H1 H1' H2. unfold add_defaults. rewrite foldl_app. simpl.
  fold (add_defaults l1 h).
  fold (add_defaults l2 (add_default (add_defaults l1 h) (k, v))).
  rewrite lookup_add_defaults_other by done.
  rewrite lookup_add_default.
  rewrite !lookup_add_defaults_other by done.
  destruct (h !! k); [done |]. by rewrite decide_True.
Qed.


(** The lookup of a default's canonical name after the second loop, for
    the default at any position of [defaultHeaders]. *)
Lemma lookup_default_header ctx (h : gmap string (list string))
    (l1 l2 : list (string * string)) (k v : string) :
  defaultHeaders ctx = (l1 ++ (k, v) :: l2)%list →
  Forall (λ kv, CanonicalMIMEHeaderKey kv.1 ≠ k) l1 →
  Forall (λ kv, CanonicalMIMEHeaderKey kv.1 ≠ CanonicalMIMEHeaderKey k) l1 →
  Forall (λ kv, CanonicalMIMEHeaderKey kv.1 ≠ CanonicalMIMEHeaderKey k) l2 →
  add_defaults (defaultHeaders ctx) h !! CanonicalMIMEHeaderKey k =
    match h !! k with
    | Some _ => h !! CanonicalMIMEHeaderKey k
    | None => Some (default [] (h !! CanonicalMIMEHeaderKey k) ++ [v])%list
    end.
Proof. intros ->. apply lookup_add_defaults_at. Qed.

Lemma lookup_add_defaults_present (l : list (string * string))
    (h : gmap string (list string)) (k : string) (x : list string) :
  h !! k = Some x →
  Forall (λ kv, CanonicalMIMEHeaderKey kv.1 ≠ k ∨ kv.1 = k) l →
  add_defaults l h !! k = Some x.
Proof.
  unfold add_defaults. revert h.
  induction l as [| [d dv] l IH]; intros h Hk Hl; [done |].
  inversion_clear Hl as [| ? ? Hd Hl']. simpl in *.
  apply IH; [| done]. rewrite lookup_add_default.
  destruct Hd as [Hd | ->]; [| by rewrite Hk].
  destruct (h !! d); [done |]. by rewrite decide_False.
Qed.

Lemma default_header_cases ctx (k v : string) :
  (k, v) ∈ defaultHeaders ctx →
  ∃ l1 l2,
    defaultHeaders ctx = (l1 ++ (k, v) :: l2)%list
    ∧ Forall (λ kv, CanonicalMIMEHeaderKey kv.1 ≠ k) l1
    ∧ Forall (λ kv, CanonicalMIMEHeaderKey kv.1 ≠ CanonicalMIMEHeaderKey k) l1
    ∧ Forall (λ kv, CanonicalMIMEHeaderKey kv.1 ≠ CanonicalMIMEHeaderKey k) l2
    ∧ Forall (λ kv, CanonicalMIMEHeaderKey kv.1 ≠ k ∨ kv.1 = k) (defaultHeaders ctx).
Proof.
  unfold defaultHeaders. intros Hin.
  repeat (apply elem_of_cons in Hin as [Hin | Hin];
          [ injection Hin as -> -> | ]); [ .. | by apply elem_of_nil in Hin ].
  - split_defaults ctx 0%nat.
  - split_defaults ctx 1%nat.
  - split_defaults ctx 2%nat.
  - split_defaults ctx 3%nat.
  - split_defaults ctx 4%nat.
Qed.



(** ** Session life cycle *)

Section Lifecycle.

Context {World : Type}.
Variable Client_Do : World → HttpClient → Request → World * Reply.
Variable url_Parse_ok : string → bool.
Variable NewRequest_ok : string → string → string → bool.

Local Abbreviation Do := (Do World Client_Do).
Local Abbreviation Disconnect := (Disconnect World Client_Do url_Parse_ok NewRequest_ok).
Local Abbreviation Connect_login := (Connect_login World Client_Do url_Parse_ok NewRequest_ok).
Local Abbreviation Connect := (Connect World Client_Do url_Parse_ok NewRequest_ok).
Local Abbreviation Reconnect := (Reconnect World Client_Do url_Parse_ok NewRequest_ok).
Local Abbreviation session_url_ok := (session_url_ok url_Parse_ok NewRequest_ok).

Lemma Do_spec c req (s : State World) :
  Do c req s =
    (mkState (Client_Do (world s) c req).1
             (trace s ++ [(req, (Client_Do (world s) c req).2)]) (sess s),
     (Client_Do (world s) c req).2).
Proof. unfold Do. by destruct (Client_Do _ _ _). Qed.

Lemma GetURL_session ctx method :
  session_url_ok method ctx →
  GetURL url_Parse_ok ctx (PathString sessionPath) ∅ =
    Some (mkURL (Endpoint ctx) sessionPath ∅).
Proof. intros [Hp _]. unfold GetURL. by rewrite Hp. Qed.

Lemma Disconnect_no_client (s : State World) :
  Client (sess s) = None → Disconnect s = Done s None.
Proof. intros H. unfold Disconnect. by rewrite H. Qed.

Lemma Disconnect_client (s : State World) c :
  Client (sess s) = Some c →
  session_url_ok "DELETE" (sess s) →
  Disconnect s =
    Done (mkState
            (Client_Do (world s) c
               (logout_request (sess s) (mkURL (Endpoint (sess s)) sessionPath ∅))).1
            (trace s ++
               [(logout_request (sess s) (mkURL (Endpoint (sess s)) sessionPath ∅),
                 (Client_Do (world s) c
                    (logout_request (sess s)
                       (mkURL (Endpoint (sess s)) sessionPath ∅))).2)])
            (set_CsrfToken "" (set_SessionToken "" (set_Client None (sess s)))))
         match (Client_Do (world s) c
                  (logout_request (sess s)
                     (mkURL (Endpoint (sess s)) sessionPath ∅))).2 with
         | Reply_ok _ => None
         | Reply_err msg => Some (DisconnectDo msg)
         end.
Proof.
  intros Hc Hok. unfold Disconnect.
  rewrite Hc, (GetURL_session _ _ Hok). simpl.
  destruct Hok as [_ ->]. simpl. by rewrite Do_spec.
Qed.


(** *** The cookie loop *)

Lemma scan_cookies_app ctx (l1 l2 : list string) :
  scan_cookies ctx (l1 ++ l2) = scan_cookies (scan_cookies ctx l1) l2.
Proof. unfold scan_cookies. by rewrite foldl_app. Qed.

Lemma scan_keeps_session ctx (l : list string) :
  Forall (λ x, rexSession x = None) l →
  SessionToken (scan_cookies ctx l) = SessionToken ctx.
Proof.
  unfold scan_cookies. revert ctx.
  induction l as [| v l IH]; intros ctx Hl; [done |].
  inversion_clear Hl as [| ? ? Hv Hl']. simpl.
  rewrite IH by done. unfold scan_cookie. rewrite Hv.
  by destruct (rexCsrf v).
Qed.

Lemma scan_keeps_csrf ctx (l : list string) :
  Forall (λ x, is_Some (rexSession x) ∨ rexCsrf x = None) l →
  CsrfToken (scan_cookies ctx l) = CsrfToken ctx.
Proof.
  unfold scan_cookies. revert ctx.
  induction l as [| v l IH]; intros ctx Hl; [done |].
  inversion_clear Hl as [| ? ? Hv Hl']. simpl.
  rewrite IH by done. unfold scan_cookie.
  destruct Hv as [[t Ht] | Hv].
  - by rewrite Ht.
  - rewrite Hv. by destruct (rexSession v).
Qed.

Lemma Connect_tokens_final resp (s : State World) :
  SessionToken (sess (final (Connect_tokens resp s)))
    = SessionToken (scan_cookies (sess s) (SetCookie resp))
  ∧ CsrfToken (sess (final (Connect_tokens resp s)))
    = CsrfToken (scan_cookies (sess s) (SetCookie resp)).
Proof. unfold Connect_tokens. repeat case_decide; done. Qed.

(** C8 (as amended).  When the 2xx reply to the login carries several
    [Set-Cookie] values, each value is tried against the session pattern
    first and against the anti-forgery pattern only if the session
    pattern does not match it; for each token the last value that sets it
    determines what [Connect] leaves in the session. *)
Theorem Connect_last_cookie_wins (s s1 : State World) (resp : Response)
    (pre post : list string) (v tok : string) :
  Connect_login s = Done s1 (inr resp) →
  SetCookie resp = (pre ++ v :: post)%list →
  (rexSession v = Some tok →
   Forall (λ x, rexSession x = None) post →
   SessionToken (sess (final (Connect s))) = tok)
  ∧ (rexSession v = None → rexCsrf v = Some tok →
     Forall (λ x, is_Some (rexSession x) ∨ rexCsrf x = None) post →
     CsrfToken (sess (final (Connect s))) = tok).
Proof.
  intros Hlogin Hcookies. unfold Connect. rewrite Hlogin. simpl.
  destruct (Connect_tokens_final resp s1) as [-> ->].
  rewrite Hcookies, scan_cookies_app.
  change (v :: post) with ([v] ++ post)%list. rewrite scan_cookies_app.
  split.
  - intros Hv Hpost. rewrite scan_keeps_session by done.
    unfold scan_cookies; simpl. unfold scan_cookie. by rewrite Hv.
  - intros Hs Hv Hpost. rewrite scan_keeps_csrf by done.
    unfold scan_cookies; simpl. unfold scan_cookie. by rewrite Hs, Hv.
Qed.

Lemma capture_here_nonempty name v tok :
  capture_here name v = Some tok → tok ≠ "".
Proof.
  unfold capture_here. destruct (strip_prefix name v) as [rest |]; [| done].
  destruct (until_semicolon rest); [done |]. by intros [= <-].
Qed.

Lemma capture_last_nonempty name v tok :
  capture_last name v = Some tok → tok ≠ "".
Proof.
  induction v as [| c v IH]; simpl.
  - apply capture_here_nonempty.
  - destruct (capture_last name v); [intros [= <-]; by apply IH |].
    apply capture_here_nonempty.
Qed.

Lemma scan_cookies_last ctx (l : list string) :
  SessionToken (scan_cookies ctx l)
    = default (SessionToken ctx) (last (omap rexSession l))
  ∧ CsrfToken (scan_cookies ctx l)
    = default (CsrfToken ctx) (last (omap csrf_of l)).
Proof.
  induction l as [| v l IH] using rev_ind; [done |].
  rewrite scan_cookies_app, !omap_app. destruct IH as [IHs IHc].
  unfold scan_cookies at 1 3. simpl. unfold scan_cookie, csrf_of.
  destruct (rexSession v) as [t |]; simpl.
  - rewrite last_snoc, app_nil_r. done.
  - rewrite app_nil_r. destruct (rexCsrf v) as [t |]; simpl.
    + by rewrite last_snoc.
    + by rewrite app_nil_r.
Qed.

Lemma scan_cookies_paired ctx (l : list string) :
  paired ctx →
  (is_Some (last (omap rexSession l)) ↔ is_Some (last (omap csrf_of l))) →
  paired (scan_cookies ctx l).
Proof.
  intros Hp Hiff. unfold paired.
  destruct (scan_cookies_last ctx l) as [-> ->].
  destruct (last (omap rexSession l)) as [t1 |] eqn:H1;
    destruct (last (omap csrf_of l)) as [t2 |] eqn:H2; simpl.
  - right. split.
    + pose proof (last_Some_elem_of _ _ H1) as Hin.
      apply list_elem_of_omap in Hin as (v & _ & Hv).
      by apply capture_last_nonempty in Hv.
    + pose proof (last_Some_elem_of _ _ H2) as Hin.
      apply list_elem_of_omap in Hin as (v & _ & Hv).
      unfold csrf_of in Hv. destruct (rexSession v); [done |].
      by apply capture_last_nonempty in Hv.
  - destruct Hiff as [Hiff _]. by destruct (Hiff (mk_is_Some _ _ eq_refl)).
  - destruct Hiff as [_ Hiff]. by destruct (Hiff (mk_is_Some _ _ eq_refl)).
  - done.
Qed.

(** *** The token pair *)

Lemma Disconnect_paired (s : State World) :
  paired (sess s) → paired (sess (final (Disconnect s))).
Proof.
  intros Hp. unfold Disconnect.
  repeat (case_match; simpl; try done).
  rewrite Do_spec in *. simplify_eq/=. by left.
Qed.

Lemma Connect_login_paired (s : State World) :
  paired (sess s) → paired (sess (final (Connect_login s))).
Proof.
  intros Hp. apply Disconnect_paired in Hp. unfold Connect_login.
  destruct (Disconnect s) as [s1 e1 | s1 | s1]; simpl in *; try done.
  repeat (case_match; simpl; try done);
    rewrite ?Do_spec in *; simplify_eq/=; try done.
Qed.

Lemma Connect_success (s s' : State World) :
  Connect s = Done s' None →
  SessionToken (sess s') ≠ "" ∧ CsrfToken (sess s') ≠ ""
  ∧ reauthCount (sess s') = 0.
Proof.
  unfold Connect. destruct (Connect_login s) as [s1 [e | resp] | s1 | s1];
    simpl; try done.
  unfold Connect_tokens. repeat case_decide; try done.
  intros [= <-]. done.
Qed.

Lemma Connect_early_failure (s s' : State World) (e : Error) :
  Connect s = Done s' (Some e) →
  e ≠ ConnectNoSessionToken → e ≠ ConnectNoCsrfToken →
  paired (sess s) → paired (sess s').
Proof.
  intros Hc He1 He2 Hp. apply Connect_login_paired in Hp.
  revert Hc. unfold Connect.
  destruct (Connect_login s) as [s1 [e' | resp] | s1 | s1]; simpl in *; try done.
  - by intros [= <- <-].
  - unfold Connect_tokens. repeat case_decide; intros [= <- <-]; done.
Qed.

Lemma Reconnect_success (s s' : State World) :
  Reconnect s = Done s' None →
  SessionToken (sess s') ≠ "" ∧ CsrfToken (sess s') ≠ ""
  ∧ reauthCount (sess s') = 0.
Proof.
  unfold Reconnect. destruct (Disconnect s) as [s1 e1 | s1 | s1]; simpl; try done.
  apply Connect_success.
Qed.

(** *** Traces only grow *)

Lemma Disconnect_extends (s : State World) :
  trace s `prefix_of` trace (final (Disconnect s)).
Proof.
  unfold Disconnect. repeat (case_match; simpl; try done).
  rewrite Do_spec in *. simplify_eq/=. by apply prefix_app_r.
Qed.

Lemma Connect_login_extends (s : State World) :
  trace s `prefix_of` trace (final (Connect_login s)).
Proof.
  pose proof (Disconnect_extends s) as Hd. unfold Connect_login.
  destruct (Disconnect s) as [s1 e1 | s1 | s1]; simpl in *; try done.
  repeat (case_match; simpl; try done);
    rewrite ?Do_spec in *; simplify_eq/=; try done;
    (etrans; [exact Hd |]); by apply prefix_app_r.
Qed.

Lemma Connect_extends (s : State World) :
  trace s `prefix_of` trace (final (Connect s)).
Proof.
  pose proof (Connect_login_extends s) as Hd. unfold Connect.
  destruct (Connect_login s) as [s1 [e | resp] | s1 | s1]; simpl in *; try done.
  unfold Connect_tokens. repeat case_decide; done.
Qed.

Lemma Reconnect_extends (s : State World) :
  trace s `prefix_of` trace (final (Reconnect s)).
Proof.
  pose proof (Disconnect_extends s) as Hd. unfold Reconnect.
  destruct (Disconnect s) as [s1 e1 | s1 | s1]; simpl in *; try done.
  etrans; [exact Hd |]. apply Connect_extends.
Qed.

(** *** What breaks the token pair *)

Lemma pair_kept_quiet {A} (s : State World) (o : Outcome World A) :
  trace s `prefix_of` trace (final o) →
  (paired (sess s) → paired (sess (final o))) →
  pair_kept s o.
Proof. intros [new Hnew] Hp. exists new. split; [done |]. auto. Qed.

Lemma pair_kept_here {A} (s : State World) (o : Outcome World A) :
  final o = s → pair_kept s o.
Proof. intros <-. exists []. by rewrite app_nil_r. Qed.

Lemma pair_kept_bind {A B} (s : State World) (o : Outcome World A)
    (k : State World → A → Outcome World B) :
  pair_kept s o →
  (∀ s1 a, o = Done s1 a → pair_kept s1 (k s1 a)) →
  pair_kept s (bind o k).
Proof.
  intros (new & Ht & Hp) Hk. destruct o as [s1 a | s1 | s1]; simpl in *.
  - destruct (Hk s1 a eq_refl) as (new' & Ht' & Hp').
    exists (new ++ new')%list. rewrite Ht', Ht, app_assoc. split; [done |].
    intros Hs HF. apply Forall_app in HF as [HF1 HF2]. auto.
  - exists new. auto.
  - exists new. auto.
Qed.

Lemma pair_kept_from {A} (s s' : State World) (o : Outcome World A) :
  trace s' = trace s →
  (paired (sess s) → paired (sess s')) →
  pair_kept s' o → pair_kept s o.
Proof.
  intros Ht Hs (new & Hnew & Hp). exists new. rewrite <- Ht.
  split; [done |]. auto.
Qed.

Lemma Disconnect_pair_kept (s : State World) : pair_kept s (Disconnect s).
Proof.
  apply pair_kept_quiet; [apply Disconnect_extends | apply Disconnect_paired].
Qed.

(** A login that was answered 2xx is the last exchange so far. *)
Lemma Connect_login_inr (s s1 : State World) (resp : Response) :
  Connect_login s = Done s1 (inr resp) →
  ∃ t req,
    trace s1 = (t ++ [(req, Reply_ok resp)])%list
    ∧ trace s `prefix_of` t
    ∧ is_login (req, Reply_ok resp) = true
    ∧ outside2xx (StatusCode resp) = false.
Proof.
  pose proof (Disconnect_extends s) as Hd. unfold Connect_login.
  destruct (Disconnect s) as [s0 e0 | s0 | s0]; simpl in *; try done.
  set (s0' := match Client (sess s0) with
              | Some _ => s0
              | None => with_sess (init (sess s0)) s0
              end).
  assert (trace s0' = trace s0) as Ht by (subst s0'; by destruct (Client (sess s0))).
  clearbody s0'. unfold GetURL.
  destruct (url_Parse_ok _); simpl; [| done].
  destruct (NewRequest_ok _ _ _); simpl; [| done].
  destruct (Client (sess s0')) as [c |]; [| done].
  rewrite Do_spec.
  destruct (Client_Do _ _ _).2 as [resp' | msg]; [| done].
  destruct (outside2xx (StatusCode resp')) eqn:Hst; [done |].
  intros [= <- <-]. eexists _, _. split; [reflexivity |].
  rewrite Ht. done.
Qed.

Lemma Connect_tokens_trace resp (s : State World) :
  trace (final (Connect_tokens resp s)) = trace s.
Proof. unfold Connect_tokens. by repeat case_decide. Qed.

Lemma Connect_pair_kept (s : State World) : pair_kept s (Connect s).
Proof.
  pose proof (Connect_login_extends s) as He.
  pose proof (Connect_login_paired s) as Hp.
  unfold Connect.
  destruct (Connect_login s) as [s1 [e | resp] | s1 | s1] eqn:Hl; simpl in *;
    [by apply pair_kept_quiet | | by apply pair_kept_quiet ..].
  destruct (Connect_login_inr _ _ _ Hl) as (t & req & Ht & [k Hk] & Hlog & Hst).
  exists (k ++ [(req, Reply_ok resp)])%list.
  rewrite Connect_tokens_trace, Ht, Hk, app_assoc. split; [done |].
  intros Hs HF. apply Forall_app in HF as [_ HF].
  rewrite Forall_singleton in HF.
  unfold paired. destruct (Connect_tokens_final resp s1) as [-> ->].
  apply scan_cookies_paired; [by apply Hp |].
  destruct (decide (is_Some (last (omap rexSession (SetCookie resp)))
                    ↔ is_Some (last (omap csrf_of (SetCookie resp)))))
    as [Hiff | Hiff]; [done |].
  exfalso. apply HF. split; [exact Hlog |]. exists resp.
  split; [reflexivity |]. split; [exact Hst | exact Hiff].
Qed.

Lemma Reconnect_pair_kept (s : State World) : pair_kept s (Reconnect s).
Proof.
  unfold Reconnect. apply pair_kept_bind; [apply Disconnect_pair_kept |].
  intros s1 e1 _. apply Connect_pair_kept.
Qed.

Lemma Reconnect_early_failure (s s' : State World) (e : Error) :
  Reconnect s = Done s' (Some e) →
  e ≠ ConnectNoSessionToken → e ≠ ConnectNoCsrfToken →
  paired (sess s) → paired (sess s').
Proof.
  intros Hr He1 He2 Hp. apply Disconnect_paired in Hp. revert Hr.
  unfold Reconnect.
  destruct (Disconnect s) as [s1 e1 | s1 | s1]; simpl in *; try done.
  intros Hc. by apply (Connect_early_failure s1 s' e).
Qed.

End Lifecycle.



Lemma Connect_last_cookie_wins_witness :
  Connect_login (list Reply) scripted any_endpoint any_request
    (mkState [login_ok ("isisessid=stale; path=/" :: both_cookies)] []
             (NewSession cluster))
    = Done (mkState []
              [(login_request (init (NewSession cluster))
                              (mkURL cluster sessionPath ∅),
                login_ok ("isisessid=stale; path=/" :: both_cookies))]
              (init (NewSession cluster)))
           (inr (mkResponse 201 ("isisessid=stale; path=/" :: both_cookies)
                   (json_text "{'services':['platform','namespace']}") false))
  ∧ rexSession "isisessid=5f2a-91; path=/; HttpOnly; Secure" = Some "5f2a-91"
  ∧ SessionToken (sess (final (Connect (list Reply) scripted any_endpoint any_request
       (mkState [login_ok ("isisessid=stale; path=/" :: both_cookies)] []
                (NewSession cluster))))) = "5f2a-91".
Proof.
  split; [reflexivity |]. split; [reflexivity |].
  refine (proj1 (Connect_last_cookie_wins scripted any_endpoint any_request
                   _ _ _ ["isisessid=stale; path=/"]
                   ["isicsrf=c7d0-44; path=/; Secure"]
                   "isisessid=5f2a-91; path=/; HttpOnly; Secure" "5f2a-91"
                   _ _) _ _).
  - reflexivity.
  - reflexivity.
  - reflexivity.
  - repeat constructor.
Defined.

(** C8 (as stated) fails: with two session cookies and two anti-forgery
    cookies in one reply, [Connect] succeeds holding the tokens of the
    later values, not those of the first matching values. *)
Lemma Connect_first_cookie_overwritten :
  (∃ s', scripted_Connect (against [login_ok doubled_cookies] (NewSession cluster))
           = Done s' None
         ∧ SessionToken (sess s') = "second" ∧ CsrfToken (sess s') = "two"
         ∧ Some (SessionToken (sess s')) ≠ first_match rexSession doubled_cookies
         ∧ Some (CsrfToken (sess s')) ≠ first_match rexCsrf doubled_cookies)
  ∧ first_match rexSession doubled_cookies = Some "first"
  ∧ first_match rexCsrf doubled_cookies = Some "one".
Proof.
  split; [| split; reflexivity].
  eexists. split; [vm_compute; reflexivity |].
  repeat split; try reflexivity; vm_compute; discriminate.
Qed.

(** ** The page merge *)

Lemma append_each_app (sval dval : list JSON) :
  append_each sval dval = (sval ++ dval)%list.
Proof.
  unfold append_each. revert sval.
  induction dval as [| d dl IH]; intros sval; simpl.
  - by rewrite app_nil_r.
  - rewrite IH. by rewrite <- app_assoc.
Qed.

Lemma mergeList_None (l : list (string * JSON)) :
  foldl (λ acc kv, acc ≫= λ jb, mergeKey jb kv) None l = None.
Proof. by induction l. Qed.

Lemma mergeList_cons (jb : gmap string JSON) kv (l : list (string * JSON)) :
  mergeList jb (kv :: l) = mergeKey jb kv ≫= λ jb1, mergeList jb1 l.
Proof.
  unfold mergeList. simpl. destruct (mergeKey jb kv); simpl; [done |].
  apply mergeList_None.
Qed.

Lemma mergeKey_other (jb jb' : gmap string JSON) (k j : string) (d : JSON) :
  mergeKey jb (k, d) = Some jb' → j ≠ k → jb' !! j = jb !! j.
Proof.
  unfold mergeKey. intros H Hne.
  repeat case_match; simplify_eq; by rewrite lookup_insert_ne.
Qed.

(** What one key of the page leaves in the accumulated result. *)
Lemma mergeKey_same (jb jb' : gmap string JSON) (k : string) (d : JSON) :
  mergeKey jb (k, d) = Some jb' → jb' !! k = Some (merged (jb !! k) d).
Proof.
  unfold mergeKey, merged. intros H.
  repeat case_match; simplify_eq; rewrite lookup_insert_eq;
    by rewrite ?append_each_app.
Qed.

Lemma mergeKey_None (jb : gmap string JSON) (k : string) (d : JSON) :
  mergeKey jb (k, d) = None ↔ clash (jb !! k) d.
Proof.
  unfold mergeKey, clash.
  split.
  - intros H. repeat case_match; simplify_eq; eauto.
  - intros (a & Ha & Hd). rewrite Ha. destruct d; try done. by destruct (Hd l).
Qed.

Lemma mergeList_other (l : list (string * JSON)) :
  ∀ (jb jb' : gmap string JSON) (j : string),
    mergeList jb l = Some jb' → j ∉ l.*1 → jb' !! j = jb !! j.
Proof.
  induction l as [| [k d] l IH]; intros jb jb' j.
  { by intros [= ->]. }
  rewrite mergeList_cons. destruct (mergeKey jb (k, d)) as [jb1 |] eqn:Hk; [| done].
  simpl. intros Hl Hj. apply not_elem_of_cons in Hj as [Hne Hj].
  rewrite (IH _ _ _ Hl Hj). by eapply mergeKey_other.
Qed.

Lemma mergeList_lookup (l : list (string * JSON)) :
  ∀ (jb jb' : gmap string JSON) (k : string) (d : JSON),
    NoDup l.*1 → mergeList jb l = Some jb' → (k, d) ∈ l →
    jb' !! k = Some (merged (jb !! k) d).
Proof.
  induction l as [| [k0 d0] l IH]; intros jb jb' k d Hnd.
  { intros _ Hin. by apply elem_of_nil in Hin. }
  rewrite mergeList_cons.
  destruct (mergeKey jb (k0, d0)) as [jb1 |] eqn:Hk; [| done]. simpl.
  simpl in Hnd. apply NoDup_cons in Hnd as [Hk0 Hnd]. intros Hl Hin.
  apply elem_of_cons in Hin as [[= -> ->] | Hin].
  - rewrite (mergeList_other _ _ _ _ Hl Hk0). by apply mergeKey_same.
  - rewrite (IH _ _ _ _ Hnd Hl Hin).
    rewrite (mergeKey_other _ _ _ k _ Hk); [done |].
    intros ->. apply Hk0. apply list_elem_of_fmap. by exists (k0, d).
Qed.

Lemma mergeList_panics (l : list (string * JSON)) :
  ∀ (jb : gmap string JSON),
    NoDup l.*1 →
    (mergeList jb l = None ↔ ∃ k d, (k, d) ∈ l ∧ clash (jb !! k) d).
Proof.
  induction l as [| [k0 d0] l IH]; intros jb Hnd.
  { split; [done |]. intros (k & d & Hin & _). by apply elem_of_nil in Hin. }
  simpl in Hnd. apply NoDup_cons in Hnd as [Hk0 Hnd]. rewrite mergeList_cons.
  destruct (mergeKey jb (k0, d0)) as [jb1 |] eqn:Hk; simpl.
  - rewrite (IH jb1 Hnd). split.
    + intros (k & d & Hin & Hc). exists k, d. split; [by right |].
      rewrite <- (mergeKey_other _ _ _ k _ Hk); [done |].
      intros ->. apply Hk0. apply list_elem_of_fmap. by exists (k0, d).
    + intros (k & d & Hin & Hc).
      apply elem_of_cons in Hin as [[= -> ->] | Hin].
      * apply mergeKey_None in Hc. congruence.
      * exists k, d. split; [done |].
        rewrite (mergeKey_other _ _ _ k _ Hk); [done |].
        intros ->. apply Hk0. apply list_elem_of_fmap. by exists (k0, d).
  - split; [| done]. intros _. exists k0, d0. split; [by left |].
    by apply mergeKey_None.
Qed.

Lemma mergePage_other (jb jt jb' : gmap string JSON) (j : string) :
  mergePage jb jt = Some jb' → jt !! j = None → jb' !! j = jb !! j.
Proof.
  unfold mergePage. intros H Hj. eapply mergeList_other; [done |].
  intros ([k d] & -> & Hin)%list_elem_of_fmap.
  apply elem_of_map_to_list in Hin. simpl in *. congruence.
Qed.

Lemma strip_meta_errors (jt : gmap string JSON) : strip_meta jt !! "errors" = None.
Proof.
  unfold strip_meta. rewrite !lookup_delete_ne by done. apply lookup_delete_eq.
Qed.

(** ** Pagination *)

Section Pagination.
Context {World : Type}.
Variable Client_Do : World → HttpClient → Request → World * Reply.
Variable json_Unmarshal : string → Decoded.
Variable url_Parse_ok : string → bool.
Variable NewRequest_ok : string → string → string → bool.

Local Abbreviation Reconnect := (Reconnect World Client_Do url_Parse_ok NewRequest_ok).
Local Abbreviation SendRaw := (SendRaw World Client_Do url_Parse_ok NewRequest_ok).
Local Abbreviation Send_loop :=
  (Send_loop World Client_Do json_Unmarshal url_Parse_ok NewRequest_ok).
Local Abbreviation Send :=
  (Send World Client_Do json_Unmarshal url_Parse_ok NewRequest_ok).

Lemma SendRaw_cases method path query body headers (s : State World) :
  SendRaw method path query body headers s = Panicked s
  ∨ SendRaw method path query body headers s = Done s (RawErr SendRawRequest)
  ∨ ∃ c req,
      Client (sess s) = Some c
      ∧ SendRaw method path query body headers s =
          Done (mkState (Client_Do (world s) c req).1
                        (trace s ++ [(req, (Client_Do (world s) c req).2)])
                        (sess s))
               match (Client_Do (world s) c req).2 with
               | Reply_ok resp => RawResp resp
               | Reply_err msg => RawErr (TransportError msg)
               end
      ∧ Method req = NewRequest_method method
      ∧ url_query (Target req) = query.
Proof.
  unfold SendRaw.
  destruct body; simpl; auto.
  all: unfold GetURL; destruct (url_Parse_ok _); auto.
  all: destruct path; simpl; auto.
  all: destruct (NewRequest_ok _ _ _); simpl; auto.
  all: destruct (Client (sess s)) as [c |] eqn:Hc; auto.
  all: right; right; rewrite Do_spec; simpl.
  all: match goal with |- context [Client_Do _ _ ?req] => exists c, req end.
  all: split; [done |]; split; [by destruct (Client_Do _ _ _).2 |]; done.
Qed.

(** If one page was fetched, the next one is dispatched as well, with
    whatever query it is given. *)
Lemma SendRaw_again method path query query' body headers (s s1 : State World) resp :
  SendRaw method path query body headers s = Done s1 (RawResp resp) →
  ∃ c req,
    SendRaw method path query' body headers s1 =
        Done (mkState (Client_Do (world s1) c req).1
                      (trace s1 ++ [(req, (Client_Do (world s1) c req).2)])
                      (sess s1))
             match (Client_Do (world s1) c req).2 with
             | Reply_ok resp => RawResp resp
             | Reply_err msg => RawErr (TransportError msg)
             end
    ∧ Method req = NewRequest_method method
    ∧ url_query (Target req) = query'.
Proof.
  unfold SendRaw.
  destruct body; simpl; try done.
  all: unfold GetURL; destruct (url_Parse_ok (Endpoint (sess s))) eqn:Hp; try done.
  all: destruct path; simpl; try done.
  all: destruct (NewRequest_ok _ _ _) eqn:Hn; simpl; try done.
  all: destruct (Client (sess s)) as [c |] eqn:Hc; try done.
  all: rewrite Do_spec; destruct (Client_Do _ _ _).2; intros [= <- <-]; simpl.
  all: rewrite Hp; simpl; rewrite Hn; simpl; rewrite Hc, Do_spec; simpl.
  all: match goal with |- context [Client_Do (Client_Do _ _ _).1 _ ?req] => exists c, req end.
  all: split; [by destruct (Client_Do _ _ _).2 |]; done.
Qed.

Section Loop.
Variables (method : string) (path : PathArg) (body : BodyArg)
          (headers : gmap string string).
Variable retry : gmap string string → State World → Outcome World SendResult.

Lemma Send_loop_S n resumeKey query jsonBody jsonTemp (s : State World) :
  Send_loop method path body headers retry (S n) resumeKey query jsonBody jsonTemp s =
    bind (SendRaw method path (page_query resumeKey query) body headers s) (λ s r,
      match r with
      | RawErr e => Done s (SendErr (SendSendRaw e))
      | RawResp resp =>
          if BodyError resp then Done s (SendErr SendReadBody)
          else if outside2xx (StatusCode resp) then
            if (StatusCode resp =? 401)%Z
               && negb (defaultMaxReauthCount <=? reauthCount (sess s))%Z
            then
              bind (Reconnect (with_sess (set_reauthCount (reauthCount (sess s) + 1)
                                            (sess s)) s))
                   (λ s _, retry (page_query resumeKey query) s)
            else Done s (SendErr (SendNon2xx (StatusCode resp) (Body resp)))
          else if decide (Body resp = "") then Done s (SendOk None)
          else
            match unmarshal_into (json_Unmarshal (Body resp)) jsonTemp with
            | None => Done s (SendErr SendUnmarshal)
            | Some jsonTemp =>
                match next_resume jsonTemp resumeKey with
                | None => Panicked s
                | Some (resume, resumeKey') =>
                    match jsonBody !! "errors" with
                    | Some ekey => Done s (SendErr (SendErrorsInJSON ekey))
                    | None =>
                        match mergePage jsonBody (strip_meta jsonTemp) with
                        | None => Panicked s
                        | Some jsonBody =>
                            if resume
                            then Send_loop method path body headers retry n resumeKey'
                                   (page_query resumeKey query) jsonBody
                                   (strip_meta jsonTemp) s
                            else Done s (SendOk (Some jsonBody))
                        end
                    end
                end
            end
      end).
Proof. reflexivity. Qed.

Lemma empty_body_iteration n resumeKey query jsonBody jsonTemp
    (s s1 : State World) (resp : Response) :
  SendRaw method path (page_query resumeKey query) body headers s
    = Done s1 (RawResp resp) →
  BodyError resp = false →
  outside2xx (StatusCode resp) = false →
  Body resp = "" →
  Send_loop method path body headers retry (S n) resumeKey query jsonBody jsonTemp s
    = Done s1 (SendOk None).
Proof.
  intros Hraw Herr Hst Hbody. rewrite Send_loop_S, Hraw. simpl.
  rewrite Herr, Hst. by rewrite decide_True.
Qed.

Hypothesis retry_extends :
  ∀ q (s : State World), trace s `prefix_of` trace (final (retry q s)).

Lemma Send_loop_quiet n :
  ∀ resumeKey query jsonBody jsonTemp (s : State World),
    ∃ new,
      trace (final (Send_loop method path body headers retry n
                      resumeKey query jsonBody jsonTemp s)) = (trace s ++ new)%list
      ∧ (Forall (λ x, ¬ status_is 401 x) new →
         sess (final (Send_loop method path body headers retry n
                        resumeKey query jsonBody jsonTemp s)) = sess s).
Proof.
  induction n as [| n IH]; intros rk q jb jt s.
  { exists []. simpl. by rewrite app_nil_r. }
  rewrite Send_loop_S.
  destruct (SendRaw_cases method path (page_query rk q) body headers s)
    as [-> | [-> | (c & req & Hc & -> & _)]]; simpl.
  1, 2: exists []; by rewrite app_nil_r.
  destruct (Client_Do (world s) c req).2 as [resp | msg] eqn:Hr; simpl;
    [| by exists [(req, Reply_err msg)] ].
  destruct (BodyError resp); [by exists [(req, Reply_ok resp)] |].
  destruct (outside2xx (StatusCode resp)).
  - destruct ((StatusCode resp =? 401)%Z && _) eqn:H401;
      [| by exists [(req, Reply_ok resp)] ].
    apply andb_true_iff in H401 as [H401%Z.eqb_eq _].
    match goal with |- context [bind (Reconnect ?s0) ?k] =>
      pose proof (Reconnect_extends Client_Do url_Parse_ok NewRequest_ok s0) as He;
      destruct (Reconnect s0) as [s2 e2 | s2 | s2]
    end; simpl in *.
    1: pose proof (retry_extends (page_query rk q) s2) as He2;
       assert ((trace s ++ [(req, Reply_ok resp)])%list `prefix_of`
               trace (final (retry (page_query rk q) s2))) as [k Hk]
         by (etrans; done).
    2, 3: destruct He as [k Hk].
    all: exists ((req, Reply_ok resp) :: k);
      (split; [by rewrite Hk, <- app_assoc |]);
      intros HF; inversion_clear HF as [| ? ? Hx _]; by destruct Hx.
  - case_decide; [by exists [(req, Reply_ok resp)] |].
    destruct (unmarshal_into _ jt) as [jt1 |]; [| by exists [(req, Reply_ok resp)] ].
    destruct (next_resume jt1 rk) as [[resume rk'] |];
      [| by exists [(req, Reply_ok resp)] ].
    destruct (jb !! "errors"); [by exists [(req, Reply_ok resp)] |].
    destruct (mergePage jb (strip_meta jt1)) as [jb1 |];
      [| by exists [(req, Reply_ok resp)] ].
    destruct resume; [| by exists [(req, Reply_ok resp)] ].
    match goal with |- context [Send_loop _ _ _ _ _ n ?a ?b ?c ?d ?e] =>
      destruct (IH a b c d e) as (new & Hnew & Hq)
    end.
    exists ((req, Reply_ok resp) :: new). rewrite Hnew. simpl.
    split; [by rewrite <- app_assoc |].
    intros HF. inversion_clear HF. by rewrite Hq.
Qed.

Lemma Send_loop_extends n resumeKey query jsonBody jsonTemp (s : State World) :
  trace s `prefix_of`
    trace (final (Send_loop method path body headers retry n
                    resumeKey query jsonBody jsonTemp s)).
Proof.
  destruct (Send_loop_quiet n resumeKey query jsonBody jsonTemp s) as (new & -> & _).
  by apply prefix_app_r.
Qed.

Lemma Send_loop_first n resumeKey query jsonBody jsonTemp (s s2 : State World) r :
  SendRaw method path (page_query resumeKey query) body headers s = Done s2 r →
  trace s2 `prefix_of`
    trace (final (Send_loop method path body headers retry (S n)
                    resumeKey query jsonBody jsonTemp s)).
Proof.
  intros Hraw. rewrite Send_loop_S, Hraw. simpl.
  repeat (case_match; simpl; try done).
  - match goal with |- context [bind (Reconnect ?s0) ?k] =>
      pose proof (Reconnect_extends Client_Do url_Parse_ok NewRequest_ok s0) as He;
      destruct (Reconnect s0) as [s3 e3 | s3 | s3]
    end; simpl in *; try done.
    etrans; [exact He |]. apply retry_extends.
  - apply Send_loop_extends.
Qed.

Lemma resume_query_iteration n resumeKey query jsonBody jsonTemp
    (s s1 : State World) (resp : Response)
    (jsonTemp1 jsonBody1 : gmap string JSON) (tok : string) :
  SendRaw method path (page_query resumeKey query) body headers s
    = Done s1 (RawResp resp) →
  BodyError resp = false →
  outside2xx (StatusCode resp) = false →
  Body resp ≠ "" →
  unmarshal_into (json_Unmarshal (Body resp)) jsonTemp = Some jsonTemp1 →
  jsonTemp1 !! "resume" = Some (JString tok) →
  jsonBody !! "errors" = None →
  mergePage jsonBody (strip_meta jsonTemp1) = Some jsonBody1 →
  ∃ req reply rest,
    trace (final (Send_loop method path body headers retry (S (S n))
                    resumeKey query jsonBody jsonTemp s))
      = (trace s1 ++ (req, reply) :: rest)%list
    ∧ Method req = NewRequest_method method
    ∧ url_query (Target req) = page_query tok (page_query resumeKey query).
Proof.
  intros Hraw Herr Hst Hbody Hdec Hres Hnoerr Hmerge.
  rewrite Send_loop_S, Hraw. simpl.
  rewrite Herr, Hst, decide_False, Hdec by done.
  unfold next_resume. rewrite Hres, Hnoerr, Hmerge.
  destruct (SendRaw_again method path (page_query resumeKey query)
              (page_query tok (page_query resumeKey query)) body headers s s1 resp Hraw)
    as (c & req & Hnext & Hm & Hq).
  pose proof (Send_loop_first n tok (page_query resumeKey query) jsonBody1
                (strip_meta jsonTemp1) s1 _ _ Hnext) as [rest Hrest].
  simpl in Hrest. rewrite <- app_assoc in Hrest. simpl in Hrest.
  exists req, (Client_Do (world s1) c req).2, rest.
  split; [done |]. split; done.
Qed.

End Loop.
Section Errors.
Variables (method : string) (path : PathArg) (body : BodyArg)
          (headers : gmap string string).
Variable retry : gmap string string → State World → Outcome World SendResult.

Hypothesis retry_no_errors :
  ∀ q (s s' : State World) ekey,
    retry q s ≠ Done s' (SendErr (SendErrorsInJSON ekey)).

(** The accumulated result never holds an [errors] key, so the check of
    [jsonBody["errors"]] never fires. *)
Lemma Send_loop_no_errors n :
  ∀ resumeKey query jsonBody jsonTemp (s s' : State World) ekey,
    jsonBody !! "errors" = None →
    Send_loop method path body headers retry n resumeKey query jsonBody jsonTemp s
      ≠ Done s' (SendErr (SendErrorsInJSON ekey)).
Proof.
  induction n as [| n IH]; intros rk q jb jt s s' ekey Hjb; [done |].
  rewrite Send_loop_S.
  destruct (SendRaw_cases method path (page_query rk q) body headers s)
    as [-> | [-> | (c & req & Hc & -> & _)]]; simpl; try done.
  destruct (Client_Do (world s) c req).2 as [resp | msg]; simpl; [| done].
  destruct (BodyError resp); [done |].
  destruct (outside2xx (StatusCode resp)).
  - destruct ((StatusCode resp =? 401)%Z && _); [| done].
    match goal with |- context [bind (Reconnect ?s0) ?k] =>
      destruct (Reconnect s0) as [s2 e2 | s2 | s2]
    end; simpl; [apply retry_no_errors | done | done].
  - case_decide; [done |].
    destruct (unmarshal_into _ jt) as [jt1 |]; [| done].
    destruct (next_resume jt1 rk) as [[resume rk'] |]; [| done].
    rewrite Hjb.
    destruct (mergePage jb (strip_meta jt1)) as [jb1 |] eqn:Hm; [| done].
    destruct resume; [| done].
    apply IH. rewrite (mergePage_other _ _ _ _ Hm); [done |].
    apply strip_meta_errors.
Qed.

End Errors.

Lemma maxCount_S : maxCount = S (Nat.pred maxCount).
Proof. reflexivity. Qed.

Lemma Send_S fuel method path query body headers (s : State World) :
  Send (S fuel) method path query body headers s =
    Send_loop method path body headers
      (λ query s, Send fuel method path query body headers s)
      maxCount "" query ∅ ∅ s.
Proof. reflexivity. Qed.

Lemma Send_quiet fuel :
  ∀ method path query body headers (s : State World),
    ∃ new,
      trace (final (Send fuel method path query body headers s))
        = (trace s ++ new)%list
      ∧ (Forall (λ x, ¬ status_is 401 x) new →
         sess (final (Send fuel method path query body headers s)) = sess s).
Proof.
  induction fuel as [| fuel IH]; intros method path query body headers s.
  { exists []. simpl. by rewrite app_nil_r. }
  rewrite Send_S. apply Send_loop_quiet.
  intros q s0. destruct (IH method path q body headers s0) as (new & -> & _).
  by apply prefix_app_r.
Qed.

Lemma Send_extends fuel method path query body headers (s : State World) :
  trace s `prefix_of` trace (final (Send fuel method path query body headers s)).
Proof.
  destruct (Send_quiet fuel method path query body headers s) as (new & -> & _).
  by apply prefix_app_r.
Qed.

Lemma Send_no_errors fuel :
  ∀ method path query body headers (s s' : State World) ekey,
    Send fuel method path query body headers s
      ≠ Done s' (SendErr (SendErrorsInJSON ekey)).
Proof.
  induction fuel as [| fuel IH]; intros method path query body headers s s' ekey;
    [done |].
  rewrite Send_S. apply Send_loop_no_errors; [| done].
  intros q s0 s0' ekey'. apply IH.
Qed.

(** C7.  At any iteration of the loop, whatever has been accumulated, a
    2xx reply whose body was read without error and is empty makes [Send]
    return [(nil, nil)] at once; in particular so does the first page of
    a call. *)
Theorem Send_empty_body fuel n method path body headers resumeKey query
    jsonBody jsonTemp (s s1 : State World) (resp : Response) :
  SendRaw method path (page_query resumeKey query) body headers s
    = Done s1 (RawResp resp) →
  BodyError resp = false →
  outside2xx (StatusCode resp) = false →
  Body resp = "" →
  Send_loop method path body headers
    (λ query s, Send fuel method path query body headers s)
    (S n) resumeKey query jsonBody jsonTemp s
    = Done s1 (SendOk None)
  ∧ (resumeKey = "" → Send (S fuel) method path query body headers s
                        = Done s1 (SendOk None)).
Proof.
  intros Hraw Herr Hst Hbody. split.
  - by apply empty_body_iteration with resp.
  - intros ->. rewrite Send_S, maxCount_S.
    by apply empty_body_iteration with resp.
Qed.

(** C3 (as amended).  When a 2xx page decodes to an object whose [resume]
    field is a string, and the page is merged and the loop has an
    iteration left, a next request goes out, with the method of the call
    (GET for the empty method).  When the string is not empty its query
    is exactly [{"resume": token}], whatever query the caller supplied;
    when the string is empty its query is the query of the request just
    made, which on the first page is the caller's own. *)
Theorem resume_replaces_query fuel n method path body headers resumeKey query
    jsonBody jsonTemp (s s1 : State World) (resp : Response)
    (jsonTemp1 jsonBody1 : gmap string JSON) (tok : string) :
  SendRaw method path (page_query resumeKey query) body headers s
    = Done s1 (RawResp resp) →
  BodyError resp = false →
  outside2xx (StatusCode resp) = false →
  Body resp ≠ "" →
  unmarshal_into (json_Unmarshal (Body resp)) jsonTemp = Some jsonTemp1 →
  jsonTemp1 !! "resume" = Some (JString tok) →
  jsonBody !! "errors" = None →
  mergePage jsonBody (strip_meta jsonTemp1) = Some jsonBody1 →
  ∃ req reply rest,
    trace (final (Send_loop method path body headers
                    (λ query s, Send fuel method path query body headers s)
                    (S (S n)) resumeKey query jsonBody jsonTemp s))
      = (trace s1 ++ (req, reply) :: rest)%list
    ∧ Method req = (if decide (method = "") then "GET" else method)
    ∧ (tok ≠ "" → url_query (Target req) = {[ "resume" := tok ]})
    ∧ (tok = "" →
       url_query (Target req) = page_query resumeKey query
       ∧ (resumeKey = "" → url_query (Target req) = query)).
Proof.
  intros Hraw Herr Hst Hbody Hdec Hres Hnoerr Hmerge.
  destruct (resume_query_iteration method path body headers
              (λ query s, Send fuel method path query body headers s)
              (λ q s0, Send_extends fuel method path q body headers s0)
              n resumeKey query jsonBody jsonTemp s s1 resp jsonTemp1 jsonBody1
              tok Hraw Herr Hst Hbody Hdec Hres Hnoerr Hmerge)
    as (req & reply & rest & Ht & Hm & Hq).
  exists req, reply, rest. split; [done |]. split; [done |].
  rewrite Hq. split.
  - intros Htok. unfold page_query at 1. by rewrite decide_False.
  - intros ->. unfold page_query at 1 3. rewrite !decide_True by done.
    split; [done |]. intros ->. unfold page_query. by rewrite decide_True.
Qed.

Lemma SendRaw_pair_kept method path query body headers (s : State World) :
  pair_kept s (SendRaw method path query body headers s).
Proof.
  destruct (SendRaw_cases method path query body headers s)
    as [-> | [-> | (c & req & Hc & -> & _)]];
    [by apply pair_kept_here .. |].
  apply pair_kept_quiet; [by apply prefix_app_r | done].
Qed.

Section Pairs.
Variables (method : string) (path : PathArg) (body : BodyArg)
          (headers : gmap string string).
Variable retry : gmap string string → State World → Outcome World SendResult.

Hypothesis retry_pair_kept : ∀ q (s : State World), pair_kept s (retry q s).

Lemma Send_loop_pair_kept n :
  ∀ resumeKey query jsonBody jsonTemp (s : State World),
    pair_kept s (Send_loop method path body headers retry n
                   resumeKey query jsonBody jsonTemp s).
Proof.
  induction n as [| n IH]; intros rk q jb jt s; [by apply pair_kept_here |].
  rewrite Send_loop_S.
  apply pair_kept_bind; [apply SendRaw_pair_kept |].
  intros s1 [resp | err] _; [| by apply pair_kept_here].
  destruct (BodyError resp); [by apply pair_kept_here |].
  destruct (outside2xx (StatusCode resp)).
  - destruct ((StatusCode resp =? 401)%Z && _); [| by apply pair_kept_here].
    match goal with |- pair_kept _ (bind (Reconnect ?s0) _) =>
      apply pair_kept_from with s0; [done | done |]
    end.
    apply pair_kept_bind; [apply Reconnect_pair_kept |].
    intros s2 e2 _. apply retry_pair_kept.
  - case_decide; [by apply pair_kept_here |].
    destruct (unmarshal_into _ jt) as [jt1 |]; [| by apply pair_kept_here].
    destruct (next_resume jt1 rk) as [[resume rk'] |]; [| by apply pair_kept_here].
    destruct (jb !! "errors"); [by apply pair_kept_here |].
    destruct (mergePage jb (strip_meta jt1)) as [jb1 |]; [| by apply pair_kept_here].
    destruct resume; [apply IH | by apply pair_kept_here].
Qed.

End Pairs.

Lemma Send_pair_kept fuel :
  ∀ method path query body headers (s : State World),
    pair_kept s (Send fuel method path query body headers s).
Proof.
  induction fuel as [| fuel IH]; intros method path query body headers s;
    [by apply pair_kept_here |].
  rewrite Send_S. apply Send_loop_pair_kept. intros q s0. apply IH.
Qed.

Lemma pair_kept_new {A} (s : State World) (o : Outcome World A) new :
  pair_kept s o →
  paired (sess s) →
  trace (final o) = (trace s ++ new)%list →
  Forall (λ x, ¬ lone_cookie x) new →
  paired (sess (final o)).
Proof.
  intros (new' & Ht & Hp) Hs Hnew HF. rewrite Ht in Hnew.
  apply app_inv_head in Hnew as ->. auto.
Qed.


End Pagination.

(** ** Re-authentication against a peer that keeps answering 401 *)

Lemma logins_snoc (t : list (Request * Reply)) x :
  logins (t ++ [x]) = (logins t + (if is_login x then 1 else 0))%nat.
Proof.
  unfold logins. rewrite filter_app, length_app. f_equal.
  rewrite filter_cons, filter_nil.
  destruct (is_login x); case_decide; done.
Qed.

Lemma expired_Reconnect (s : State unit) c :
  Client (sess s) = Some c →
  ∃ s', Reconnect unit expired any_endpoint any_request s = Done s' None
        ∧ is_Some (Client (sess s'))
        ∧ reauthCount (sess s') = 0
        ∧ logins (trace s') = S (logins (trace s)).
Proof.
  intros Hc. unfold Reconnect.
  rewrite (Disconnect_client expired any_endpoint any_request s c Hc) by done.
  set (req := logout_request _ _).
  replace ((expired (world s) c req).2) with logged_out by (by destruct (world s)).
  replace ((expired (world s) c req).1) with tt by (by destruct (world s)).
  unfold logged_out, status_only, bind.
  unfold Connect, Connect_login.
  rewrite Disconnect_no_client by done.
  unfold bind. simpl sess. simpl Client. cbv iota.
  unfold GetURL, any_endpoint, any_request. cbn [negb url_endpoint url_path].
  cbv iota beta. rewrite Do_spec.
  set (lreq := login_request _ _).
  replace ((expired _ _ lreq).2) with (login_ok both_cookies) by done.
  unfold login_ok. cbv iota beta. cbn [StatusCode outside2xx].
  change (outside2xx 201) with false. cbv iota.
  unfold Connect_tokens. cbn [SetCookie sess with_sess].
  change (scan_cookies ?ctx both_cookies)
    with (scan_cookie (scan_cookie ctx "isisessid=5f2a-91; path=/; HttpOnly; Secure")
            "isicsrf=c7d0-44; path=/; Secure").
  unfold scan_cookie.
  change (rexSession "isisessid=5f2a-91; path=/; HttpOnly; Secure") with (Some "5f2a-91").
  change (rexSession "isicsrf=c7d0-44; path=/; Secure") with (@None string).
  change (rexCsrf "isicsrf=c7d0-44; path=/; Secure") with (Some "c7d0-44").
  cbv iota beta. cbn [SessionToken CsrfToken set_SessionToken set_CsrfToken].
  rewrite !decide_False by done.
  eexists. split; [reflexivity |].
  cbn [sess with_sess trace Client reauthCount set_reauthCount set_CsrfToken
       set_SessionToken init set_Client world].
  split; [done |]. split; [done |].
  rewrite !logins_snoc. subst req lreq. cbn. lia.
Qed.

Lemma expired_Send_starves fuel :
  ∀ (query : gmap string string) (s : State unit) c,
    Client (sess s) = Some c → reauthCount (sess s) = 0 →
    ∃ s', expired_Send fuel "GET" (PathString "items") query BodyNil ∅ s = Starved s'
          ∧ logins (trace s') = (logins (trace s) + fuel)%nat.
Proof.
  induction fuel as [| fuel IH]; intros query s c Hc Hr.
  { exists s. split; [done |]. lia. }
  unfold expired_Send. rewrite Send_S, maxCount_S, Send_loop_S.
  unfold page_query at 1. rewrite decide_True by done.
  unfold SendRaw, GetURL.
  change (any_endpoint (Endpoint (sess s))) with true.
  cbn [url_endpoint url_path].
  change (any_request "GET" (Endpoint (sess s)) "items") with true.
  cbn [negb]. cbv iota beta. rewrite Hc, Do_spec.
  set (req := mkRequest _ _ _ _).
  replace ((expired (world s) c req).2) with unauthorized by done.
  unfold unauthorized, status_only, bind at 1.
  cbn [BodyError StatusCode sess]. cbv iota.
  change (outside2xx 401) with true. cbv iota.
  rewrite Hr. change ((401 =? 401)%Z && negb (defaultMaxReauthCount <=? 0)%Z) with true.
  cbv iota.
  match goal with |- context [Reconnect _ _ _ _ ?s1] =>
    destruct (expired_Reconnect s1 c) as (s2 & -> & [c2 Hc2] & Hr2 & Hl2); [done |]
  end.
  unfold bind.
  destruct (IH (page_query "" query) s2 c2 Hc2 Hr2) as (s' & Hs' & Hl').
  exists s'. split; [exact Hs' |].
  rewrite Hl', Hl2. cbn [trace with_sess]. rewrite logins_snoc.
  subst req. change (NewRequest_method "GET") with "GET". cbn. lia.
Qed.

(** ** The scenarios *)

Lemma mergePage_lookup (jb jt jb' : gmap string JSON) (k : string) :
  mergePage jb jt = Some jb' →
  jb' !! k = match jt !! k with
             | Some d => Some (merged (jb !! k) d)
             | None => jb !! k
             end.
Proof.
  intros H. destruct (jt !! k) as [d |] eqn:Hk.
  - unfold mergePage in H.
    eapply mergeList_lookup; [apply NoDup_fst_map_to_list | done |].
    by apply elem_of_map_to_list.
  - by eapply mergePage_other.
Qed.

Lemma mergePage_panics (jb jt : gmap string JSON) :
  mergePage jb jt = None ↔ ∃ k d, jt !! k = Some d ∧ clash (jb !! k) d.
Proof.
  unfold mergePage. rewrite mergeList_panics by apply NoDup_fst_map_to_list.
  split; intros (k & d & Hin & Hc); exists k, d; (split; [| done]);
    by apply elem_of_map_to_list.
Qed.

(** C1 (the code does not keep the bound).  [Connect] resets
    [reauthCount] to 0, so after a re-authentication that succeeds the
    next 401 re-authenticates again: against a peer whose login succeeds
    and whose other resources answer 401, a [Send] given a recursion
    budget of [fuel] has logged in [fuel] times and has still not
    returned. *)
Theorem Send_reauth_unbounded (fuel : nat) :
  ∃ s', expired_Send fuel "GET" (PathString "items") ∅ BodyNil ∅
          (mkState tt [] (connected cluster)) = Starved s'
        ∧ logins (trace s') = fuel.
Proof.
  destruct (expired_Send_starves fuel ∅ (mkState tt [] (connected cluster))
              (mkClient (Duration_seconds defaultConnTimeout) false) eq_refl eq_refl)
    as (s' & Hs' & Hl).
  exists s'. split; [exact Hs' |]. by rewrite Hl.
Qed.

(** C2 (the code misses a case).  When the merge of a page completes,
    every key of the page holds the accumulated elements followed by the
    page's when both values are arrays and the page's value otherwise,
    and the other keys are untouched; the two-page scenario yields
    [{"items":[1,2,3]}].  But the merge panics exactly when some key
    holds an array in the accumulated result and another kind of value in
    the page, as with a second page [{"items":"none"}]. *)
Theorem mergePage_array_clash :
  (∀ jb jt jb' k,
     mergePage jb jt = Some jb' →
     jb' !! k = match jt !! k with
                | Some d => Some (merged (jb !! k) d)
                | None => jb !! k
                end)
  ∧ (∀ jb jt,
       mergePage jb jt = None ↔ ∃ k d, jt !! k = Some d ∧ clash (jb !! k) d)
  ∧ (∃ s', scripted_Send 1 "GET" (PathString "items") ∅ BodyNil ∅
             (against [ok_json "{'items':[1,2],'resume':'abc'}";
                       ok_json "{'items':[3],'total':3}"] (connected cluster))
           = Done s' (SendOk (Some {[ "items" := JArray [num 1; num 2; num 3] ]})))
  ∧ (∃ s', scripted_Send 1 "GET" (PathString "items") ∅ BodyNil ∅
             (against [ok_json "{'items':[1,2],'resume':'abc'}";
                       ok_json "{'items':'none'}"] (connected cluster))
           = Panicked s').
Proof.
  split; [apply mergePage_lookup |]. split; [apply mergePage_panics |].
  split; eexists; vm_compute; reflexivity.
Qed.

(** C4 (the code passes the replaced query).  A 401 on the second page,
    after the query has been replaced by the resume key, is retried with
    [{"resume":"abc"}] and not with the caller's [{"limit":"5"}]; the
    retried call starts at the second page and its result lacks the
    items of the first. *)
Theorem retry_passes_continuation_query :
  ∃ s', scripted_Send 2 "GET" (PathString "items") {[ "limit" := "5" ]} BodyNil ∅
          (against [ok_json "{'items':[1,2],'resume':'abc'}"; unauthorized;
                    logged_out; login_ok both_cookies;
                    ok_json "{'items':[3]}"] (connected cluster))
        = Done s' (SendOk (Some {[ "items" := JArray [num 3] ]}))
      ∧ queries (trace s') =
          [ ("GET", {[ "limit" := "5" ]}); ("GET", {[ "resume" := "abc" ]});
            ("DELETE", ∅); ("POST", ∅); ("GET", {[ "resume" := "abc" ]}) ].
Proof. eexists. split; vm_compute; reflexivity. Qed.

(** C6 (the code checks the wrong map).  The [errors] key is looked up in
    the accumulated result, which never holds it, and is deleted from the
    page before the merge: a 2xx page with an [errors] field makes [Send]
    succeed with the field dropped, and no [Send] ever returns the error
    of that check. *)
Theorem errors_field_is_dropped :
  (∃ s', scripted_Send 1 "GET" (PathString "items") ∅ BodyNil ∅
           (against [ok_json "{'errors':[{'code':'AEC_FORBIDDEN','message':'denied'}]}"]
                    (connected cluster))
         = Done s' (SendOk (Some ∅)))
  ∧ (∀ (World : Type) Client_Do json_Unmarshal url_Parse_ok NewRequest_ok
       fuel method path query body headers (s s' : State World) ekey,
       Send World Client_Do json_Unmarshal url_Parse_ok NewRequest_ok
            fuel method path query body headers s
         ≠ Done s' (SendErr (SendErrorsInJSON ekey))).
Proof.
  split; [eexists; vm_compute; reflexivity |].
  intros. apply Send_no_errors.
Qed.

(** C3 (as stated) fails: a [resume] field that is present and not null
    but empty leaves the query alone, and the next request repeats the
    caller's query. *)
Lemma empty_resume_keeps_query :
  (∃ m, demo_Unmarshal (json_text "{'items':[1],'resume':''}") = DecObject m
        ∧ m !! "resume" = Some (JString ""))
  ∧ ∃ s', scripted_Send 1 "GET" (PathString "items") {[ "limit" := "5" ]} BodyNil ∅
            (against [ok_json "{'items':[1],'resume':''}"; ok_json "{'items':[3]}"]
                     (connected cluster))
          = Done s' (SendOk (Some {[ "items" := JArray [num 1; num 3] ]}))
        ∧ queries (trace s') =
            [ ("GET", {[ "limit" := "5" ]}); ("GET", {[ "limit" := "5" ]}) ]
        ∧ queries (trace s') !! 1%nat ≠ Some ("GET", {[ "resume" := "" ]}).
Proof.
  split; [eexists; split; vm_compute; reflexivity |].
  eexists. split; [vm_compute; reflexivity |].
  split; [vm_compute; reflexivity |]. vm_compute. discriminate.
Qed.

Lemma resume_replaces_query_witness :
  ∃ req reply rest,
    trace (final (scripted_loop "GET" (PathString "items") BodyNil ∅
             (λ query s, scripted_Send 1 "GET" (PathString "items") query BodyNil ∅ s)
             2 "" {[ "limit" := "5" ]} ∅ ∅
             (against [ok_json "{'items':[1,2],'resume':'abc'}";
                       ok_json "{'items':[3],'total':3}"] (connected cluster))))
      = (trace (final (scripted_SendRaw "GET" (PathString "items")
                         {[ "limit" := "5" ]} BodyNil ∅
                         (against [ok_json "{'items':[1,2],'resume':'abc'}";
                                   ok_json "{'items':[3],'total':3}"]
                                  (connected cluster))))
           ++ (req, reply) :: rest)%list
    ∧ Method req = "GET"
    ∧ url_query (Target req) = {[ "resume" := "abc" ]}.
Proof.
  destruct (resume_replaces_query scripted demo_Unmarshal any_endpoint any_request
           1 0 "GET" (PathString "items") BodyNil ∅ "" {[ "limit" := "5" ]} ∅ ∅
           (against [ok_json "{'items':[1,2],'resume':'abc'}";
                     ok_json "{'items':[3],'total':3}"] (connected cluster))
           (final (scripted_SendRaw "GET" (PathString "items")
                     {[ "limit" := "5" ]} BodyNil ∅
                     (against [ok_json "{'items':[1,2],'resume':'abc'}";
                               ok_json "{'items':[3],'total':3}"]
                              (connected cluster))))
           (mkResponse 200 [] (json_text "{'items':[1,2],'resume':'abc'}") false)
           {[ "items" := JArray [num 1; num 2]; "resume" := JString "abc" ]}
           {[ "items" := JArray [num 1; num 2] ]} "abc")
    as (req & reply & rest & Ht & Hm & Hq & _).
  - vm_compute. reflexivity.
  - reflexivity.
  - reflexivity.
  - vm_compute. discriminate.
  - vm_compute. reflexivity.
  - vm_compute. reflexivity.
  - reflexivity.
  - vm_compute. reflexivity.
  - exists req, reply, rest. split; [exact Ht |]. split; [exact Hm |].
    apply Hq. discriminate.
Defined.

Lemma Send_empty_body_witness :
  scripted_SendRaw "GET" (PathString "items") {[ "resume" := "abc" ]} BodyNil ∅
    (against [status_only 200 ""] (connected cluster))
    = Done (final (scripted_SendRaw "GET" (PathString "items")
                     {[ "resume" := "abc" ]} BodyNil ∅
                     (against [status_only 200 ""] (connected cluster))))
           (RawResp (mkResponse 200 [] "" false))
  ∧ scripted_loop "GET" (PathString "items") BodyNil ∅
      (λ query s, scripted_Send 0 "GET" (PathString "items") query BodyNil ∅ s)
      1 "abc" ∅ {[ "items" := JArray [num 1; num 2] ]}
      {[ "items" := JArray [num 1; num 2] ]}
      (against [status_only 200 ""] (connected cluster))
    = Done (final (scripted_SendRaw "GET" (PathString "items")
                     {[ "resume" := "abc" ]} BodyNil ∅
                     (against [status_only 200 ""] (connected cluster))))
           (SendOk None).
Proof.
  split; [vm_compute; reflexivity |].
  refine (proj1 (Send_empty_body scripted demo_Unmarshal any_endpoint any_request
                   0 0 "GET" (PathString "items") BodyNil ∅ "abc" ∅
                   {[ "items" := JArray [num 1; num 2] ]}
                   {[ "items" := JArray [num 1; num 2] ]}
                   (against [status_only 200 ""] (connected cluster))
                   (final (scripted_SendRaw "GET" (PathString "items")
                             {[ "resume" := "abc" ]} BodyNil ∅
                             (against [status_only 200 ""] (connected cluster))))
                   (mkResponse 200 [] "" false) _ _ _ _)).
  - vm_compute. reflexivity.
  - reflexivity.
  - reflexivity.
  - reflexivity.
Defined.

Example Send_empty_second_page :
  ∃ s', scripted_Send 1 "GET" (PathString "items") ∅ BodyNil ∅
          (against [ok_json "{'items':[1,2],'resume':'abc'}"; status_only 200 ""]
                   (connected cluster))
        = Done s' (SendOk None).
Proof. eexists. vm_compute. reflexivity. Qed.

(** [json.Unmarshal] keeps the entries of [jsonTemp] from one page to the
    next: a key that a later page lacks is merged once more. *)
Example Send_merges_kept_key_again :
  ∃ s', scripted_Send 1 "GET" (PathString "items") ∅ BodyNil ∅
          (against [ok_json "{'items':[1,2],'resume':'abc'}"; ok_json "{'more':[3]}"]
                   (connected cluster))
        = Done s' (SendOk (Some {[ "items" := JArray [num 1; num 2; num 1; num 2];
                                   "more" := JArray [num 3] ]})).
Proof. eexists. vm_compute. reflexivity. Qed.

(** When the re-authentication itself fails, [reauthCount] stays at 1 and
    the next 401 is returned as an error. *)
Example Send_second_401_after_failed_login :
  ∃ s', scripted_Send 2 "GET" (PathString "items") ∅ BodyNil ∅
          (against [unauthorized; logged_out; unauthorized; unauthorized]
                   (connected cluster))
        = Done s' (SendErr (SendNon2xx 401 "Authorization required"))
      ∧ logins (trace s') = 1%nat.
Proof. eexists. split; vm_compute; reflexivity. Qed.



(** * Further properties of the package *)

(** ** The setters *)

(** X1.  Each setter returns the value it replaces and writes nothing
    else: setting the returned value again restores the session, and the
    client, the tokens and the counter are as before. *)
Theorem setters_restore (ctx : PapiSession) :
  (∀ v, SetUser (SetUser v ctx).2 (SetUser v ctx).1 = (ctx, v))
  ∧ (∀ v, SetPassword (SetPassword v ctx).2 (SetPassword v ctx).1 = (ctx, v))
  ∧ (∀ v, SetEndpoint (SetEndpoint v ctx).2 (SetEndpoint v ctx).1 = (ctx, v))
  ∧ (∀ v, SetIgnoreCert (SetIgnoreCert v ctx).2 (SetIgnoreCert v ctx).1 = (ctx, v))
  ∧ (∀ v, SetConnTimeout (SetConnTimeout v ctx).2 (SetConnTimeout v ctx).1 = (ctx, v))
  ∧ (∀ u p e b t,
       let ctx' := (SetConnTimeout t (SetIgnoreCert b (SetEndpoint e
                      (SetPassword p (SetUser u ctx).1).1).1).1).1 in
       settings ctx' = (u, p, e, b, t)
       ∧ Client ctx' = Client ctx
       ∧ SessionToken ctx' = SessionToken ctx
       ∧ CsrfToken ctx' = CsrfToken ctx
       ∧ reauthCount ctx' = reauthCount ctx).
Proof. destruct ctx. repeat split. Qed.

Section Behaviour.

Context {World : Type}.
Variable Client_Do : World → HttpClient → Request → World * Reply.
Variable json_Unmarshal : string → Decoded.
Variable url_Parse_ok : string → bool.
Variable NewRequest_ok : string → string → string → bool.

Local Abbreviation Disconnect := (Disconnect World Client_Do url_Parse_ok NewRequest_ok).
Local Abbreviation Connect_login := (Connect_login World Client_Do url_Parse_ok NewRequest_ok).
Local Abbreviation Connect := (Connect World Client_Do url_Parse_ok NewRequest_ok).
Local Abbreviation Reconnect := (Reconnect World Client_Do url_Parse_ok NewRequest_ok).
Local Abbreviation SendRaw := (SendRaw World Client_Do url_Parse_ok NewRequest_ok).
Local Abbreviation Send_loop :=
  (Send_loop World Client_Do json_Unmarshal url_Parse_ok NewRequest_ok).
Local Abbreviation Send :=
  (Send World Client_Do json_Unmarshal url_Parse_ok NewRequest_ok).
Local Abbreviation session_url_ok := (session_url_ok url_Parse_ok NewRequest_ok).

(** ** Connecting *)

(** How [Disconnect] ends: it panics or returns with the state as it
    was, or it has made the one exchange and cleared the session. *)
Lemma Disconnect_cases (s : State World) :
  Disconnect s = Panicked s
  ∨ (∃ e, Disconnect s = Done s e)
  ∨ (∃ c u r w e,
       Client (sess s) = Some c
       ∧ Client_Do (world s) c (logout_request (sess s) u) = (w, r)
       ∧ url_path u = sessionPath ∧ url_endpoint u = Endpoint (sess s)
       ∧ Disconnect s =
           Done (mkState w (trace s ++ [(logout_request (sess s) u, r)])
                   (set_CsrfToken "" (set_SessionToken ""
                      (set_Client None (sess s))))) e).
Proof.
  unfold Disconnect.
  destruct (Client (sess s)) as [c |] eqn:Hc; [| right; left; eauto].
  unfold GetURL. destruct (url_Parse_ok _); [| by left].
  destruct (negb _); [right; left; eauto |].
  right; right. rewrite Do_spec.
  destruct (Client_Do _ _ _) as [w r] eqn:Hdo.
  eexists c, _, r, w, _. split; [done |]. split; [exact Hdo |].
  split; [done |]. split; [done |]. done.
Qed.

(** X2.  [Reconnect] does what [Connect] does: the [Disconnect] it makes
    first is the one [Connect] starts with, and the second one finds no
    client or fails as the first did. *)
Theorem Reconnect_is_Connect (s : State World) : Reconnect s = Connect s.
Proof.
  unfold Reconnect.
  destruct (Disconnect_cases s)
    as [Hp | [[e He] | (c & u & r & w & e & Hc & Hdo & Hu & He & Hd)]].
  - rewrite Hp. simpl. unfold Connect, Connect_login. by rewrite Hp.
  - rewrite He. done.
  - rewrite Hd. simpl. unfold Connect, Connect_login. rewrite Hd.
    by rewrite Disconnect_no_client.
Qed.

Lemma scan_cookies_rest ctx (l : list string) :
  settings (scan_cookies ctx l) = settings ctx
  ∧ Client (scan_cookies ctx l) = Client ctx
  ∧ reauthCount (scan_cookies ctx l) = reauthCount ctx.
Proof.
  unfold scan_cookies. revert ctx.
  induction l as [| v l IH]; intros ctx; [done |]. simpl.
  destruct (IH (scan_cookie ctx v)) as (-> & -> & ->).
  unfold scan_cookie. by repeat case_match.
Qed.

(** The session after [Disconnect] has torn it down. *)
Lemma cleared_no_client ctx :
  Client ctx = None → SessionToken ctx = "" → CsrfToken ctx = "" →
  set_CsrfToken "" (set_SessionToken "" (set_Client None ctx)) = ctx.
Proof. destruct ctx; simpl. by intros -> -> ->. Qed.

(** [Connect] up to the status check, on a session that holds a client. *)
Lemma Connect_login_connected (s : State World) c :
  Client (sess s) = Some c →
  session_url_ok "DELETE" (sess s) → session_url_ok "POST" (sess s) →
  ∃ w1 r1 w2 r2,
    Client_Do (world s) c
      (logout_request (sess s) (mkURL (Endpoint (sess s)) sessionPath ∅)) = (w1, r1)
    ∧ Client_Do w1 (mkClient (Duration_seconds (ConnTimeout (sess s))) (IgnoreCert (sess s)))
        (login_request (sess s) (mkURL (Endpoint (sess s)) sessionPath ∅)) = (w2, r2)
    ∧ Connect_login s =
        Done (mkState w2
                (trace s ++
                   [(logout_request (sess s) (mkURL (Endpoint (sess s)) sessionPath ∅), r1);
                    (login_request (sess s) (mkURL (Endpoint (sess s)) sessionPath ∅), r2)])
                (init (set_CsrfToken "" (set_SessionToken ""
                         (set_Client None (sess s))))))
             match r2 with
             | Reply_err msg => inl (ConnectDo msg)
             | Reply_ok resp =>
                 if outside2xx (StatusCode resp)
                 then inl (ConnectStatus (Body resp)) else inr resp
             end.
Proof.
  intros Hc Hdel Hpost. unfold Connect_login.
  rewrite (Disconnect_client Client_Do url_Parse_ok NewRequest_ok s c Hc Hdel).
  destruct (Client_Do (world s) c _) as [w1 r1] eqn:Hdo1.
  sess_simpl. destruct Hpost as [Hp Hn]. unfold GetURL.
  sess_simpl. rewrite Hp. sess_simpl. rewrite Hn.
  sess_simpl. rewrite Do_spec. sess_simpl.
  destruct (Client_Do w1 _ _) as [w2 r2] eqn:Hdo2.
  exists w1, r1, w2, r2. split; [done |]. split; [exact Hdo2 |].
  sess_simpl. rewrite <- app_assoc.
  destruct r2 as [resp | msg]; [destruct (outside2xx _) |]; reflexivity.
Qed.

(** [Connect] up to the status check, on a session without a client. *)
Lemma Connect_login_fresh (s : State World) :
  Client (sess s) = None →
  session_url_ok "POST" (sess s) →
  ∃ w2 r2,
    Client_Do (world s) (mkClient (Duration_seconds (ConnTimeout (sess s))) (IgnoreCert (sess s)))
      (login_request (sess s) (mkURL (Endpoint (sess s)) sessionPath ∅)) = (w2, r2)
    ∧ Connect_login s =
        Done (mkState w2
                (trace s ++
                   [(login_request (sess s) (mkURL (Endpoint (sess s)) sessionPath ∅), r2)])
                (init (sess s)))
             match r2 with
             | Reply_err msg => inl (ConnectDo msg)
             | Reply_ok resp =>
                 if outside2xx (StatusCode resp)
                 then inl (ConnectStatus (Body resp)) else inr resp
             end.
Proof.
  intros Hc [Hp Hn]. unfold Connect_login.
  rewrite Disconnect_no_client by done.
  sess_simpl. rewrite Hc. sess_simpl.
  unfold GetURL. sess_simpl. rewrite Hp. sess_simpl. rewrite Hn.
  sess_simpl. rewrite Do_spec. sess_simpl.
  destruct (Client_Do (world s) _ _) as [w2 r2] eqn:Hdo2.
  exists w2, r2. split; [done |]. sess_simpl.
  destruct r2 as [resp | msg]; [destruct (outside2xx _) |]; reflexivity.
Qed.

Lemma Connect_login_after (s s0 s1 : State World) e0 r :
  Disconnect s = Done s0 e0 →
  Connect_login s = Done s1 r →
  sess s1 = match Client (sess s0) with
            | None => init (sess s0)
            | Some _ => sess s0
            end.
Proof.
  intros Hd. unfold Connect_login. rewrite Hd. sess_simpl.
  destruct (Client (sess s0)) eqn:Hc0; sess_simpl.
  all: repeat (case_match; try done); rewrite ?Do_spec in *; simplify_eq/=;
    intros [= <- <-]; done.
Qed.

(** The session that [Connect] has when it reaches the reply of the
    login: torn down and given a new client, given a new client, or
    left as it was when the DELETE could not be built. *)
Lemma Connect_login_sess (s s1 : State World) r :
  Connect_login s = Done s1 r →
  sess s1 = match Client (sess s) with
            | Some _ =>
                if NewRequest_ok "DELETE" (Endpoint (sess s)) sessionPath
                then init (set_CsrfToken "" (set_SessionToken ""
                             (set_Client None (sess s))))
                else sess s
            | None => init (sess s)
            end.
Proof.
  intros Hl. destruct (Client (sess s)) as [c |] eqn:Hc.
  - destruct (url_Parse_ok (Endpoint (sess s))) eqn:Hp.
    2: { unfold Connect_login, Disconnect, GetURL in Hl.
         by rewrite Hc, Hp in Hl. }
    destruct (NewRequest_ok "DELETE" (Endpoint (sess s)) sessionPath) eqn:Hn.
    + pose proof (Disconnect_client Client_Do url_Parse_ok NewRequest_ok s c Hc
                    (conj Hp Hn)) as Hd.
      by rewrite (Connect_login_after _ _ _ _ _ Hd Hl).
    + assert (Disconnect s = Done s (Some DisconnectNewRequest)) as Hd.
      { unfold Disconnect, GetURL. rewrite Hc, Hp. simpl. by rewrite Hn. }
      by rewrite (Connect_login_after _ _ _ _ _ Hd Hl), Hc.
  - pose proof (Disconnect_no_client Client_Do url_Parse_ok NewRequest_ok s Hc) as Hd.
    by rewrite (Connect_login_after _ _ _ _ _ Hd Hl), Hc.
Qed.

Lemma Connect_inv (s s' : State World) e :
  Connect s = Done s' e →
  ∃ s1 r,
    Connect_login s = Done s1 r
    ∧ settings (sess s') = settings (sess s1)
    ∧ Client (sess s') = Client (sess s1)
    ∧ match r with
      | inl e0 => e = Some e0 ∧ s' = s1
      | inr resp => Connect_tokens resp s1 = Done s' e
      end.
Proof.
  unfold Connect.
  destruct (Connect_login s) as [s1 [e0 | resp] | s1 | s1]; simpl; try done.
  - intros [= <- <-]. by exists s1, (inl e0).
  - intros H. exists s1, (inr resp). split; [done |].
    destruct (scan_cookies_rest (sess s1) (SetCookie resp)) as (Hs & Hc & _).
    revert H. unfold Connect_tokens.
    repeat case_decide; intros [= <- <-]; done.
Qed.

Lemma Disconnect_settings (s : State World) :
  settings (sess (final (Disconnect s))) = settings (sess s)
  ∧ reauthCount (sess (final (Disconnect s))) = reauthCount (sess s).
Proof.
  destruct (Disconnect_cases s)
    as [-> | [[e ->] | (c & u & r & w & e & _ & _ & _ & _ & ->)]]; done.
Qed.

(** X3.  Whenever [Connect] returns, with or without an error, the
    session holds a client and its configuration is untouched.  The
    client is the one [init] builds at the call, with the timeout
    [time.Duration(ConnTimeout) * time.Second] (nanoseconds in an
    [int64], wrapping around) and the certificate flag of the session,
    unless a client was held and the DELETE could not be built: then it
    is the client that was held. *)
Theorem Connect_holds_client (s s' : State World) e :
  Connect s = Done s' e →
  is_Some (Client (sess s'))
  ∧ settings (sess s') = settings (sess s)
  ∧ Client (sess s') =
      Some match Client (sess s) with
           | Some c =>
               if NewRequest_ok "DELETE" (Endpoint (sess s)) sessionPath
               then mkClient (int64_wrap (ConnTimeout (sess s) * 1000000000))
                             (IgnoreCert (sess s))
               else c
           | None => mkClient (int64_wrap (ConnTimeout (sess s) * 1000000000))
                              (IgnoreCert (sess s))
           end.
Proof.
  intros H. destruct (Connect_inv _ _ _ H) as (s1 & r & Hl & Hset & Hcl & _).
  rewrite Hset, Hcl, (Connect_login_sess _ _ _ Hl).
  destruct (Client (sess s)) as [c |] eqn:Hc; [destruct (NewRequest_ok _ _ _) |];
    rewrite ?Hc; by repeat split.
Qed.

Lemma Connect_trace (s : State World) :
  trace (final (Connect s)) = trace (final (Connect_login s)).
Proof.
  unfold Connect.
  destruct (Connect_login s) as [s1 [e0 | resp] | s1 | s1]; simpl; try done.
  unfold Connect_tokens. by repeat case_decide.
Qed.

Lemma logout_headers ctx u :
  Header (logout_request ctx u) =
    {[ "Accept" := ["application/json"];
       "Cookie" := ["isisessid=" +:+ SessionToken ctx];
       "Content-Type" := ["application/json"];
       "Referer" := [Endpoint ctx];
       "X-Csrf-Token" := [CsrfToken ctx] ]}.
Proof. vm_compute. reflexivity. Qed.

Lemma login_headers ctx u :
  Header (login_request ctx u) =
    {[ "Accept" := ["application/json"];
       "Content-Type" := ["application/json"] ]}.
Proof. vm_compute. reflexivity. Qed.

(** X4.  On a session that holds a client, with the session resource
    addressable, [Connect] makes exactly two exchanges: the DELETE of the
    old session, whose cookie and anti-forgery headers carry the tokens
    held at the call, and then the POST of the credentials, which
    carries no cookie.  On a session without a client it makes the POST
    alone. *)
Theorem Connect_exchanges (s : State World) :
  session_url_ok "POST" (sess s) →
  (∀ c, Client (sess s) = Some c → session_url_ok "DELETE" (sess s) →
     ∃ logout login r1 r2,
       trace (final (Connect s)) = (trace s ++ [(logout, r1); (login, r2)])%list
       ∧ Method logout = "DELETE" ∧ Method login = "POST"
       ∧ Target logout = mkURL (Endpoint (sess s)) sessionPath ∅
       ∧ Target login = mkURL (Endpoint (sess s)) sessionPath ∅
       ∧ Header logout !! "Cookie" = Some ["isisessid=" +:+ SessionToken (sess s)]
       ∧ Header logout !! "X-Csrf-Token" = Some [CsrfToken (sess s)]
       ∧ ReqBody login = SessionRequest (User (sess s)) (Password (sess s))
                           ["platform"; "namespace"]
       ∧ Header login !! "Cookie" = None
       ∧ Header login !! "X-Csrf-Token" = None)
  ∧ (Client (sess s) = None →
     ∃ login r2,
       trace (final (Connect s)) = (trace s ++ [(login, r2)])%list
       ∧ Method login = "POST"
       ∧ Target login = mkURL (Endpoint (sess s)) sessionPath ∅
       ∧ ReqBody login = SessionRequest (User (sess s)) (Password (sess s))
                           ["platform"; "namespace"]
       ∧ Header login !! "Cookie" = None).
Proof.
  intros Hpost. split.
  - intros c Hc Hdel.
    destruct (Connect_login_connected s c Hc Hdel Hpost)
      as (w1 & r1 & w2 & r2 & _ & _ & Hl).
    eexists _, _, r1, r2. rewrite Connect_trace, Hl.
    split; [reflexivity |]. rewrite logout_headers, login_headers.
    repeat split.
  - intros Hc.
    destruct (Connect_login_fresh s Hc Hpost) as (w2 & r2 & _ & Hl).
    eexists _, r2. rewrite Connect_trace, Hl.
    split; [reflexivity |]. rewrite login_headers. repeat split.
Qed.

(** *** The tokens after [Connect] *)

Lemma Connect_login_tokens (s s1 : State World) r :
  (Client (sess s) = None → SessionToken (sess s) = "" ∧ CsrfToken (sess s) = "") →
  (is_Some (Client (sess s)) → session_url_ok "DELETE" (sess s)) →
  Connect_login s = Done s1 r →
  SessionToken (sess s1) = "" ∧ CsrfToken (sess s1) = ""
  ∧ reauthCount (sess s1) = reauthCount (sess s).
Proof.
  intros Hnone Hsome Hl.
  destruct (Client (sess s)) as [c |] eqn:Hc.
  - pose proof (Disconnect_client Client_Do url_Parse_ok NewRequest_ok s c Hc
                  (Hsome (mk_is_Some _ _ eq_refl))) as Hd.
    by rewrite (Connect_login_after _ _ _ _ _ Hd Hl).
  - pose proof (Disconnect_no_client Client_Do url_Parse_ok NewRequest_ok s Hc) as Hd.
    rewrite (Connect_login_after _ _ _ _ _ Hd Hl), Hc.
    destruct Hnone as [? ?]; done.
Qed.

(** X5.  After a login answered 2xx, on a session that [Disconnect] has
    cleared, what [Connect] stores comes from the reply alone: the
    session token is the capture of the last value matching the session
    pattern, the anti-forgery token that of the last value matching only
    the anti-forgery pattern, and each is empty when no value qualifies.
    [Connect] reports the missing session token first, then the missing
    anti-forgery token, and succeeds when both are found. *)
Theorem Connect_tokens_from_reply (s s1 : State World) (resp : Response) :
  (Client (sess s) = None → SessionToken (sess s) = "" ∧ CsrfToken (sess s) = "") →
  (is_Some (Client (sess s)) → session_url_ok "DELETE" (sess s)) →
  Connect_login s = Done s1 (inr resp) →
  ∃ s',
    Connect s =
      Done s' match last (omap rexSession (SetCookie resp)),
                    last (omap csrf_of (SetCookie resp)) with
              | None, _ => Some ConnectNoSessionToken
              | Some _, None => Some ConnectNoCsrfToken
              | Some _, Some _ => None
              end
    ∧ SessionToken (sess s') = default "" (last (omap rexSession (SetCookie resp)))
    ∧ CsrfToken (sess s') = default "" (last (omap csrf_of (SetCookie resp))).
Proof.
  intros Hnone Hsome Hl.
  destruct (Connect_login_tokens _ _ _ Hnone Hsome Hl) as (Hs & Hc & _).
  unfold Connect. rewrite Hl. simpl. unfold Connect_tokens.
  destruct (scan_cookies_last (sess s1) (SetCookie resp)) as [Hst Hct].
  rewrite Hs in Hst. rewrite Hc in Hct. sess_simpl. rewrite Hst, Hct.
  destruct (last (omap rexSession (SetCookie resp))) as [t1 |] eqn:H1;
    destruct (last (omap csrf_of (SetCookie resp))) as [t2 |] eqn:H2; simpl in *.
  all: try (assert (t1 ≠ "") as Ht1;
    [ pose proof (last_Some_elem_of _ _ H1) as Hin;
      apply list_elem_of_omap in Hin as (v & _ & Hv);
      by apply capture_last_nonempty in Hv |]).
  all: try (assert (t2 ≠ "") as Ht2;
    [ pose proof (last_Some_elem_of _ _ H2) as Hin;
      apply list_elem_of_omap in Hin as (v & _ & Hv);
      unfold csrf_of in Hv; destruct (rexSession v); [done |];
      by apply capture_last_nonempty in Hv |]).
  all: repeat case_decide; try done.
  all: eexists; (split; [reflexivity |]); sess_simpl; by rewrite Hst, Hct.
Qed.

(** X6.  A [Connect] that fails before the cookies are read (the request
    cannot be built, the transport fails, the status is not 2xx) returns
    with a client held and the re-authentication counter untouched.
    Both tokens are empty when the [Disconnect] it starts with tore the
    session down, that is when a client was held and the DELETE could
    be built; otherwise both are what they were at the call. *)
Theorem Connect_failed_login (s s' : State World) (e : Error) :
  Connect s = Done s' (Some e) →
  e ≠ ConnectNoSessionToken → e ≠ ConnectNoCsrfToken →
  is_Some (Client (sess s'))
  ∧ reauthCount (sess s') = reauthCount (sess s)
  ∧ (e = ConnectNewRequest ∨ (∃ msg, e = ConnectDo msg)
     ∨ ∃ body, e = ConnectStatus body)
  ∧ (SessionToken (sess s'), CsrfToken (sess s')) =
      match Client (sess s) with
      | Some _ =>
          if NewRequest_ok "DELETE" (Endpoint (sess s)) sessionPath
          then ("", "")
          else (SessionToken (sess s), CsrfToken (sess s))
      | None => (SessionToken (sess s), CsrfToken (sess s))
      end.
Proof.
  intros H He1 He2.
  destruct (Connect_inv _ _ _ H) as (s1 & r & Hl & _ & _ & Hr).
  destruct r as [e0 | resp].
  - destruct Hr as [[= <-] ->]. rewrite (Connect_login_sess _ _ _ Hl).
    split; [| split; [| split]].
    + destruct (Client (sess s)) as [c |] eqn:Hc;
        [destruct (NewRequest_ok _ _ _) |]; rewrite ?Hc; done.
    + destruct (Client (sess s)); [destruct (NewRequest_ok _ _ _) |]; done.
    + revert Hl. unfold Connect_login.
      destruct (Disconnect s) as [s0 e0' | s0 | s0]; simpl; try done.
      repeat (case_match; try done); intros [= <- <-]; eauto.
    + destruct (Client (sess s)); [destruct (NewRequest_ok _ _ _) |]; done.
  - exfalso. revert Hr. unfold Connect_tokens.
    repeat case_decide; intros [= _ <-]; done.
Qed.

(** ** Merging pages *)

Lemma strip_meta_lookup (jt : gmap string JSON) (k : string) :
  strip_meta jt !! k =
    if decide (k = "errors" ∨ k = "resume" ∨ k = "total") then None else jt !! k.
Proof.
  unfold strip_meta. rewrite !lookup_delete.
  repeat case_decide; subst; try done; try tauto.
  by destruct_or!; subst.
Qed.

Lemma mergePage_union (jb jt : gmap string JSON) :
  (∀ k a, jb !! k = Some (JArray a) → jt !! k = None) →
  mergePage jb jt = Some (jt ∪ jb).
Proof.
  intros Hdis. destruct (mergePage jb jt) as [jb' |] eqn:Hm.
  - f_equal. apply map_eq. intros k.
    rewrite (mergePage_lookup _ _ _ k Hm), lookup_union.
    destruct (jt !! k) as [d |] eqn:Hk; [| by rewrite (left_id_L None _)].
    destruct (jb !! k) as [[] |] eqn:Hb; simpl; try done.
    rewrite (Hdis _ _ Hb) in Hk. done.
  - apply mergePage_panics in Hm as (k & d & Hk & a & Ha & _).
    rewrite (Hdis _ _ Ha) in Hk. done.
Qed.

(** ** Sending *)

(** How [SendRaw] ends, with the request it hands to the client. *)
Lemma SendRaw_request method path query body headers (s : State World) :
  SendRaw method path query body headers s = Panicked s
  ∨ (SendRaw method path query body headers s = Done s (RawErr SendRawRequest)
     ∧ NewRequest_ok method (Endpoint (sess s)) (path_text path) = false)
  ∨ ∃ c req,
      Client (sess s) = Some c
      ∧ SendRaw method path query body headers s =
          Done (mkState (Client_Do (world s) c req).1
                        (trace s ++ [(req, (Client_Do (world s) c req).2)])
                        (sess s))
               match (Client_Do (world s) c req).2 with
               | Reply_ok resp => RawResp resp
               | Reply_err msg => RawErr (TransportError msg)
               end
      ∧ Method req = NewRequest_method method
      ∧ Target req = mkURL (Endpoint (sess s)) (path_text path) query
      ∧ Header req = setHeaders ∅ (sess s) headers.
Proof.
  unfold SendRaw.
  destruct body; simpl; auto.
  all: unfold GetURL; destruct (url_Parse_ok _); auto.
  all: destruct path; simpl; auto.
  all: destruct (NewRequest_ok _ _ _) eqn:Hn; simpl; auto.
  all: destruct (Client (sess s)) as [c |] eqn:Hc; auto.
  all: right; right; rewrite Do_spec; simpl.
  all: match goal with |- context [Client_Do _ _ ?req] => exists c, req end.
  all: split; [done |]; split; [by destruct (Client_Do _ _ _).2 |]; done.
Qed.

Lemma page_request_weaken method path resumeKey query x :
  page_request method path (page_query resumeKey query) x →
  page_request method path query x.
Proof.
  unfold page_request, page_query. intros (Hm & Hp & Hq).
  split; [done |]. split; [done |].
  case_decide; [done |]. destruct Hq as [-> | ?]; eauto.
Qed.

Section Bounded.

Variables (method : string) (path : PathArg) (body : BodyArg)
          (headers : gmap string string).
Variable retry : gmap string string → State World → Outcome World SendResult.

Hypothesis retry_extends :
  ∀ q (s : State World), trace s `prefix_of` trace (final (retry q s)).

(** As long as no reply starts a re-authentication, the loop keeps the
    session, makes at most [n] requests, all of them for the pages of
    the call, and ends by itself. *)
Lemma Send_loop_bounded n :
  ∀ resumeKey query jsonBody jsonTemp (s : State World),
    ∃ new,
      trace (final (Send_loop method path body headers retry n
                      resumeKey query jsonBody jsonTemp s)) = (trace s ++ new)%list
      ∧ (Forall (no_reauth (reauthCount (sess s))) new →
         sess (final (Send_loop method path body headers retry n
                        resumeKey query jsonBody jsonTemp s)) = sess s
         ∧ (length new ≤ n)%nat
         ∧ ¬ starved (Send_loop method path body headers retry n
                        resumeKey query jsonBody jsonTemp s)
         ∧ Forall (page_request method (path_text path) query) new).
Proof.
  induction n as [| n IH]; intros rk q jb jt s.
  { exists []. simpl. rewrite app_nil_r. split; [done |]. intros _.
    finish_bounded. }
  rewrite Send_loop_S.
  destruct (SendRaw_request method path (page_query rk q) body headers s)
    as [-> | [[-> _] | (c & req & Hc & -> & Hm & Ht & _)]]; simpl.
  1, 2: exists []; rewrite app_nil_r; simpl; (split; [done |]); intros _;
        finish_bounded.
  assert (page_request method (path_text path) q
            (req, (Client_Do (world s) c req).2)) as Hpage.
  { apply page_request_weaken with rk. unfold page_request. simpl.
    rewrite Ht. simpl. tauto. }
  destruct (Client_Do (world s) c req).2 as [resp | msg] eqn:Hr; simpl.
  2: { exists [(req, Reply_err msg)]. split; [done |]. intros _. simpl.
       finish_bounded. }
  destruct (BodyError resp).
  { exists [(req, Reply_ok resp)]. split; [done |]. intros _. simpl.
    finish_bounded. }
  destruct (outside2xx (StatusCode resp)).
  - destruct ((StatusCode resp =? 401)%Z && _) eqn:H401.
    + apply andb_true_iff in H401 as [H401%Z.eqb_eq Hcnt%negb_true_iff].
      apply Z.leb_gt in Hcnt. simpl in Hcnt.
      match goal with |- context [bind (Reconnect ?s0) ?k] =>
        pose proof (Reconnect_extends Client_Do url_Parse_ok NewRequest_ok s0) as He;
        destruct (Reconnect s0) as [s2 e2 | s2 | s2]
      end; simpl in *.
      1: pose proof (retry_extends (page_query rk q) s2) as He2;
         assert ((trace s ++ [(req, Reply_ok resp)])%list `prefix_of`
                 trace (final (retry (page_query rk q) s2))) as [k Hk]
           by (etrans; done).
      2, 3: destruct He as [k Hk].
      all: exists ((req, Reply_ok resp) :: k);
        (split; [by rewrite Hk, <- app_assoc |]);
        intros HF; inversion_clear HF as [| ? ? Hx _];
        unfold no_reauth, status_is in Hx; simpl in Hx;
        specialize (Hx H401); lia.
    + exists [(req, Reply_ok resp)]. split; [done |]. intros _. simpl.
      finish_bounded.
  - case_decide; [stop_after req resp |].
    destruct (unmarshal_into _ jt) as [jt1 |]; [| stop_after req resp].
    destruct (next_resume jt1 rk) as [[resume rk'] |]; [| stop_after req resp].
    destruct (jb !! "errors"); [stop_after req resp |].
    destruct (mergePage jb (strip_meta jt1)) as [jb1 |]; [| stop_after req resp].
    destruct resume; [| stop_after req resp].
    match goal with |- context [Send_loop _ _ _ _ _ n ?a ?b ?c ?d ?e] =>
      destruct (IH a b c d e) as (new & Hnew & Hq)
    end.
    exists ((req, Reply_ok resp) :: new). rewrite Hnew. simpl.
    split; [by rewrite <- app_assoc |].
    intros HF. inversion_clear HF as [| ? ? _ HF'].
    destruct (Hq HF') as (Hs & Hlen & Hns & Hpg).
    split; [done |]. split; [lia |]. split; [done |].
    constructor; [done |].
    eapply Forall_impl; [exact Hpg |]. intros x. apply page_request_weaken.
Qed.

End Bounded.

(** X7.  A [Send] in which no reply starts a re-authentication (no 401,
    or the counter of the session already used up) ends by itself after
    at most [maxCount] requests, each with the method of the call (GET
    for the empty method), its path, and the caller's query or a resume
    key alone, and it leaves the session as it found it. *)
Theorem Send_without_reauth fuel method path query body headers
    (s : State World) (new : list (Request * Reply)) :
  trace (final (Send (S fuel) method path query body headers s))
    = (trace s ++ new)%list →
  Forall (no_reauth (reauthCount (sess s))) new →
  ¬ starved (Send (S fuel) method path query body headers s)
  ∧ (length new ≤ maxCount)%nat
  ∧ sess (final (Send (S fuel) method path query body headers s)) = sess s
  ∧ Forall (page_request method (path_text path) query) new.
Proof.
  intros Hnew Hq. rewrite Send_S in *.
  destruct (Send_loop_bounded method path body headers
              (λ query s, Send fuel method path query body headers s)
              (λ q s0, Send_extends Client_Do json_Unmarshal url_Parse_ok
                         NewRequest_ok fuel method path q body headers s0)
              maxCount "" query ∅ ∅ s) as (new' & Hnew' & H).
  rewrite Hnew' in Hnew. apply app_inv_head in Hnew as ->.
  destruct (H Hq) as (? & ? & ? & ?). done.
Qed.

(** ** Order of iteration over a Go map *)

Lemma foldl_pairwise_comm {A B} `{EqDecision B} (f : A → B → A)
    (l l' : list B) :
  l ≡ₚ l' →
  (∀ a x y, x ∈ l → y ∈ l → x ≠ y → f (f a x) y = f (f a y) x) →
  ∀ a, foldl f a l = foldl f a l'.
Proof.
  induction 1 as [| x l l' Hp IH | x y l | l1 l2 l3 Hp1 IH1 Hp2 IH2];
    intros Hc a; simpl.
  - done.
  - apply IH. intros a' u v Hu Hv. apply Hc; by right.
  - destruct (decide (x = y)) as [-> | Hne]; [done |].
    rewrite (Hc a y x); [done | set_solver | set_solver | done].
  - rewrite IH1 by done. apply IH2.
    intros a' u v Hu Hv. apply Hc; by rewrite Hp1.
Qed.

Lemma mergeList_perm (l l' : list (string * JSON)) (jb : gmap string JSON) :
  NoDup l.*1 → l ≡ₚ l' → mergeList jb l = mergeList jb l'.
Proof.
  intros Hnd Hp.
  assert (NoDup l'.*1) as Hnd' by (by rewrite <- Hp).
  destruct (mergeList jb l) as [m |] eqn:H1,
           (mergeList jb l') as [m' |] eqn:H2; [| | | done].
  - f_equal. apply map_eq. intros k.
    destruct (decide (k ∈ l.*1)) as [Hin | Hin].
    + apply list_elem_of_fmap in Hin as ([k' d] & -> & Hin). simpl.
      rewrite (mergeList_lookup l _ _ _ _ Hnd H1 Hin).
      rewrite Hp in Hin.
      by rewrite (mergeList_lookup l' _ _ _ _ Hnd' H2 Hin).
    + rewrite (mergeList_other _ _ _ _ H1 Hin).
      rewrite Hp in Hin. by rewrite (mergeList_other _ _ _ _ H2 Hin).
  - apply mergeList_panics in H2 as (k & d & Hin & Hc); [| done].
    assert (mergeList jb l = None) as H; [| congruence].
    apply mergeList_panics; [done |]. exists k, d. by rewrite Hp.
  - apply mergeList_panics in H1 as (k & d & Hin & Hc); [| done].
    assert (mergeList jb l' = None) as H; [| congruence].
    apply mergeList_panics; [done |]. exists k, d. by rewrite <- Hp.
Qed.

(** X8.  The merge of a page does not depend on the order in which the
    [range] over the page visits its keys: every order gives the result
    of [mergePage], the panic included. *)
Theorem mergePage_any_order (jsonBody jsonTemp : gmap string JSON)
    (order : list (string * JSON)) :
  order ≡ₚ map_to_list jsonTemp →
  mergeList jsonBody order = mergePage jsonBody jsonTemp.
Proof.
  intros Hp. unfold mergePage. symmetry.
  apply mergeList_perm; [apply NoDup_fst_map_to_list | done].
Qed.

Lemma add_default_comm (h : gmap string (list string)) (x y : string * string) :
  CanonicalMIMEHeaderKey x.1 ≠ y.1 →
  CanonicalMIMEHeaderKey y.1 ≠ x.1 →
  CanonicalMIMEHeaderKey x.1 ≠ CanonicalMIMEHeaderKey y.1 →
  add_default (add_default h x) y = add_default (add_default h y) x.
Proof.
  destruct x as [k v], y as [k' v']. simpl. intros H1 H2 H3.
  apply map_eq. intros j. rewrite !lookup_add_default.
  destruct (h !! k) eqn:Hk, (h !! k') eqn:Hk';
    rewrite ?Hk, ?Hk'; repeat case_decide; simplify_eq; try done.
Qed.

Lemma defaultHeaders_comm ctx (h : gmap string (list string))
    (x y : string * string) :
  x ∈ defaultHeaders ctx → y ∈ defaultHeaders ctx → x ≠ y →
  add_default (add_default h x) y = add_default (add_default h y) x.
Proof.
  unfold defaultHeaders. intros Hx Hy Hne.
  repeat (apply elem_of_cons in Hx as [-> | Hx]);
    [.. | by apply elem_of_nil in Hx].
  all: repeat (apply elem_of_cons in Hy as [-> | Hy]);
    [.. | by apply elem_of_nil in Hy].
  all: try done.
  all: apply add_default_comm; vm_compute; discriminate.
Qed.

(** X9.  The headers that [setHeaders] leaves on a request do not depend
    on the order in which the [range] over its map of defaults visits
    them. *)
Theorem setHeaders_any_order (reqHeader : gmap string (list string))
    (ctx : PapiSession) (headers : gmap string string)
    (order : list (string * string)) :
  order ≡ₚ defaultHeaders ctx →
  add_defaults order (set_supplied headers reqHeader)
    = setHeaders reqHeader ctx headers.
Proof.
  intros Hp. unfold setHeaders, add_defaults. symmetry.
  apply foldl_pairwise_comm; [done |].
  intros a x y. apply defaultHeaders_comm.
Qed.

Lemma Connect_counter (s s' : State World) e :
  Connect s = Done s' e →
  reauthCount (sess s') = match e with
                          | None => 0
                          | Some _ => reauthCount (sess s)
                          end.
Proof.
  intros H. destruct (Connect_inv _ _ _ H) as (s1 & r & Hl & _ & _ & Hr).
  assert (reauthCount (sess s1) = reauthCount (sess s)) as Hc.
  { pose proof (Disconnect_settings s) as [_ Hd].
    destruct (Disconnect s) as [s0 e0 | s0 | s0] eqn:Hd0;
      [| unfold Connect_login in Hl; by rewrite Hd0 in Hl ..].
    rewrite (Connect_login_after _ _ _ _ _ Hd0 Hl). simpl in Hd.
    rewrite <- Hd. by destruct (Client (sess s0)). }
  destruct r as [e0 | resp].
  - by destruct Hr as [-> ->].
  - destruct (scan_cookies_rest (sess s1) (SetCookie resp)) as (_ & _ & Hsc).
    revert Hr. unfold Connect_tokens.
    repeat case_decide; intros [= <- <-]; simpl; congruence.
Qed.

Lemma Reconnect_counter (s s' : State World) e :
  Reconnect s = Done s' e →
  reauthCount (sess s') = match e with
                          | None => 0
                          | Some _ => reauthCount (sess s)
                          end.
Proof.
  unfold Reconnect. pose proof (Disconnect_settings s) as [_ Hd].
  destruct (Disconnect s) as [s0 e0 | s0 | s0]; simpl in *; [| done ..].
  intros H. rewrite (Connect_counter _ _ _ H). by rewrite Hd.
Qed.

Section Payload.

Variables (method : string) (path : PathArg) (body : BodyArg)
          (headers : gmap string string).
Variable retry : gmap string string → State World → Outcome World SendResult.

Hypothesis retry_payload :
  ∀ q (s s' : State World) m,
    retry q s = Done s' (SendOk (Some m)) → payload_only m.

Lemma Send_loop_payload n :
  ∀ resumeKey query jsonBody jsonTemp (s s' : State World) m,
    payload_only jsonBody →
    Send_loop method path body headers retry n resumeKey query jsonBody jsonTemp s
      = Done s' (SendOk (Some m)) →
    payload_only m.
Proof.
  induction n as [| n IH]; intros rk q jb jt s s' m Hjb.
  { by intros [= _ <-]. }
  rewrite Send_loop_S.
  destruct (SendRaw_request method path (page_query rk q) body headers s)
    as [-> | [[-> _] | (c & req & Hc & -> & _)]]; simpl; try done.
  destruct (Client_Do (world s) c req).2 as [resp | msg]; simpl; [| done].
  destruct (BodyError resp); [done |].
  destruct (outside2xx (StatusCode resp)).
  - destruct ((StatusCode resp =? 401)%Z && _); [| done].
    match goal with |- context [bind (Reconnect ?s0) ?k] =>
      destruct (Reconnect s0) as [s2 e2 | s2 | s2]
    end; simpl; [apply retry_payload | done | done].
  - case_decide; [done |].
    destruct (unmarshal_into _ jt) as [jt1 |]; [| done].
    destruct (next_resume jt1 rk) as [[resume rk'] |]; [| done].
    destruct (jb !! "errors"); [done |].
    destruct (mergePage jb (strip_meta jt1)) as [jb1 |] eqn:Hm; [| done].
    assert (payload_only jb1) as Hjb1.
    { destruct Hjb as (He & Hr & Ht). unfold payload_only.
      rewrite !(mergePage_lookup _ _ _ _ Hm), !strip_meta_lookup.
      rewrite !decide_True by tauto. done. }
    destruct resume; [by apply IH | by intros [= _ <-]].
Qed.

End Payload.

(** X10.  The mapping that a successful [Send] returns never holds the
    keys [errors], [resume] or [total]: they are removed from every page
    before it is merged. *)
Theorem Send_returns_payload_only fuel method path query body headers
    (s s' : State World) (m : gmap string JSON) :
  Send fuel method path query body headers s = Done s' (SendOk (Some m)) →
  m !! "errors" = None ∧ m !! "resume" = None ∧ m !! "total" = None.
Proof.
  revert query s s' m.
  induction fuel as [| fuel IH]; intros query s s' m; [done |].
  rewrite Send_S. apply Send_loop_payload; [| done].
  intros q s0 s0' m0. apply IH.
Qed.

(** X11.  When the first reply is a 2xx page whose body decodes to an
    object with no [resume] field, or a null one, [Send] returns that
    object without its [errors], [resume] and [total] fields, after that
    one request. *)
Theorem Send_single_page fuel method path query body headers
    (s s1 : State World) (resp : Response) (obj : gmap string JSON) :
  SendRaw method path query body headers s = Done s1 (RawResp resp) →
  BodyError resp = false →
  outside2xx (StatusCode resp) = false →
  Body resp ≠ "" →
  json_Unmarshal (Body resp) = DecObject obj →
  (obj !! "resume" = None ∨ obj !! "resume" = Some JNull) →
  Send (S fuel) method path query body headers s
    = Done s1 (SendOk (Some (strip_meta obj))).
Proof.
  intros Hraw Herr Hst Hbody Hdec Hres.
  rewrite Send_S, maxCount_S, Send_loop_S.
  unfold page_query at 1. rewrite decide_True by done.
  rewrite Hraw. cbn [bind]. rewrite Herr, Hst, decide_False, Hdec by done.
  cbn [unmarshal_into]. rewrite (right_id_L ∅ (∪)). unfold next_resume.
  rewrite lookup_empty, mergePage_union by (intros k a; by rewrite lookup_empty).
  rewrite (right_id_L ∅ (∪)).
  by destruct Hres as [-> | ->].
Qed.

(** X12.  A 401 in reply to the first request of a call.  When its
    body cannot be read, [Send] returns the read error and does not
    re-authenticate.  When the counter of the session is used up, [Send]
    returns the error of the status.  Otherwise the counter is
    incremented, [Reconnect] is called, and the whole call is made again
    with the caller's own query, whether [Reconnect] reported an error
    or not; the counter of the session the call is made again in is 0
    when [Reconnect] succeeded and the incremented one when it did
    not. *)
Theorem Send_retries_after_Reconnect fuel method path query body headers
    (s s1 : State World) (resp : Response) :
  SendRaw method path query body headers s = Done s1 (RawResp resp) →
  StatusCode resp = 401 →
  (BodyError resp = true →
   Send (S fuel) method path query body headers s
     = Done s1 (SendErr SendReadBody))
  ∧ (BodyError resp = false →
     (defaultMaxReauthCount ≤ reauthCount (sess s1))%Z →
     Send (S fuel) method path query body headers s
       = Done s1 (SendErr (SendNon2xx 401 (Body resp))))
  ∧ (BodyError resp = false →
     (reauthCount (sess s1) < defaultMaxReauthCount)%Z →
     ∀ (s2 : State World) (e : option Error),
       Reconnect (with_sess (set_reauthCount (reauthCount (sess s1) + 1)
                               (sess s1)) s1)
         = Done s2 e →
       Send (S fuel) method path query body headers s
         = Send fuel method path query body headers s2
       ∧ reauthCount (sess s2) = match e with
                                 | None => 0
                                 | Some _ => reauthCount (sess s1) + 1
                                 end).
Proof.
  intros Hraw Hst.
  rewrite Send_S, maxCount_S, Send_loop_S.
  unfold page_query. rewrite decide_True by done.
  rewrite Hraw. cbn [bind]. rewrite Hst.
  change (outside2xx 401) with true. cbn [Z.eqb Pos.eqb andb].
  split; [| split].
  - by intros ->.
  - intros -> Hcnt. apply Z.leb_le in Hcnt. by rewrite Hcnt.
  - intros -> Hcnt s2 e Hrec.
    split; [| by rewrite (Reconnect_counter _ _ _ Hrec)].
    apply Z.leb_gt in Hcnt. rewrite Hcnt. cbn [negb]. by rewrite Hrec.
Qed.

(** X13.  Without a client [Send] makes no request: it panics, or, when
    [http.NewRequest] refuses the request, returns that error.  So it
    is after a [Disconnect] that has torn the session down. *)
Theorem Send_without_client fuel method path query body headers
    (s : State World) :
  (Client (sess s) = None →
   Send (S fuel) method path query body headers s = Panicked s
   ∨ (NewRequest_ok method (Endpoint (sess s)) (path_text path) = false
      ∧ Send (S fuel) method path query body headers s
          = Done s (SendErr (SendSendRaw SendRawRequest))))
  ∧ (∀ c, Client (sess s) = Some c → session_url_ok "DELETE" (sess s) →
     ∃ s1 e,
       Disconnect s = Done s1 e
       ∧ (Send (S fuel) method path query body headers s1 = Panicked s1
          ∨ (NewRequest_ok method (Endpoint (sess s)) (path_text path) = false
             ∧ Send (S fuel) method path query body headers s1
                 = Done s1 (SendErr (SendSendRaw SendRawRequest))))).
Proof.
  assert (∀ s0 : State World, Client (sess s0) = None →
            Send (S fuel) method path query body headers s0 = Panicked s0
            ∨ (NewRequest_ok method (Endpoint (sess s0)) (path_text path) = false
               ∧ Send (S fuel) method path query body headers s0
                   = Done s0 (SendErr (SendSendRaw SendRawRequest)))) as Hnone.
  { intros s0 Hc. rewrite Send_S, maxCount_S, Send_loop_S.
    unfold page_query. rewrite decide_True by done.
    destruct (SendRaw_request method path query body headers s0)
      as [-> | [[-> Hn] | (c & req & Hc' & _)]]; cbn [bind];
      [left; reflexivity | right; split; [exact Hn | reflexivity] | congruence]. }
  split; [apply Hnone |].
  intros c Hc Hok.
  rewrite (Disconnect_client Client_Do url_Parse_ok NewRequest_ok s c Hc Hok).
  eexists _, _. split; [reflexivity |].
  match goal with |- context [Send _ _ _ _ _ _ ?s1] => apply (Hnone s1) end.
  done.
Qed.

(** ** Where a call sends its requests *)

Lemma confined_here {A} P (s : State World) (o : Outcome World A) :
  final o = s → confined P s o.
Proof.
  intros <-. split; [done |]. exists []. by rewrite app_nil_r.
Qed.

Lemma confined_bind {A B} P (s : State World) (o : Outcome World A)
    (k : State World → A → Outcome World B) :
  confined P s o →
  (∀ s1 a, o = Done s1 a → settings (sess s1) = settings (sess s) →
     confined P s1 (k s1 a)) →
  confined P s (bind o k).
Proof.
  intros (Hs & new & Ht & HF) Hk. destruct o as [s1 a | s1 | s1]; simpl in *.
  - destruct (Hk s1 a eq_refl Hs) as (Hs' & new' & Ht' & HF').
    split; [congruence |]. exists (new ++ new')%list.
    rewrite Ht', Ht, app_assoc. split; [done |]. by apply Forall_app.
  - split; [done |]. eauto.
  - split; [done |]. eauto.
Qed.

Lemma confined_mono {A} (P Q : Request * Reply → Prop) (s : State World)
    (o : Outcome World A) :
  (∀ x, P x → Q x) → confined P s o → confined Q s o.
Proof.
  intros HPQ (Hs & new & Ht & HF). split; [done |]. exists new.
  split; [done |]. by eapply Forall_impl.
Qed.

Lemma confined_one {A} (P : Request * Reply → Prop) (s : State World)
    (o : Outcome World A) x :
  settings (sess (final o)) = settings (sess s) →
  trace (final o) = (trace s ++ [x])%list → P x → confined P s o.
Proof.
  intros Hs Ht HP. split; [done |]. exists [x]. split; [done |].
  by apply Forall_singleton.
Qed.

Lemma settings_Endpoint ctx ctx' :
  settings ctx' = settings ctx → Endpoint ctx' = Endpoint ctx.
Proof. unfold settings. by intros [= _ _ -> _ _]. Qed.

Lemma Disconnect_confined (s : State World) e :
  Endpoint (sess s) = e →
  confined (λ x, url_endpoint (Target x.1) = e ∧ session_request x) s
    (Disconnect s).
Proof.
  intros He.
  destruct (Disconnect_cases s)
    as [-> | [[e0 ->] | (c & u & r & w & e0 & _ & _ & Hp & Hu & ->)]];
    [by apply confined_here .. |].
  eapply confined_one; [done | done |].
  split; [simpl; congruence |]. split; [done |]. by left.
Qed.

Lemma confined_from {A} P (s s' : State World) (o : Outcome World A) :
  settings (sess s') = settings (sess s) → trace s' = trace s →
  confined P s' o → confined P s o.
Proof. unfold confined. by intros -> ->. Qed.

Lemma Connect_login_confined (s : State World) e :
  Endpoint (sess s) = e →
  confined (λ x, url_endpoint (Target x.1) = e ∧ session_request x) s
    (Connect_login s).
Proof.
  intros He. unfold Connect_login.
  apply confined_bind; [by apply Disconnect_confined |].
  intros s0 e0 _ Hs0.
  set (s0' := match Client (sess s0) with
              | Some _ => s0
              | None => with_sess (init (sess s0)) s0
              end).
  assert (settings (sess s0') = settings (sess s0) ∧ trace s0' = trace s0)
    as [Hs' Ht'] by (subst s0'; by destruct (Client (sess s0))).
  apply confined_from with s0'; [done | done |].
  assert (Endpoint (sess s0') = e) as He0
    by (by rewrite (settings_Endpoint _ _ Hs'), (settings_Endpoint _ _ Hs0)).
  clearbody s0'. cbn zeta. unfold GetURL.
  destruct (url_Parse_ok _); [| by apply confined_here].
  sess_simpl. destruct (NewRequest_ok _ _ _); sess_simpl;
    [| by apply confined_here].
  destruct (Client (sess s0')) as [c |]; [| by apply confined_here].
  rewrite Do_spec.
  match goal with |- context [Client_Do _ _ ?req] =>
    apply confined_one with (req, (Client_Do (world s0') c req).2)
  end.
  - by repeat case_match.
  - by repeat case_match.
  - split; [done |]. split; [done |]. by right.
Qed.

Lemma Connect_confined (s : State World) e :
  Endpoint (sess s) = e →
  confined (λ x, url_endpoint (Target x.1) = e ∧ session_request x) s
    (Connect s).
Proof.
  intros He. unfold Connect.
  apply confined_bind; [by apply Connect_login_confined |].
  intros s1 [e1 | resp] _ _; [by apply confined_here |].
  destruct (scan_cookies_rest (sess s1) (SetCookie resp)) as (Hs & _ & _).
  unfold Connect_tokens.
  repeat case_decide; (split; [done |]); exists []; by rewrite app_nil_r.
Qed.

Lemma Reconnect_confined (s : State World) e :
  Endpoint (sess s) = e →
  confined (λ x, url_endpoint (Target x.1) = e ∧ session_request x) s
    (Reconnect s).
Proof.
  intros He. unfold Reconnect.
  apply confined_bind; [by apply Disconnect_confined |].
  intros s0 e0 _ Hs0. apply Connect_confined.
  by rewrite (settings_Endpoint _ _ Hs0).
Qed.

Lemma SendRaw_confined method path query body headers (s : State World) e :
  Endpoint (sess s) = e →
  confined (call_request e method (path_text path) query) s
    (SendRaw method path query body headers s).
Proof.
  intros He.
  destruct (SendRaw_request method path query body headers s)
    as [-> | [[-> _] | (c & req & Hc & -> & Hm & Ht & _)]];
    [by apply confined_here .. |].
  apply confined_one with (req, (Client_Do (world s) c req).2); [done | done |].
  unfold call_request, page_request. simpl. rewrite Ht. simpl.
  split; [done |]. left. tauto.
Qed.

Lemma call_request_weaken e method path resumeKey query x :
  call_request e method path (page_query resumeKey query) x →
  call_request e method path query x.
Proof.
  intros [He [Hp | Hs]]; (split; [done |]); [left | by right].
  by apply page_request_weaken with resumeKey.
Qed.

Section Where.

Variables (method : string) (path : PathArg) (body : BodyArg)
          (headers : gmap string string) (e : string).
Variable retry : gmap string string → State World → Outcome World SendResult.

Hypothesis retry_confined :
  ∀ q (s : State World), Endpoint (sess s) = e →
    confined (call_request e method (path_text path) q) s (retry q s).

Lemma Send_loop_confined n :
  ∀ resumeKey query jsonBody jsonTemp (s : State World),
    Endpoint (sess s) = e →
    confined (call_request e method (path_text path) query) s
      (Send_loop method path body headers retry n
         resumeKey query jsonBody jsonTemp s).
Proof.
  induction n as [| n IH]; intros rk q jb jt s He;
    [by apply confined_here |].
  rewrite Send_loop_S.
  apply confined_bind.
  { apply confined_mono
      with (call_request e method (path_text path) (page_query rk q));
      [intros x; apply call_request_weaken | by apply SendRaw_confined]. }
  intros s1 [resp | err] _ Hs1; [| by apply confined_here].
  assert (Endpoint (sess s1) = e) as He1
    by (by rewrite (settings_Endpoint _ _ Hs1)).
  destruct (BodyError resp); [by apply confined_here |].
  destruct (outside2xx (StatusCode resp)).
  - destruct ((StatusCode resp =? 401)%Z && _); [| by apply confined_here].
    match goal with |- confined _ _ (bind (Reconnect ?s0) _) =>
      apply confined_from with s0; [done | done |]
    end.
    apply confined_bind.
    { eapply confined_mono; [| by apply Reconnect_confined].
      intros x [? ?]. split; [done |]. by right. }
    intros s2 e2 _ Hs2.
    apply confined_mono
      with (call_request e method (path_text path) (page_query rk q));
      [intros x; apply call_request_weaken |].
    apply retry_confined.
    by rewrite (settings_Endpoint _ _ Hs2).
  - case_decide; [by apply confined_here |].
    destruct (unmarshal_into _ jt) as [jt1 |]; [| by apply confined_here].
    destruct (next_resume jt1 rk) as [[resume rk'] |]; [| by apply confined_here].
    destruct (jb !! "errors"); [by apply confined_here |].
    destruct (mergePage jb (strip_meta jt1)) as [jb1 |]; [| by apply confined_here].
    destruct resume; [| by apply confined_here].
    apply confined_mono
      with (call_request e method (path_text path) (page_query rk q));
      [intros x; apply call_request_weaken |].
    by apply IH.
Qed.

End Where.

Lemma Send_confined fuel :
  ∀ method path query body headers (s : State World),
    confined (call_request (Endpoint (sess s)) method (path_text path) query) s
      (Send fuel method path query body headers s).
Proof.
  induction fuel as [| fuel IH]; intros method path query body headers s;
    [by apply confined_here |].
  rewrite Send_S. apply Send_loop_confined; [| done].
  intros q s0 <-. apply IH.
Qed.

(** X14.  Whatever the peer answers, a [Send] leaves the configuration of
    the session as it is, and every request it makes goes to the
    endpoint of the session and is either a request for a page of the
    call (its method, GET for the empty one, its path, and the caller's
    query or a resume key alone) or a logout or login on the session
    resource. *)
Theorem Send_stays_on_endpoint fuel method path query body headers
    (s : State World) :
  settings (sess (final (Send fuel method path query body headers s)))
    = settings (sess s)
  ∧ ∃ new,
      trace (final (Send fuel method path query body headers s))
        = (trace s ++ new)%list
      ∧ Forall (call_request (Endpoint (sess s)) method (path_text path) query)
          new.
Proof. apply Send_confined. Qed.

(** ** Two pages *)

Lemma maxCount_SS : maxCount = S (S (Nat.pred (Nat.pred maxCount))).
Proof. reflexivity. Qed.

(** A call whose first page carries a resume key and whose second page
    carries none. *)
Lemma Send_two_pages_merge fuel method path query body headers
    (s s1 s2 : State World) (r1 r2 : Response) (o1 o2 : gmap string JSON)
    (tok : string) :
  SendRaw method path query body headers s = Done s1 (RawResp r1) →
  BodyError r1 = false → outside2xx (StatusCode r1) = false → Body r1 ≠ "" →
  json_Unmarshal (Body r1) = DecObject o1 →
  o1 !! "resume" = Some (JString tok) → tok ≠ "" →
  SendRaw method path {[ "resume" := tok ]} body headers s1
    = Done s2 (RawResp r2) →
  BodyError r2 = false → outside2xx (StatusCode r2) = false → Body r2 ≠ "" →
  json_Unmarshal (Body r2) = DecObject o2 →
  (o2 !! "resume" = None ∨ o2 !! "resume" = Some JNull) →
  Send (S fuel) method path query body headers s =
    match mergePage (strip_meta o1) (strip_meta (o2 ∪ strip_meta o1)) with
    | Some m => Done s2 (SendOk (Some m))
    | None => Panicked s2
    end.
Proof.
  intros Hraw1 Herr1 Hst1 Hb1 Hdec1 Hres1 Htok Hraw2 Herr2 Hst2 Hb2 Hdec2 Hres2.
  rewrite Send_S, maxCount_SS, Send_loop_S.
  unfold page_query at 1. rewrite decide_True by done.
  rewrite Hraw1. cbn [bind]. rewrite Herr1, Hst1, decide_False, Hdec1 by done.
  cbn [unmarshal_into]. rewrite (right_id_L ∅ (∪)). unfold next_resume at 1.
  rewrite Hres1, lookup_empty.
  rewrite mergePage_union by (intros k a; by rewrite lookup_empty).
  rewrite (right_id_L ∅ (∪)). lazy beta iota.
  rewrite Send_loop_S.
  unfold page_query at 1. rewrite decide_False by done.
  rewrite Hraw2. cbn [bind]. rewrite Herr2, Hst2, decide_False, Hdec2 by done.
  cbn [unmarshal_into]. unfold next_resume.
  rewrite lookup_union, strip_meta_lookup, decide_True by tauto.
  rewrite strip_meta_errors.
  destruct Hres2 as [-> | ->]; lazy beta iota; by destruct (mergePage _ _).
Qed.

(** X15.  A call answered by a page with a resume key and then by a page
    without one ends after these two requests.  It panics when a field
    that was a list on the first page comes back as something else on
    the second.  Otherwise it returns a mapping without [errors],
    [resume] and [total] in which a field of the second page is the list
    of the first page followed by the list of the second when both are
    lists, and the value of the second page otherwise; a field that only
    the first page has is merged with itself, so a list is returned
    twice over. *)
Theorem Send_two_pages fuel method path query body headers
    (s s1 s2 : State World) (r1 r2 : Response) (o1 o2 : gmap string JSON)
    (tok : string) :
  SendRaw method path query body headers s = Done s1 (RawResp r1) →
  BodyError r1 = false → outside2xx (StatusCode r1) = false → Body r1 ≠ "" →
  json_Unmarshal (Body r1) = DecObject o1 →
  o1 !! "resume" = Some (JString tok) → tok ≠ "" →
  SendRaw method path {[ "resume" := tok ]} body headers s1
    = Done s2 (RawResp r2) →
  BodyError r2 = false → outside2xx (StatusCode r2) = false → Body r2 ≠ "" →
  json_Unmarshal (Body r2) = DecObject o2 →
  (o2 !! "resume" = None ∨ o2 !! "resume" = Some JNull) →
  ((∃ k a d, strip_meta o1 !! k = Some (JArray a) ∧ o2 !! k = Some d
             ∧ ∀ b, d ≠ JArray b) →
   Send (S fuel) method path query body headers s = Panicked s2)
  ∧ ((∀ k a d, strip_meta o1 !! k = Some (JArray a) → o2 !! k = Some d →
        ∃ b, d = JArray b) →
     ∃ m, Send (S fuel) method path query body headers s
            = Done s2 (SendOk (Some m))
          ∧ ∀ k, m !! k =
              if decide (k = "errors" ∨ k = "resume" ∨ k = "total") then None
              else match o2 !! k with
                   | Some d2 => Some (merged (o1 !! k) d2)
                   | None => (λ d1, merged (Some d1) d1) <$> o1 !! k
                   end).
Proof.
  intros Hraw1 Herr1 Hst1 Hb1 Hdec1 Hres1 Htok Hraw2 Herr2 Hst2 Hb2 Hdec2 Hres2.
  rewrite (Send_two_pages_merge fuel method path query body headers
             s s1 s2 r1 r2 o1 o2 tok) by done.
  split.
  - intros (k & a & d & H1 & H2 & Hd).
    assert (mergePage (strip_meta o1) (strip_meta (o2 ∪ strip_meta o1)) = None)
      as ->; [| done].
    apply mergePage_panics. exists k, d. split; [| by exists a].
    rewrite strip_meta_lookup in H1 |- *. case_decide; [done |].
    by rewrite lookup_union, H2, union_Some_l.
  - intros Hok.
    destruct (mergePage (strip_meta o1) (strip_meta (o2 ∪ strip_meta o1)))
      as [m |] eqn:Hm.
    + exists m. split; [done |]. intros k.
      rewrite (mergePage_lookup _ _ _ k Hm), !strip_meta_lookup.
      case_decide; [done |].
      rewrite lookup_union, strip_meta_lookup, decide_False by done.
      destruct (o2 !! k) as [d2 |], (o1 !! k) as [d1 |]; done.
    + apply mergePage_panics in Hm as (k & d & Hk & a & Ha & Hd).
      rewrite strip_meta_lookup in Hk. case_decide; [done |].
      rewrite lookup_union in Hk.
      destruct (o2 !! k) as [d2 |] eqn:H2.
      * rewrite union_Some_l in Hk. injection Hk as ->.
        destruct (Hok _ _ _ Ha H2) as [b ->]. by destruct (Hd b).
      * rewrite (left_id_L None _) in Hk. rewrite Hk in Ha.
        injection Ha as ->. by destruct (Hd a).
Qed.

(** ** The two forms of a path and of a body *)

Section Forms.

Variables (method : string) (path path' : PathArg) (body body' : BodyArg)
          (headers : gmap string string).
Variables retry retry' : gmap string string → State World → Outcome World SendResult.

Hypothesis SendRaw_same :
  ∀ q (s : State World),
    SendRaw method path q body headers s = SendRaw method path' q body' headers s.
Hypothesis retry_same : ∀ q (s : State World), retry q s = retry' q s.

Lemma Send_loop_same n :
  ∀ resumeKey query jsonBody jsonTemp (s : State World),
    Send_loop method path body headers retry n resumeKey query jsonBody jsonTemp s
    = Send_loop method path' body' headers retry' n resumeKey query jsonBody
        jsonTemp s.
Proof.
  induction n as [| n IH]; intros rk q jb jt s; [done |].
  rewrite !Send_loop_S, SendRaw_same.
  destruct (SendRaw method path' (page_query rk q) body' headers s)
    as [s1 [resp | err] | s1 | s1]; cbn [bind]; try done.
  repeat (case_match; try done).
  all: try (match goal with |- bind ?o _ = _ => destruct o end; cbn [bind];
            try done; apply retry_same).
Qed.

End Forms.

Lemma SendRaw_forms method (l : list string) (b : string) query headers
    (s : State World) :
  SendRaw method (PathSegments l) query (BodyString b) headers s
  = SendRaw method (PathString (String.concat "/" l)) query (BodyBytes b)
      headers s.
Proof. reflexivity. Qed.

(** X16.  A path given as a slice of segments is the path given as the
    segments joined by [/], and a body given as a string is the body
    given as its bytes: [Send] does the same with either, whatever the
    peer answers. *)
Theorem Send_forms fuel method (l : list string) (b : string) query headers
    (s : State World) :
  Send fuel method (PathSegments l) query (BodyString b) headers s
  = Send fuel method (PathString (String.concat "/" l)) query (BodyBytes b)
      headers s.
Proof.
  revert query s. induction fuel as [| fuel IH]; intros query s; [done |].
  rewrite !Send_S. apply Send_loop_same; [| done].
  intros q s0. apply SendRaw_forms.
Qed.

(** ** The cookie patterns *)

Lemma strip_prefix_Some (p s rest : string) :
  strip_prefix p s = Some rest → s = p +:+ rest.
Proof.
  revert s. induction p as [| a p IH]; intros [| b s]; simpl; try done.
  - by intros [= <-].
  - by intros [= <-].
  - destruct (Ascii.eqb a b) eqn:E; [| done].
    apply Ascii.eqb_eq in E as ->. intros H. by rewrite (IH _ H).
Qed.

Lemma until_semicolon_split (s : string) :
  ∃ post, s = until_semicolon s +:+ post
          ∧ (post = "" ∨ ∃ post', post = String ";" post')
          ∧ (";"%char ∉ list_ascii_of_string (until_semicolon s)).
Proof.
  induction s as [| c s (post & Hs & Hpost & Hno)]; simpl.
  - exists "". split; [done |]. split; [by left |]. apply not_elem_of_nil.
  - destruct (Ascii.eqb c ";") eqn:E.
    + apply Ascii.eqb_eq in E as ->. exists (String ";" s).
      split; [done |]. split; [right; by exists s |]. apply not_elem_of_nil.
    + exists post.
      split; [change (String c s = String c (until_semicolon s +:+ post));
              congruence |].
      split; [done |]. simpl.
      apply not_elem_of_cons. split; [| done].
      intros <-. by rewrite Ascii.eqb_refl in E.
Qed.

Lemma capture_here_sound (name s tok : string) :
  capture_here name s = Some tok →
  tok ≠ "" ∧ (";"%char ∉ list_ascii_of_string tok)
  ∧ ∃ post, s = name +:+ tok +:+ post
            ∧ (post = "" ∨ ∃ post', post = String ";" post').
Proof.
  unfold capture_here.
  destruct (strip_prefix name s) as [rest |] eqn:Hp; [| done].
  apply strip_prefix_Some in Hp as ->.
  destruct (until_semicolon_split rest) as (post & Hr & Hpost & Hno).
  destruct (until_semicolon rest) as [| c t] eqn:Hu; [done |].
  intros [= <-]. split; [done |]. split; [done |].
  exists post. by rewrite <- Hr.
Qed.

Lemma capture_last_sound (name v tok : string) :
  capture_last name v = Some tok →
  tok ≠ "" ∧ (";"%char ∉ list_ascii_of_string tok) ∧ captured_from name tok v.
Proof.
  revert tok. induction v as [| c v IH]; intros tok; simpl.
  - intros (? & ? & post & Heq & ?)%capture_here_sound.
    split; [done |]. split; [done |]. exists "", post. by split.
  - destruct (capture_last name v) as [t |].
    + intros [= ->]. destruct (IH _ eq_refl) as (? & ? & pre & post & Heq & ?).
      split; [done |]. split; [done |]. exists (String c pre), post.
      split; [| done].
      change (String c v = String c (pre +:+ name +:+ tok +:+ post)).
      congruence.
    + intros (? & ? & post & Heq & ?)%capture_here_sound.
      split; [done |]. split; [done |]. exists "", post. by split.
Qed.

(** X17.  What the two cookie patterns of [Connect] capture from a
    [Set-Cookie] value is never empty, holds no [;], and stands in the
    value right after the name of the cookie, up to a [;] or to the end
    of the value. *)
Theorem cookie_capture_shape (v tok : string) :
  (rexSession v = Some tok →
   tok ≠ "" ∧ (";"%char ∉ list_ascii_of_string tok)
   ∧ captured_from "isisessid=" tok v)
  ∧ (rexCsrf v = Some tok →
     tok ≠ "" ∧ (";"%char ∉ list_ascii_of_string tok)
     ∧ captured_from "isicsrf=" tok v).
Proof. split; apply capture_last_sound. Qed.

(** ** The wrapper connection *)

Local Abbreviation GetPlatformLatest :=
  (GetPlatformLatest World Client_Do json_Unmarshal url_Parse_ok NewRequest_ok).
Local Abbreviation Onefs_Connect :=
  (Onefs_Connect World Client_Do json_Unmarshal url_Parse_ok NewRequest_ok).

(** The iteration that receives the last page. *)
Lemma Send_loop_last_page method path body headers retry n resumeKey query
    jsonBody jsonTemp (s s1 : State World) (resp : Response)
    (obj : gmap string JSON) :
  SendRaw method path (page_query resumeKey query) body headers s
    = Done s1 (RawResp resp) →
  BodyError resp = false → outside2xx (StatusCode resp) = false →
  Body resp ≠ "" →
  json_Unmarshal (Body resp) = DecObject obj →
  (obj !! "resume" = None ∨ obj !! "resume" = Some JNull) →
  jsonTemp !! "resume" = None →
  jsonBody !! "errors" = None →
  Send_loop method path body headers retry (S n) resumeKey query
    jsonBody jsonTemp s =
    match mergePage jsonBody (strip_meta (obj ∪ jsonTemp)) with
    | Some m => Done s1 (SendOk (Some m))
    | None => Panicked s1
    end.
Proof.
  intros Hraw Herr Hst Hb Hdec Hres Hjt Hjb.
  rewrite Send_loop_S, Hraw. cbn [bind].
  rewrite Herr, Hst, decide_False, Hdec by done.
  cbn [unmarshal_into]. unfold next_resume.
  rewrite lookup_union, Hjt, Hjb.
  destruct Hres as [-> | ->]; lazy beta iota; by destruct (mergePage _ _).
Qed.

(** X18.  [GetPlatformLatest] on the first reply of the cluster: a 2xx
    reply with an empty body makes it panic, and so does a last page
    whose [latest] field is missing or is not a string; a last page with
    a string there makes it return that string. *)
Theorem GetPlatformLatest_first_reply fuel (s s1 : State World)
    (resp : Response) :
  SendRaw "GET" (PathString defaultPapiWrapperLatestPath) ∅ BodyNil ∅ s
    = Done s1 (RawResp resp) →
  BodyError resp = false →
  outside2xx (StatusCode resp) = false →
  (Body resp = "" → GetPlatformLatest (S fuel) s = Panicked s1)
  ∧ (∀ obj, Body resp ≠ "" →
       json_Unmarshal (Body resp) = DecObject obj →
       (obj !! "resume" = None ∨ obj !! "resume" = Some JNull) →
       GetPlatformLatest (S fuel) s =
         match obj !! "latest" with
         | Some (JString v) => Done s1 (inr v)
         | _ => Panicked s1
         end).
Proof.
  intros Hraw Herr Hst. unfold GetPlatformLatest. rewrite Send_S, maxCount_S.
  split.
  - intros Hb.
    rewrite (empty_body_iteration Client_Do json_Unmarshal url_Parse_ok
               NewRequest_ok _ _ _ _ _ _ _ _ _ _ s s1 resp) by done.
    done.
  - intros obj Hb Hdec Hres.
    rewrite (Send_loop_last_page _ _ _ _ _ _ _ _ _ _ s s1 resp obj)
      by done.
    rewrite (right_id_L ∅ (∪)).
    rewrite mergePage_union by (intros k a; by rewrite lookup_empty).
    rewrite (right_id_L ∅ (∪)). cbn [bind mbind option_bind].
    by rewrite strip_meta_lookup, decide_False
      by (intros [? | [? | ?]]; done).
Qed.

Lemma settings_setters cfg ctx :
  settings (SetIgnoreCert (BypassCert cfg)
              (SetPassword (CfgPassword cfg)
                 (SetUser (CfgUser cfg)
                    (SetEndpoint (CfgEndpoint cfg) ctx).1).1).1).1
  = (CfgUser cfg, CfgPassword cfg, CfgEndpoint cfg, BypassCert cfg,
     ConnTimeout ctx).
Proof. reflexivity. Qed.

Lemma GetPlatformLatest_settings fuel (s s' : State World) r :
  GetPlatformLatest fuel s = Done s' r → settings (sess s') = settings (sess s).
Proof.
  unfold GetPlatformLatest.
  pose proof (Send_confined fuel "GET" (PathString defaultPapiWrapperLatestPath)
                ∅ BodyNil ∅ s) as [Hs _].
  destruct (Send _ _ _ _ _ _ _) as [s2 [m | e2] | s2 | s2]; cbn [bind]; try done.
  - destruct (m ≫= _) as [[] |]; try done. by intros [= <- _].
  - by intros [= <- _].
Qed.

(** X19.  When [Connect] of [OnefsConn] returns, the session is
    configured with the user, the password, the endpoint and the
    certificate flag of the configuration, and its timeout is
    untouched; the RAN and service paths are never changed.  The error
    it returns is the error of the [Connect] of the session, made after
    the [Disconnect] and the four setters.  With that error the platform
    path is unchanged.  Without it [GetPlatformLatest] has been called
    on the session as [Connect] left it: when that returns a version the
    platform path is [platform/] followed by that version, and when it
    returns an error the platform path is unchanged and [nil] is
    returned all the same. *)
Theorem Onefs_Connect_result fuel (cfg : OnefsCfg) (conn conn' : OnefsConn)
    (s s' : State World) (err : option Error) :
  Onefs_Connect fuel cfg conn s = Done s' (conn', err) →
  settings (sess s') =
    (CfgUser cfg, CfgPassword cfg, CfgEndpoint cfg, BypassCert cfg,
     ConnTimeout (sess s))
  ∧ RanPath conn' = RanPath conn
  ∧ ServicePath conn' = ServicePath conn
  ∧ ∃ s0 e0 s1,
      Disconnect s = Done s0 e0
      ∧ Connect
          (with_sess
             (SetIgnoreCert (BypassCert cfg)
                (SetPassword (CfgPassword cfg)
                   (SetUser (CfgUser cfg)
                      (SetEndpoint (CfgEndpoint cfg) (sess s0)).1).1).1).1 s0)
        = Done s1 err
      ∧ match err with
        | Some _ => s' = s1 ∧ conn' = conn
        | None =>
            ∃ r, GetPlatformLatest fuel s1 = Done s' r
                 ∧ conn' = match r with
                           | inl _ => conn
                           | inr apiVer =>
                               {| PlatformPath := "platform/" +:+ apiVer;
                                  RanPath := RanPath conn;
                                  ServicePath := ServicePath conn |}
                           end
        end.
Proof.
  intros H.
  assert (∃ s0 e0 s1,
            Disconnect s = Done s0 e0
            ∧ Connect
                (with_sess
                   (SetIgnoreCert (BypassCert cfg)
                      (SetPassword (CfgPassword cfg)
                         (SetUser (CfgUser cfg)
                            (SetEndpoint (CfgEndpoint cfg) (sess s0)).1).1).1).1 s0)
              = Done s1 err
            ∧ match err with
              | Some _ => s' = s1 ∧ conn' = conn
              | None =>
                  ∃ r, GetPlatformLatest fuel s1 = Done s' r
                       ∧ conn' = match r with
                                 | inl _ => conn
                                 | inr apiVer =>
                                     {| PlatformPath := "platform/" +:+ apiVer;
                                        RanPath := RanPath conn;
                                        ServicePath := ServicePath conn |}
                                 end
              end) as (s0 & e0 & s1 & Hd & Hc & Hr).
  { revert H. unfold Onefs_Connect.
    destruct (Disconnect s) as [s0 e0 | s0 | s0]; cbn [bind]; [| done ..].
    cbn zeta.
    match goal with |- bind ?o _ = _ → _ =>
      destruct o as [s1 [e1 |] | s1 | s1] eqn:Hc
    end; cbn [bind]; [| | done ..].
    - intros [= <- <- <-]. by exists s0, e0, s1.
    - destruct (GetPlatformLatest fuel s1) as [s2 r | s2 | s2] eqn:Hg;
        cbn [bind]; [| done ..].
      intros H.
      assert (s2 = s' ∧ err = None
              ∧ conn' = match r with
                        | inl _ => conn
                        | inr apiVer =>
                            {| PlatformPath := "platform/" +:+ apiVer;
                               RanPath := RanPath conn;
                               ServicePath := ServicePath conn |}
                        end) as (-> & -> & ->)
        by (destruct r; injection H as <- <- <-; done).
      exists s0, e0, s1. split; [done |]. split; [exact Hc |]. by exists r. }
  pose proof (Disconnect_settings s) as [Hds _]. rewrite Hd in Hds.
  cbn [final] in Hds.
  match type of Hc with Connect ?x = _ =>
    pose proof (Connect_confined x _ eq_refl) as [Hcs _]
  end.
  rewrite Hc in Hcs. cbn [final] in Hcs.
  assert (settings (sess s1) =
            (CfgUser cfg, CfgPassword cfg, CfgEndpoint cfg, BypassCert cfg,
             ConnTimeout (sess s))) as Hs1.
  { rewrite Hcs. cbn [sess with_sess]. rewrite settings_setters.
    revert Hds. unfold settings. by intros [= _ _ _ _ ->]. }
  split; [| split; [| split]]; [| | | by exists s0, e0, s1].
  - destruct err as [e |]; [by destruct Hr as [-> _] |].
    destruct Hr as (r & Hg & _).
    by rewrite (GetPlatformLatest_settings _ _ _ _ Hg).
  - destruct err as [e |]; [by destruct Hr as [_ ->] |].
    destruct Hr as (r & _ & ->). by destruct r.
  - destruct err as [e |]; [by destruct Hr as [_ ->] |].
    destruct Hr as (r & _ & ->). by destruct r.
Qed.

(** X20.  [Connect] of [OnefsConn] on a session that holds a client: the
    DELETE of the old session goes to the endpoint the session had,
    with the cookie of the token it had; the login that follows goes to
    the endpoint of the configuration with the user and the password of
    the configuration; and whatever is sent after that goes to the
    endpoint of the configuration too: requests for [platform/latest],
    or logouts and logins. *)
Theorem Onefs_Connect_exchanges fuel (cfg : OnefsCfg) (conn : OnefsConn)
    (s : State World) (c : HttpClient) :
  Client (sess s) = Some c →
  session_url_ok "DELETE" (sess s) →
  url_Parse_ok (CfgEndpoint cfg) = true →
  NewRequest_ok "POST" (CfgEndpoint cfg) sessionPath = true →
  ∃ logout login r1 r2 rest,
    trace (final (Onefs_Connect fuel cfg conn s))
      = (trace s ++ (logout, r1) :: (login, r2) :: rest)%list
    ∧ Method logout = "DELETE"
    ∧ Target logout = mkURL (Endpoint (sess s)) sessionPath ∅
    ∧ Header logout !! "Cookie" = Some ["isisessid=" +:+ SessionToken (sess s)]
    ∧ Method login = "POST"
    ∧ Target login = mkURL (CfgEndpoint cfg) sessionPath ∅
    ∧ ReqBody login = SessionRequest (CfgUser cfg) (CfgPassword cfg)
                        ["platform"; "namespace"]
    ∧ Forall (call_request (CfgEndpoint cfg) "GET"
                defaultPapiWrapperLatestPath ∅) rest.
Proof.
  intros Hc Hdel Hp Hn. unfold Onefs_Connect.
  rewrite (Disconnect_client Client_Do url_Parse_ok NewRequest_ok s c Hc Hdel).
  destruct (Client_Do (world s) c _) as [w1 r1] eqn:Hdo1.
  cbn [bind]. cbn zeta.
  match goal with |- context [bind (Connect ?x) _] => set (s0 := x) end.
  assert (Client (sess s0) = None) as Hc0 by done.
  assert (session_url_ok "POST" (sess s0)) as Hpost by (by split).
  destruct (Connect_login_fresh s0 Hc0 Hpost) as (w2 & r2 & Hdo2 & Hl).
  set (logout := logout_request (sess s) (mkURL (Endpoint (sess s)) sessionPath ∅)).
  set (login := login_request (sess s0) (mkURL (Endpoint (sess s0)) sessionPath ∅)).
  assert (∃ rest,
            trace (final (bind (Connect s0) (λ s1 err,
              match err with
              | Some e => Done s1 (conn, Some e)
              | None =>
                  bind (GetPlatformLatest fuel s1) (λ s2 r,
                    match r with
                    | inl _ => Done s2 (conn, None)
                    | inr apiVer =>
                        Done s2 ({| PlatformPath := "platform/" +:+ apiVer;
                                    RanPath := RanPath conn;
                                    ServicePath := ServicePath conn |}, None)
                    end)
              end)))
            = ((trace s ++ [(logout, r1)]) ++ (login, r2) :: rest)%list
            ∧ Forall (call_request (CfgEndpoint cfg) "GET"
                        defaultPapiWrapperLatestPath ∅) rest)
    as (rest & Ht & HF).
  { unfold Connect at 1. rewrite Hl. cbn [bind].
    fold login.
    assert (∀ A (o : Outcome World A) s1,
              trace s1 = (trace s0 ++ [(login, r2)])%list →
              confined (call_request (CfgEndpoint cfg) "GET"
                          defaultPapiWrapperLatestPath ∅) s1 o →
              ∃ rest, trace (final o)
                      = ((trace s ++ [(logout, r1)]) ++ (login, r2) :: rest)%list
                      ∧ Forall (call_request (CfgEndpoint cfg) "GET"
                                  defaultPapiWrapperLatestPath ∅) rest) as Hgo.
    { intros A o s1 Hs1 (_ & rest & Hr & HF). exists rest. split; [| done].
      rewrite Hr, Hs1. by rewrite <- app_assoc. }
    destruct r2 as [resp | msg]; [destruct (outside2xx (StatusCode resp)) |].
    2: { unfold Connect_tokens.
         destruct (scan_cookies_rest (init (sess s0)) (SetCookie resp))
           as (Hs & _ & _).
         repeat case_decide; cbn [bind with_sess sess].
         1, 2: eapply Hgo; [| by apply confined_here]; done.
         match goal with |- context [GetPlatformLatest fuel ?x] =>
           apply (Hgo _ _ x); [done |]
         end.
         unfold GetPlatformLatest.
         apply confined_bind; [apply confined_bind |].
         - match goal with |- confined _ ?x _ =>
             pose proof (Send_confined fuel "GET"
                           (PathString defaultPapiWrapperLatestPath) ∅ BodyNil ∅ x)
               as HS
           end.
           cbn [sess with_sess set_reauthCount Endpoint] in HS.
           rewrite (settings_Endpoint _ _ Hs) in HS. exact HS.
         - intros s2 [m | e2] _ _; [| by apply confined_here].
           destruct (m ≫= _) as [[] |]; by apply confined_here.
         - intros s2 [e2 | v] _ _; by apply confined_here. }
    all: eapply Hgo; [| by apply confined_here]; done. }
  exists logout, login, r1, r2, rest.
  split; [by rewrite Ht, <- app_assoc |].
  split; [done |]. split; [done |].
  split; [by vm_compute |].
  split; [done |]. split; [done |]. split; [done |]. done.
Qed.

End Behaviour.

(** ** The properties above on concrete runs *)

Lemma Connect_holds_client_witness :
  ∃ s', scripted_Connect (against [login_ok both_cookies] (NewSession cluster))
        = Done s' None
      ∧ is_Some (Client (sess s'))
      ∧ settings (sess s') = settings (NewSession cluster)
      ∧ Client (sess s') = Some (mkClient 120000000000 false).
Proof.
  eexists. split; [vm_compute; reflexivity |].
  destruct (Connect_holds_client scripted any_endpoint any_request
              (against [login_ok both_cookies] (NewSession cluster)) _ None
              ltac:(vm_compute; reflexivity)) as (H1 & H2 & H3).
  split; [exact H1 |]. split; [exact H2 | exact H3].
Defined.

Lemma Connect_exchanges_witness :
  session_url_ok any_endpoint any_request "POST" (connected cluster)
  ∧ ∃ logout login r1 r2,
      trace (final (scripted_Connect
                      (against [logged_out; login_ok both_cookies]
                               (connected cluster))))
        = [(logout, r1); (login, r2)]
      ∧ Method logout = "DELETE" ∧ Method login = "POST"
      ∧ Header logout !! "Cookie" = Some ["isisessid=old-sess"]
      ∧ Header login !! "Cookie" = None.
Proof.
  split; [by split |].
  destruct (proj1 (Connect_exchanges scripted any_endpoint any_request
                     (against [logged_out; login_ok both_cookies]
                              (connected cluster))
                     (conj eq_refl eq_refl))
              (mkClient (Duration_seconds defaultConnTimeout) false) eq_refl
              (conj eq_refl eq_refl))
    as (logout & login & r1 & r2 & Ht & Hm1 & Hm2 & _ & _ & Hc1 & _ & _ & Hc2 & _).
  exists logout, login, r1, r2.
  split; [exact Ht |]. split; [exact Hm1 |]. split; [exact Hm2 |].
  split; [exact Hc1 | exact Hc2].
Defined.

Lemma Connect_tokens_from_reply_witness :
  scripted_Connect_login (against [login_ok both_cookies] (NewSession cluster))
    = Done (final (scripted_Connect_login
                     (against [login_ok both_cookies] (NewSession cluster))))
           (inr (mkResponse 201 both_cookies
                   (json_text "{'services':['platform','namespace']}") false))
  ∧ ∃ s', scripted_Connect (against [login_ok both_cookies] (NewSession cluster))
          = Done s' None
        ∧ SessionToken (sess s') = "5f2a-91"
        ∧ CsrfToken (sess s') = "c7d0-44".
Proof.
  split; [vm_compute; reflexivity |].
  refine (Connect_tokens_from_reply scripted any_endpoint any_request
            (against [login_ok both_cookies] (NewSession cluster))
            (final (scripted_Connect_login
                      (against [login_ok both_cookies] (NewSession cluster))))
            (mkResponse 201 both_cookies
               (json_text "{'services':['platform','namespace']}") false)
            _ _ _).
  - intros _. by split.
  - intros _. by split.
  - vm_compute. reflexivity.
Defined.

Lemma Connect_failed_login_witness :
  ∃ s', scripted_Connect
          (against [logged_out; status_only 401 "denied"] (connected cluster))
        = Done s' (Some (ConnectStatus "denied"))
      ∧ is_Some (Client (sess s'))
      ∧ reauthCount (sess s') = 0
      ∧ (SessionToken (sess s'), CsrfToken (sess s')) = ("", "").
Proof.
  eexists. split; [vm_compute; reflexivity |].
  destruct (Connect_failed_login scripted any_endpoint any_request
              (against [logged_out; status_only 401 "denied"] (connected cluster))
              _ (ConnectStatus "denied")
              ltac:(vm_compute; reflexivity)
              ltac:(discriminate) ltac:(discriminate))
    as (H1 & H2 & _ & H3).
  split; [exact H1 |]. split; [exact H2 | exact H3].
Defined.

Lemma Send_without_client_witness :
  Client (sess (against two_pages (NewSession cluster))) = None
  ∧ (scripted_Send 1 "GET" (PathString "items") ∅ BodyNil ∅
       (against two_pages (NewSession cluster))
     = Panicked (against two_pages (NewSession cluster))
     ∨ (any_request "GET" cluster "items" = false
        ∧ scripted_Send 1 "GET" (PathString "items") ∅ BodyNil ∅
            (against two_pages (NewSession cluster))
          = Done (against two_pages (NewSession cluster))
                 (SendErr (SendSendRaw SendRawRequest)))).
Proof.
  split; [reflexivity |].
  apply (proj1 (Send_without_client scripted demo_Unmarshal any_endpoint
                  any_request 0 "GET" (PathString "items") ∅ BodyNil ∅
                  (against two_pages (NewSession cluster)))).
  reflexivity.
Defined.

Lemma Send_without_reauth_witness :
  trace (final (scripted_Send 1 "GET" (PathString "items") ∅ BodyNil ∅
                  (against two_pages (connected cluster))))
    = [ (items_request ∅, ok_json "{'items':[1,2],'resume':'abc'}");
        (items_request {[ "resume" := "abc" ]}, ok_json "{'items':[3],'total':3}") ]
  ∧ ¬ starved (scripted_Send 1 "GET" (PathString "items") ∅ BodyNil ∅
                 (against two_pages (connected cluster)))
  ∧ sess (final (scripted_Send 1 "GET" (PathString "items") ∅ BodyNil ∅
                   (against two_pages (connected cluster))))
    = connected cluster.
Proof.
  assert (trace (final (scripted_Send 1 "GET" (PathString "items") ∅ BodyNil ∅
                          (against two_pages (connected cluster))))
          = [ (items_request ∅, ok_json "{'items':[1,2],'resume':'abc'}");
              (items_request {[ "resume" := "abc" ]},
               ok_json "{'items':[3],'total':3}") ]) as Ht
    by (vm_compute; reflexivity).
  split; [exact Ht |].
  destruct (Send_without_reauth scripted demo_Unmarshal any_endpoint any_request
              0 "GET" (PathString "items") ∅ BodyNil ∅
              (against two_pages (connected cluster)) _ Ht) as (H1 & _ & H3 & _).
  - repeat constructor; intros H; vm_compute in H; discriminate H.
  - split; [exact H1 | exact H3].
Defined.

Lemma Send_returns_payload_only_witness :
  ∃ s', scripted_Send 1 "GET" (PathString "items") ∅ BodyNil ∅
          (against two_pages (connected cluster))
        = Done s' (SendOk (Some {[ "items" := JArray [num 1; num 2; num 3] ]}))
      ∧ ({[ "items" := JArray [num 1; num 2; num 3] ]} : gmap string JSON)
          !! "total" = None.
Proof.
  eexists. split; [vm_compute; reflexivity |].
  refine (proj2 (proj2 (Send_returns_payload_only scripted demo_Unmarshal
                          any_endpoint any_request 1 "GET" (PathString "items")
                          ∅ BodyNil ∅ (against two_pages (connected cluster))
                          _ _ _))).
  vm_compute. reflexivity.
Defined.

Lemma Send_single_page_witness :
  scripted_SendRaw "GET" (PathString "items") ∅ BodyNil ∅
    (against [ok_json "{'items':[3],'total':3}"] (connected cluster))
    = Done (mkState [] [(items_request ∅, ok_json "{'items':[3],'total':3}")]
              (connected cluster))
           (RawResp (mkResponse 200 [] (json_text "{'items':[3],'total':3}") false))
  ∧ scripted_Send 1 "GET" (PathString "items") ∅ BodyNil ∅
      (against [ok_json "{'items':[3],'total':3}"] (connected cluster))
    = Done (mkState [] [(items_request ∅, ok_json "{'items':[3],'total':3}")]
              (connected cluster))
           (SendOk (Some (strip_meta {[ "items" := JArray [num 3];
                                        "total" := num 3 ]}))).
Proof.
  split; [vm_compute; reflexivity |].
  refine (Send_single_page scripted demo_Unmarshal any_endpoint any_request
            0 "GET" (PathString "items") ∅ BodyNil ∅
            (against [ok_json "{'items':[3],'total':3}"] (connected cluster))
            _ (mkResponse 200 [] (json_text "{'items':[3],'total':3}") false)
            {[ "items" := JArray [num 3]; "total" := num 3 ]} _ _ _ _ _ _).
  - vm_compute. reflexivity.
  - reflexivity.
  - reflexivity.
  - vm_compute. discriminate.
  - vm_compute. reflexivity.
  - left. vm_compute. reflexivity.
Defined.

Lemma Send_retries_after_Reconnect_witness :
  scripted_Reconnect
    (with_sess (set_reauthCount 1 (connected cluster))
       (mkState [logged_out; login_ok both_cookies; ok_json "{'items':[3]}"]
                [(items_request ∅, unauthorized)] (connected cluster)))
    = Done (final (scripted_Reconnect
             (with_sess (set_reauthCount 1 (connected cluster))
                (mkState [logged_out; login_ok both_cookies; ok_json "{'items':[3]}"]
                         [(items_request ∅, unauthorized)] (connected cluster)))))
           None
  ∧ scripted_Send 2 "GET" (PathString "items") ∅ BodyNil ∅
      (against [unauthorized; logged_out; login_ok both_cookies;
                ok_json "{'items':[3]}"] (connected cluster))
    = scripted_Send 1 "GET" (PathString "items") ∅ BodyNil ∅
        (final (scripted_Reconnect
           (with_sess (set_reauthCount 1 (connected cluster))
              (mkState [logged_out; login_ok both_cookies; ok_json "{'items':[3]}"]
                       [(items_request ∅, unauthorized)] (connected cluster)))))
  ∧ reauthCount (sess (final (scripted_Reconnect
           (with_sess (set_reauthCount 1 (connected cluster))
              (mkState [logged_out; login_ok both_cookies; ok_json "{'items':[3]}"]
                       [(items_request ∅, unauthorized)] (connected cluster))))))
    = 0.
Proof.
  split; [vm_compute; reflexivity |].
  refine (proj2 (proj2 (Send_retries_after_Reconnect scripted demo_Unmarshal
            any_endpoint any_request 1 "GET" (PathString "items") ∅ BodyNil ∅
            (against [unauthorized; logged_out; login_ok both_cookies;
                      ok_json "{'items':[3]}"] (connected cluster))
            (mkState [logged_out; login_ok both_cookies; ok_json "{'items':[3]}"]
                     [(items_request ∅, unauthorized)] (connected cluster))
            (mkResponse 401 [] "Authorization required" false) _ _))
            _ _ _ None _).
  - vm_compute. reflexivity.
  - reflexivity.
  - reflexivity.
  - reflexivity.
  - vm_compute. reflexivity.
Defined.

Lemma mergePage_any_order_witness :
  reverse (map_to_list ({[ "items" := JArray [num 3]; "more" := JString "x" ]}
                          : gmap string JSON))
    ≡ₚ map_to_list ({[ "items" := JArray [num 3]; "more" := JString "x" ]}
                      : gmap string JSON)
  ∧ mergeList {[ "items" := JArray [num 1; num 2] ]}
      (reverse (map_to_list ({[ "items" := JArray [num 3]; "more" := JString "x" ]}
                               : gmap string JSON)))
    = mergePage {[ "items" := JArray [num 1; num 2] ]}
        {[ "items" := JArray [num 3]; "more" := JString "x" ]}.
Proof.
  split; [apply reverse_Permutation |].
  apply mergePage_any_order. apply reverse_Permutation.
Defined.

Lemma setHeaders_any_order_witness :
  reverse (defaultHeaders (connected cluster)) ≡ₚ defaultHeaders (connected cluster)
  ∧ add_defaults (reverse (defaultHeaders (connected cluster)))
      (set_supplied {[ "Accept" := "text/plain" ]} ∅)
    = setHeaders ∅ (connected cluster) {[ "Accept" := "text/plain" ]}.
Proof.
  split; [apply reverse_Permutation |].
  apply setHeaders_any_order. apply reverse_Permutation.
Defined.

Lemma cookie_capture_shape_witness :
  rexSession "isisessid=5f2a-91; path=/; HttpOnly; Secure" = Some "5f2a-91"
  ∧ captured_from "isisessid=" "5f2a-91"
      "isisessid=5f2a-91; path=/; HttpOnly; Secure".
Proof.
  split; [reflexivity |].
  apply (proj1 (cookie_capture_shape
                  "isisessid=5f2a-91; path=/; HttpOnly; Secure" "5f2a-91")).
  reflexivity.
Defined.

Lemma Send_two_pages_witness :
  scripted_SendRaw "GET" (PathString "items") {[ "resume" := "abc" ]} BodyNil ∅
    (mkState [ok_json "{'items':[3],'total':3}"]
             [(items_request ∅, ok_json "{'items':[1,2],'resume':'abc'}")]
             (connected cluster))
    = Done (mkState []
              [ (items_request ∅, ok_json "{'items':[1,2],'resume':'abc'}");
                (items_request {[ "resume" := "abc" ]},
                 ok_json "{'items':[3],'total':3}") ]
              (connected cluster))
           (RawResp (mkResponse 200 [] (json_text "{'items':[3],'total':3}") false))
  ∧ ∃ m, scripted_Send 1 "GET" (PathString "items") ∅ BodyNil ∅
           (against two_pages (connected cluster))
         = Done (mkState []
                   [ (items_request ∅, ok_json "{'items':[1,2],'resume':'abc'}");
                     (items_request {[ "resume" := "abc" ]},
                      ok_json "{'items':[3],'total':3}") ]
                   (connected cluster))
                (SendOk (Some m))
       ∧ m !! "items" = Some (JArray [num 1; num 2; num 3])
       ∧ m !! "total" = None.
Proof.
  split; [vm_compute; reflexivity |].
  pose proof (Send_two_pages scripted demo_Unmarshal any_endpoint any_request
              0 "GET" (PathString "items") ∅ BodyNil ∅
              (against two_pages (connected cluster))
              (mkState [ok_json "{'items':[3],'total':3}"]
                 [(items_request ∅, ok_json "{'items':[1,2],'resume':'abc'}")]
                 (connected cluster))
              (mkState []
                 [ (items_request ∅, ok_json "{'items':[1,2],'resume':'abc'}");
                   (items_request {[ "resume" := "abc" ]},
                    ok_json "{'items':[3],'total':3}") ]
                 (connected cluster))
              (mkResponse 200 [] (json_text "{'items':[1,2],'resume':'abc'}") false)
              (mkResponse 200 [] (json_text "{'items':[3],'total':3}") false)
              {[ "items" := JArray [num 1; num 2]; "resume" := JString "abc" ]}
              {[ "items" := JArray [num 3]; "total" := num 3 ]}
              "abc") as H.
  specialize (H ltac:(vm_compute; reflexivity) eq_refl eq_refl).
  specialize (H ltac:(vm_compute; discriminate)).
  specialize (H ltac:(vm_compute; reflexivity)).
  specialize (H ltac:(vm_compute; reflexivity)).
  specialize (H ltac:(discriminate)).
  specialize (H ltac:(vm_compute; reflexivity) eq_refl eq_refl).
  specialize (H ltac:(vm_compute; discriminate)).
  specialize (H ltac:(vm_compute; reflexivity)).
  specialize (H ltac:(left; vm_compute; reflexivity)).
  destruct H as [_ H].
  destruct H as (m & Hm & Hk).
  - intros k a d H1 H2.
    destruct (decide (k = "items")) as [-> | Hi].
    + vm_compute in H2. injection H2 as <-. by eexists.
    + destruct (decide (k = "total")) as [-> | Ht].
      * vm_compute in H1. discriminate H1.
      * rewrite lookup_insert_ne, lookup_singleton_ne in H2 by done.
        discriminate H2.
  - exists m. split; [exact Hm |].
    split; [exact (Hk "items") | exact (Hk "total")].
Defined.

Lemma GetPlatformLatest_first_reply_witness :
  scripted_SendRaw "GET" (PathString defaultPapiWrapperLatestPath) ∅ BodyNil ∅
    (against [ok_json "{'latest':'17'}"] (connected cluster))
    = Done (final (scripted_SendRaw "GET" (PathString defaultPapiWrapperLatestPath)
                     ∅ BodyNil ∅
                     (against [ok_json "{'latest':'17'}"] (connected cluster))))
           (RawResp (mkResponse 200 [] (json_text "{'latest':'17'}") false))
  ∧ scripted_GetPlatformLatest 1
      (against [ok_json "{'latest':'17'}"] (connected cluster))
    = Done (final (scripted_SendRaw "GET" (PathString defaultPapiWrapperLatestPath)
                     ∅ BodyNil ∅
                     (against [ok_json "{'latest':'17'}"] (connected cluster))))
           (inr "17").
Proof.
  split; [vm_compute; reflexivity |].
  refine (proj2 (GetPlatformLatest_first_reply scripted latest_Unmarshal
                   any_endpoint any_request 0
                   (against [ok_json "{'latest':'17'}"] (connected cluster))
                   _ (mkResponse 200 [] (json_text "{'latest':'17'}") false)
                   _ _ _)
            {[ "latest" := JString "17" ]} _ _ _).
  - vm_compute. reflexivity.
  - reflexivity.
  - reflexivity.
  - vm_compute. discriminate.
  - vm_compute. reflexivity.
  - left. vm_compute. reflexivity.
Defined.

Lemma Onefs_Connect_result_witness :
  ∃ s', scripted_Onefs_Connect 1 cluster_cfg NewPapiConn
          (against [login_ok both_cookies; ok_json "{'latest':'17'}"]
                   (NewSession ""))
        = Done s' (mkConn "platform/17" "" "", None)
      ∧ settings (sess s') = ("root", "hunter2", cluster, true, defaultConnTimeout)
      ∧ ∃ s1 r, scripted_GetPlatformLatest 1 s1 = Done s' r
                ∧ mkConn "platform/17" "" ""
                  = match r with
                    | inl _ => NewPapiConn
                    | inr apiVer => mkConn ("platform/" +:+ apiVer) "" ""
                    end.
Proof.
  eexists. split; [vm_compute; reflexivity |].
  destruct (Onefs_Connect_result scripted latest_Unmarshal any_endpoint
              any_request 1 cluster_cfg NewPapiConn
              (mkConn "platform/17" "" "")
              (against [login_ok both_cookies; ok_json "{'latest':'17'}"]
                       (NewSession ""))
              _ None ltac:(vm_compute; reflexivity))
    as (Hs & _ & _ & s0 & e0 & s1 & _ & _ & r & Hg & Hr).
  split; [exact Hs |]. exists s1, r. split; [exact Hg | exact Hr].
Defined.

Lemma Onefs_Connect_exchanges_witness :
  session_url_ok any_endpoint any_request "DELETE" (connected old_cluster)
  ∧ ∃ logout login r1 r2 rest,
      trace (final (scripted_Onefs_Connect 1 cluster_cfg NewPapiConn
                      (against [logged_out; login_ok both_cookies;
                                ok_json "{'latest':'17'}"]
                               (connected old_cluster))))
        = (logout, r1) :: (login, r2) :: rest
      ∧ Target logout = mkURL old_cluster sessionPath ∅
      ∧ Target login = mkURL cluster sessionPath ∅
      ∧ ReqBody login = SessionRequest "root" "hunter2" ["platform"; "namespace"].
Proof.
  split; [by split |].
  destruct (Onefs_Connect_exchanges scripted latest_Unmarshal any_endpoint
              any_request 1 cluster_cfg NewPapiConn
              (against [logged_out; login_ok both_cookies;
                        ok_json "{'latest':'17'}"] (connected old_cluster))
              (mkClient (Duration_seconds defaultConnTimeout) false)
              eq_refl (conj eq_refl eq_refl) eq_refl eq_refl)
    as (logout & login & r1 & r2 & rest & Ht & _ & H1 & _ & _ & H2 & H3 & _).
  exists logout, login, r1, r2, rest.
  split; [exact Ht |]. split; [exact H1 |]. split; [exact H2 | exact H3].
Defined.
